(** * nep5-faucet: the request-admission pipeline of [src/app/faucet.py]

    A shallow embedding of the three Klein routes of [ItemStore]
    ([index], [ask_for_assets], [app_success]), of [_get_context] and
    [_make_tx], and of the two DynamoDB tables declared in
    [src/app/db_models], followed by the properties of the rate limiter.

    Conventions.
    - A [datetime] is an integer number of microseconds (the resolution of
      [datetime.now()] and of pynamodb's [UTCDateTimeAttribute]).
    - The float returned by [time()] is kept at whole seconds; it only feeds
      the advisory [ttl] attribute and the transaction nonce.
    - A DynamoDB table with a hash key and a range key holds one item per
      (hash key, range key) pair: [save] overwrites.
    - A byte string is a [string].  Text (a Python [str]) is carried by its
      UTF-8 encoding, so a decode that succeeds returns the bytes it was
      given, and [str.strip] works on encoded characters. *)

From Stdlib Require Import ZArith Ascii String.
From stdpp Require Import base option list sorting strings pretty gmap fin_maps fin_map_dom.

Local Open Scope Z_scope.

#[local] Set Warnings "-register-all".

(** ** Time *)

Definition datetime := Z.

(** [timedelta(days=d)], in microseconds. *)
Definition timedelta (days : Z) : Z := days * 86400 * 1000000.

(** ** The ledger: [db_models.IPRequest] and [db_models.FaucetRequest] *)

Module Ledger.

(** Both models have a unicode hash key ([ip_address] or
    [wallet_address]), the range key [last_visited] and the number
    [ttl]. *)
Record Item := mkItem {
  hash_key : string;
  last_visited : datetime;
  ttl : Z
}.

(** The stored rows of one table: primary key to the remaining attribute. *)
Abbreviation Table := (gmap (string * Z) Z).

Definition primary_key (item : Item) : string * Z :=
  (hash_key item, last_visited item).

(** [item.save()]: a put, replacing any row with the same primary key. *)
Definition save (item : Item) (tbl : Table) : Table :=
  <[primary_key item := ttl item]> tbl.

(** The key condition of a query: equality on the hash key and the range
    key condition [last_visited > bound]. *)
Definition key_condition (hk : string) (bound : datetime)
    (row : (string * Z) * Z) : Prop :=
  row.1.1 = hk ∧ bound < row.1.2.

#[global] Instance key_condition_dec hk bound row :
  Decision (key_condition hk bound row).
Proof. unfold key_condition. apply _. Defined.

Definition to_item (row : (string * Z) * Z) : Item :=
  mkItem row.1.1 row.1.2 row.2.

Definition range_le (a b : Item) : Prop := last_visited a ≤ last_visited b.

#[global] Instance range_le_dec a b : Decision (range_le a b).
Proof. unfold range_le. apply _. Defined.

(** [Model.query(hash_key=hk, range_key_condition=Model.last_visited > bound,
    limit=n)], by the contract of the store: the rows under the hash key
    whose range key satisfies the condition, in ascending range-key order,
    at most [n] of them. *)
Definition query (tbl : Table) (hk : string) (bound : datetime)
    (limit : nat) : list Item :=
  take limit
    (merge_sort range_le (to_item <$> map_to_list (filter (key_condition hk bound) tbl))).

(** [count = 0; for item in query(...): count += 1] *)
Definition count_loop (items : list Item) : Z :=
  foldl (λ count _, count + 1) 0 items.

End Ledger.

Import Ledger.

(** ** Python values seen by the handlers *)

(** What [InvokeContract] hands back: the relayed [InvocationTransaction]
    (its [Hash.ToString()] and its [ToJson()] dump), or [False]. *)
Inductive TxValue :=
| InvocationTransaction (Hash : string) (ToJson : string)
| PyFalse.

(** [str(tx)] as interpolated into the error message. *)
Definition str_tx (tx : TxValue) : string :=
  match tx with
  | InvocationTransaction h _ => h
  | PyFalse => "False"
  end.

(** [type(tx) is InvocationTransaction] *)
Definition is_InvocationTransaction (tx : TxValue) : bool :=
  match tx with InvocationTransaction _ _ => true | PyFalse => false end.

(** Truth value of [self.sent_tx] ([None] and [False] are falsy). *)
Definition truthy (v : option TxValue) : bool :=
  match v with
  | Some tx => is_InvocationTransaction tx
  | None => false
  end.

(** [str(x)] of an optional string: [str(None)] is the text "None". *)
Definition str (x : option string) : string :=
  match x with Some s => s | None => "None" end.

(** Contract arguments collected in [self.invoke_args] and [self.params]. *)
Inductive Arg :=
| ArgBytes (b : string)
| ArgStr (s : string)
| ArgInt (n : Z)
| ArgList (l : list Arg).

(** Exceptions are carried by their [str(e)]. *)
Definition Exn := string.

Inductive result (A : Type) :=
| Returned (a : A)
| Raised (e : Exn).
Arguments Returned {A} a.
Arguments Raised {A} e.

(** ** Bytes and text *)

Definition byte (c : ascii) : Z := Z.of_nat (nat_of_ascii c).

Definition is_continuation (c : ascii) : bool :=
  (128 <=? byte c) && (byte c <=? 191).

Definition hex_digit (n : Z) : string :=
  match n with
  | 0 => "0" | 1 => "1" | 2 => "2" | 3 => "3" | 4 => "4" | 5 => "5" | 6 => "6"
  | 7 => "7" | 8 => "8" | 9 => "9" | 10 => "a" | 11 => "b" | 12 => "c"
  | 13 => "d" | 14 => "e" | _ => "f"
  end.

(** [str(e)] of a [UnicodeDecodeError] that spans one byte, and of one that
    spans the bytes from [pos] to [last]. *)
Definition decode_error_byte (c : ascii) (pos : nat) (reason : string) : Exn :=
  "'utf-8' codec can't decode byte 0x" +:+ hex_digit (byte c `div` 16)
    +:+ hex_digit (byte c `mod` 16) +:+ " in position " +:+ pretty pos
    +:+ ": " +:+ reason.

Definition decode_error_bytes (pos last : nat) (reason : string) : Exn :=
  "'utf-8' codec can't decode bytes in position " +:+ pretty pos +:+ "-"
    +:+ pretty last +:+ ": " +:+ reason.

(** The first error the strict UTF-8 decoder of CPython finds in [s], whose
    first byte sits at offset [pos]: a byte that cannot start a character
    (0x80-0xC1, 0xF5-0xFF), a character cut short by the end of the input,
    or a byte that cannot continue the character begun (this covers the
    over-long forms, the surrogates U+D800-DFFF and what lies beyond
    U+10FFFF). *)
Fixpoint utf8_error (s : string) (pos : nat) : option Exn :=
  match s with
  | EmptyString => None
  | String c0 s1 =>
      if byte c0 <? 128 then utf8_error s1 (pos + 1)
      else if (byte c0 <? 194) || (244 <? byte c0) then
        Some (decode_error_byte c0 pos "invalid start byte")
      else
        match s1 with
        | EmptyString => Some (decode_error_byte c0 pos "unexpected end of data")
        | String c1 s2 =>
            if byte c0 <? 224 then
              if is_continuation c1 then utf8_error s2 (pos + 2)
              else Some (decode_error_byte c0 pos "invalid continuation byte")
            else if negb (is_continuation c1)
                    || (if byte c0 <? 240
                        then if byte c1 <? 160 then byte c0 =? 224 else byte c0 =? 237
                        else if byte c1 <? 144 then byte c0 =? 240 else byte c0 =? 244)
            then Some (decode_error_byte c0 pos "invalid continuation byte")
            else
              match s2 with
              | EmptyString =>
                  Some (decode_error_bytes pos (pos + 1) "unexpected end of data")
              | String c2 s3 =>
                  if negb (is_continuation c2) then
                    Some (decode_error_bytes pos (pos + 1) "invalid continuation byte")
                  else if byte c0 <? 240 then utf8_error s3 (pos + 3)
                  else
                    match s3 with
                    | EmptyString =>
                        Some (decode_error_bytes pos (pos + 2) "unexpected end of data")
                    | String c3 s4 =>
                        if is_continuation c3 then utf8_error s4 (pos + 4)
                        else Some (decode_error_bytes pos (pos + 2)
                                     "invalid continuation byte")
                    end
              end
        end
  end.

(** [raw.decode('utf-8')]: the text, or [UnicodeDecodeError]. *)
Definition decode_utf8 (raw : string) : result string :=
  match utf8_error raw 0 with
  | Some e => Raised e
  | None => Returned raw
  end.

(** White space as [str.strip()] understands it, that is [str.isspace]:
    U+0009-000D, U+001C-0020, then U+0085 and U+00A0 (two bytes), then
    U+1680, U+2000-200A, U+2028, U+2029, U+202F, U+205F and U+3000 (three
    bytes). *)
Definition isspace (c0 : ascii) : bool :=
  ((9 <=? byte c0) && (byte c0 <=? 13)) || ((28 <=? byte c0) && (byte c0 <=? 32)).

Definition isspace2 (c0 c1 : ascii) : bool :=
  (byte c0 =? 194) && ((byte c1 =? 133) || (byte c1 =? 160)).

Definition isspace3 (c0 c1 c2 : ascii) : bool :=
  ((byte c0 =? 225) && (byte c1 =? 154) && (byte c2 =? 128))
  || ((byte c0 =? 226) && (byte c1 =? 128)
      && (((128 <=? byte c2) && (byte c2 <=? 138))
          || (byte c2 =? 168) || (byte c2 =? 169) || (byte c2 =? 175)))
  || ((byte c0 =? 226) && (byte c1 =? 129) && (byte c2 =? 159))
  || ((byte c0 =? 227) && (byte c1 =? 128) && (byte c2 =? 128)).

(** [str.lstrip()] *)
Fixpoint lstrip (s : string) : string :=
  match s with
  | EmptyString => s
  | String c0 s1 =>
      if isspace c0 then lstrip s1
      else
        match s1 with
        | EmptyString => s
        | String c1 s2 =>
            if isspace2 c0 c1 then lstrip s2
            else
              match s2 with
              | EmptyString => s
              | String c2 s3 => if isspace3 c0 c1 c2 then lstrip s3 else s
              end
        end
  end.

(** Nothing but white space. *)
Definition blank (s : string) : bool :=
  match lstrip s with EmptyString => true | String _ _ => false end.

(** [str.rstrip()]: the text up to its last character that is not white
    space. *)
Fixpoint rstrip (s : string) : string :=
  if blank s then EmptyString
  else match s with
       | EmptyString => EmptyString
       | String c s' => String c (rstrip s')
       end.

(** [str.strip()] *)
Definition strip (s : string) : string := rstrip (lstrip s).

(** [struct.pack('>i', n)]: four big-endian bytes, or [struct.error]. *)
Definition struct_pack_i (n : Z) : result (list Z) :=
  if decide (-2147483648 ≤ n ≤ 2147483647) then
    let u := n `mod` 4294967296 in
    Returned [u ≫ 24; (u ≫ 16) `mod` 256; (u ≫ 8) `mod` 256; u `mod` 256]
  else Raised "'i' format requires -2147483648 <= number <= 2147483647".

(** ** The request and the collaborators *)

Record Request := mkRequest {
  args : gmap string (list string);      (* form fields: bytes to list of bytes *)
  headers : gmap string string           (* request headers *)
}.

Definition getHeader (request : Request) (key : string) : option string :=
  headers request !! key.

Inductive TableName := IPRequestTable | FaucetRequestTable.

#[global] Instance TableName_eq_dec : EqDecision TableName.
Proof. solve_decision. Defined.

(** The answers of everything outside the repository during one request:
    the wallet and chain, the clocks, the store's faults and the node. *)
Record World := mkWorld {
  GetTokenBalance : option Z;
  Height : Z;
  WalletHeight : Z;
  datetime_now : datetime;               (* datetime.now() *)
  time_ask : Z;                          (* time() in ask_for_assets *)
  time_make_tx : Z;                      (* time() in _make_tx *)
  query_raises : TableName → option Exn;
  save_raises : TableName → option Exn;
  AddrStrToScriptHash : string → result string;
  TestInvokeContract : list Arg → list Z → result (option string);
  InvokeContract : option string → result TxValue
}.

(** Calls that leave the process, in the order they are made. *)
Inductive Call :=
| CallQuery (t : TableName) (hk : string) (bound : datetime) (limit : nat)
| CallSave (t : TableName) (item : Item)
| CallTestInvoke (params : list Arg) (nonce : list Z)
| CallInvoke (tx : option string).

Definition is_ledger_read (c : Call) : bool :=
  match c with CallQuery _ _ _ _ => true | _ => false end.

Definition is_ledger_write (c : Call) : bool :=
  match c with CallSave _ _ => true | _ => false end.

Definition same_table (a b : TableName) : bool :=
  match a, b with
  | IPRequestTable, IPRequestTable => true
  | FaucetRequestTable, FaucetRequestTable => true
  | _, _ => false
  end.

Definition is_query_of (t : TableName) (c : Call) : bool :=
  match c with CallQuery t' _ _ _ => same_table t' t | _ => false end.

(** ** [ItemStore] *)

Record ItemStore := mkItemStore {
  token_name : string;
  token_symbol : string;
  token_script_hash : string;
  faucet_wallet_addr : string;
  params : list Arg;
  invoke_args : list Arg;
  sent_tx : option TxValue
}.

Definition OPERATION : string := "transfer".

(** The keys the handlers themselves put into the template context. *)
Definition context_keys : list string :=
  ["message"; "faucet_wallet"; "height"; "wallet_height"; "token_name";
   "token_symbol"; "token_script_hash"; "error"; "come_back"; "address_to";
   "tx_json"].

(** The template context.  The balance sits under the key
    [f'{self.token_symbol}'], kept here in a field of its own: the record
    stands for the dict of a store whose token symbol is none of
    [context_keys].  With a symbol that is one of them the balance and that
    entry would overwrite each other, which the record does not show. *)
Record Ctx := mkCtx {
  message : option string;
  faucet_wallet : string;
  height : Z;
  wallet_height : Z;
  balance : Z;
  ctx_token_name : string;
  ctx_token_symbol : string;
  ctx_token_script_hash : string;
  error : option bool;
  come_back : option bool;
  address_to : option string;
  tx_json : option string
}.

Definition set_message (v : string) (c : Ctx) : Ctx :=
  mkCtx (Some v) (faucet_wallet c) (height c) (wallet_height c) (balance c)
    (ctx_token_name c) (ctx_token_symbol c) (ctx_token_script_hash c)
    (error c) (come_back c) (address_to c) (tx_json c).

Definition set_error (v : bool) (c : Ctx) : Ctx :=
  mkCtx (message c) (faucet_wallet c) (height c) (wallet_height c) (balance c)
    (ctx_token_name c) (ctx_token_symbol c) (ctx_token_script_hash c)
    (Some v) (come_back c) (address_to c) (tx_json c).

Definition set_come_back (v : bool) (c : Ctx) : Ctx :=
  mkCtx (message c) (faucet_wallet c) (height c) (wallet_height c) (balance c)
    (ctx_token_name c) (ctx_token_symbol c) (ctx_token_script_hash c)
    (error c) (Some v) (address_to c) (tx_json c).

Definition set_address_to (v : string) (c : Ctx) : Ctx :=
  mkCtx (message c) (faucet_wallet c) (height c) (wallet_height c) (balance c)
    (ctx_token_name c) (ctx_token_symbol c) (ctx_token_script_hash c)
    (error c) (come_back c) (Some v) (tx_json c).

Definition set_tx_json (v : string) (c : Ctx) : Ctx :=
  mkCtx (message c) (faucet_wallet c) (height c) (wallet_height c) (balance c)
    (ctx_token_name c) (ctx_token_symbol c) (ctx_token_script_hash c)
    (error c) (come_back c) (address_to c) (Some v).

(** What a route hands back to Klein. *)
Inductive Response :=
| Render (template : string) (ctx : Ctx)
| Redirect (url : string).

(** The process state shared by all requests. *)
Record Server := mkServer {
  self : ItemStore;
  IPRequest_rows : Table;
  FaucetRequest_rows : Table;
  calls : list Call
}.

Definition rows (t : TableName) (s : Server) : Table :=
  match t with
  | IPRequestTable => IPRequest_rows s
  | FaucetRequestTable => FaucetRequest_rows s
  end.

(** ** A state-and-exception monad for the handler bodies

    The locals of [ask_for_assets] live in the state next to [self] and the
    tables, so that what was assigned before a [raise] is still there in the
    [except] clause. *)

Record Frame := mkFrame {
  srv : Server;
  ctx : Ctx;
  proceed : bool;
  step : Z;
  iprequest_item : option Item;
  faucetrequest_item : option Item;
  client : option string
}.

Definition M (A : Type) : Type := Frame → result A * Frame.

#[global] Instance M_ret : MRet M := λ A a fr, (Returned a, fr).

#[global] Instance M_bind : MBind M := λ A B f m fr,
  match m fr with
  | (Returned a, fr') => f a fr'
  | (Raised e, fr') => (Raised e, fr')
  end.

Definition raise {A} (e : Exn) : M A := λ fr, (Raised e, fr).

Definition lift {A} (r : result A) : M A := λ fr, (r, fr).

Definition gets {A} (f : Frame → A) : M A := λ fr, (Returned (f fr), fr).

Definition modify (f : Frame → Frame) : M unit := λ fr, (Returned tt, f fr).

(** [try: body / except Exception as e: handler e] *)
Definition try_except {A} (body : M A) (handler : Exn → M A) : M A := λ fr,
  match body fr with
  | (Returned a, fr') => (Returned a, fr')
  | (Raised e, fr') => handler e fr'
  end.

Definition with_srv (f : Server → Server) (fr : Frame) : Frame :=
  mkFrame (f (srv fr)) (ctx fr) (proceed fr) (step fr)
    (iprequest_item fr) (faucetrequest_item fr) (client fr).

Definition with_ctx (f : Ctx → Ctx) (fr : Frame) : Frame :=
  mkFrame (srv fr) (f (ctx fr)) (proceed fr) (step fr)
    (iprequest_item fr) (faucetrequest_item fr) (client fr).

Definition with_proceed (v : bool) (fr : Frame) : Frame :=
  mkFrame (srv fr) (ctx fr) v (step fr)
    (iprequest_item fr) (faucetrequest_item fr) (client fr).

Definition with_step (v : Z) (fr : Frame) : Frame :=
  mkFrame (srv fr) (ctx fr) (proceed fr) v
    (iprequest_item fr) (faucetrequest_item fr) (client fr).

Definition with_iprequest_item (v : Item) (fr : Frame) : Frame :=
  mkFrame (srv fr) (ctx fr) (proceed fr) (step fr)
    (Some v) (faucetrequest_item fr) (client fr).

Definition with_faucetrequest_item (v : Item) (fr : Frame) : Frame :=
  mkFrame (srv fr) (ctx fr) (proceed fr) (step fr)
    (iprequest_item fr) (Some v) (client fr).

Definition with_client (v : option string) (fr : Frame) : Frame :=
  mkFrame (srv fr) (ctx fr) (proceed fr) (step fr)
    (iprequest_item fr) (faucetrequest_item fr) v.

Definition log_call (c : Call) (s : Server) : Server :=
  mkServer (self s) (IPRequest_rows s) (FaucetRequest_rows s) (calls s ++ [c]).

Definition put_row (t : TableName) (item : Item) (s : Server) : Server :=
  match t with
  | IPRequestTable =>
      mkServer (self s) (save item (IPRequest_rows s)) (FaucetRequest_rows s) (calls s)
  | FaucetRequestTable =>
      mkServer (self s) (IPRequest_rows s) (save item (FaucetRequest_rows s)) (calls s)
  end.

Definition with_self (f : ItemStore → ItemStore) (s : Server) : Server :=
  mkServer (f (self s)) (IPRequest_rows s) (FaucetRequest_rows s) (calls s).

Definition set_sent_tx (v : option TxValue) (i : ItemStore) : ItemStore :=
  mkItemStore (token_name i) (token_symbol i) (token_script_hash i)
    (faucet_wallet_addr i) (params i) (invoke_args i) v.

Definition set_invoke_args (v : list Arg) (i : ItemStore) : ItemStore :=
  mkItemStore (token_name i) (token_symbol i) (token_script_hash i)
    (faucet_wallet_addr i) (params i) v (sent_tx i).

Definition set_params (v : list Arg) (i : ItemStore) : ItemStore :=
  mkItemStore (token_name i) (token_symbol i) (token_script_hash i)
    (faucet_wallet_addr i) v (invoke_args i) (sent_tx i).

Section Handlers.

Context (w : World).

(** *** Store access, as seen from the handler *)

(** [for item in Model.query(...)], with the store's answer or fault. *)
Definition Model_query (t : TableName) (hk : string) (bound : datetime)
    (limit : nat) : M (list Item) :=
  modify (with_srv (log_call (CallQuery t hk bound limit)));;
  match query_raises w t with
  | Some e => raise e
  | None => gets (λ fr, query (rows t (srv fr)) hk bound limit)
  end.

(** [item.save()]; a faulting put leaves the table as it was. *)
Definition Model_save (t : TableName) (item : Item) : M unit :=
  modify (with_srv (log_call (CallSave t item)));;
  match save_raises w t with
  | Some e => raise e
  | None => modify (with_srv (put_row t item))
  end.

(** *** [_get_context] *)
Definition _get_context (s : Server) : Ctx :=
  let token_balance := default 0 (GetTokenBalance w) in
  {| message := Some "Welcome to NEP-5 Faucet";
     faucet_wallet := faucet_wallet_addr (self s);
     height := Height w;
     wallet_height := WalletHeight w;
     balance := token_balance;
     ctx_token_name := token_name (self s);
     ctx_token_symbol := token_symbol (self s);
     ctx_token_script_hash := token_script_hash (self s);
     error := None;
     come_back := None;
     address_to := None;
     tx_json := None |}.

(** *** [_make_tx]

    The logging of the test invocation and the three-second sleep are left
    out; [self.params] holds the value of [self.invoke_args] at the time it
    is built. *)
Definition _make_tx (address_to : string) : M TxValue :=
  let drip_amount := 10000 in
  let amount := drip_amount * 100000000 in
  modify (with_srv (with_self (set_invoke_args [])));;
  modify (with_srv (with_self (set_params [])));;
  me ← gets (λ fr, self (srv fr));
  scripthash_from ← lift (AddrStrToScriptHash w (faucet_wallet_addr me));
  let scripthash_to := address_to in
  let invoke_args :=
    [ArgBytes scripthash_from; ArgBytes scripthash_to; ArgInt amount] in
  modify (with_srv (with_self (set_invoke_args invoke_args)));;
  let params :=
    [ArgBytes (token_script_hash me); ArgStr OPERATION; ArgList invoke_args] in
  modify (with_srv (with_self (set_params params)));;
  nonce ← lift (struct_pack_i (time_make_tx w));
  modify (with_srv (log_call (CallTestInvoke params nonce)));;
  tx ← lift (TestInvokeContract w params nonce);
  modify (with_srv (log_call (CallInvoke tx)));;
  sent ← lift (InvokeContract w tx);
  modify (with_srv (with_self (set_sent_tx (Some sent))));;
  mret sent.

(** *** [ask_for_assets], route [/ask] *)

Section Ask.

Context (request : Request).

Definition now : datetime := datetime_now w.
Definition past_week : datetime := now - timedelta 7.
Definition epochTs : Z := time_ask w.
Definition week_in_sec : Z := 60 * 60 * 24 * 7.
Definition expire_date : Z := epochTs + week_in_sec.

(** Lines 252-274: the IPRequest step. *)
Definition ip_block : M unit :=
  p ← gets proceed; s ← gets step;
  if p && (s =? 0) then
    let client := str (getHeader request "x-real-ip") in
    modify (with_client (Some client));;
    modify (with_iprequest_item (mkItem client now expire_date));;
    items ← Model_query IPRequestTable client past_week 10;
    let count := count_loop items in
    if count >=? 3 then
      modify (with_proceed false);;
      modify (with_ctx (set_message
        "You have requested too many times for this time period. Try again next week."));;
      modify (with_ctx (set_error true))
    else
      s ← gets step; modify (with_step (s + 1))
  else if p && (s =? 0) then
    modify (with_ctx (set_error true));;
    modify (with_ctx (set_message "Request failed. Please try again."))
  else mret tt.

(** Lines 276-302: the FaucetRequest step and the two saves. *)
Definition wallet_block (address_to : string) : M unit :=
  p ← gets proceed; s ← gets step;
  if p && (s =? 1) then
    let faucetrequest_item := mkItem address_to now expire_date in
    modify (with_faucetrequest_item faucetrequest_item);;
    items ← Model_query FaucetRequestTable address_to past_week 10;
    let count := count_loop items in
    if count >=? 1 then
      modify (with_proceed false);;
      modify (with_ctx (set_message "Already requested within the past week"));;
      modify (with_ctx (set_error true))
    else
      ip ← gets iprequest_item;
      match ip with
      | Some item => Model_save IPRequestTable item
      | None => raise "'NoneType' object has no attribute 'save'"
      end;;
      Model_save FaucetRequestTable faucetrequest_item;;
      s ← gets step; modify (with_step (s + 1))
  else if p && (s =? 1) then
    modify (with_ctx (set_error true));;
    modify (with_ctx (set_message "Request failed. Please try again."))
  else mret tt.

(** Lines 304-323: the transfer, or the fall-back message.  [Some r] is
    an early [return]. *)
Definition tx_block (address_to : string) : M (option Response) :=
  p ← gets proceed; s ← gets step;
  if p && (s =? 2) then
    scripthash ← lift (AddrStrToScriptHash w address_to);
    tx ← _make_tx scripthash;
    if is_InvocationTransaction tx then
      modify (with_step 0);;
      modify (with_srv (with_self (set_sent_tx (Some tx))));;
      mret (Some (Redirect "/success"))
    else
      modify (with_ctx (set_message ("Error constructing transaction: " +:+ str_tx tx)));;
      modify (with_ctx (set_error true));;
      mret None
  else
    c ← gets ctx;
    match message c with
    | None =>
        modify (with_ctx (set_message "You must input a wallet address to proceed"));;
        modify (with_ctx (set_error true))
    | Some _ => mret tt
    end;;
    mret None.

(** Lines 247-323: the body of the [try]. *)
Definition try_body : M (option Response) :=
  match args request !! "address_to" with
  | Some values =>
      raw ← match values with
            | v :: _ => mret v
            | [] => raise "list index out of range"
            end;
      text ← lift (decode_utf8 raw);
      let address_to := strip text in
      modify (with_ctx (set_address_to address_to));;
      modify (with_client None);;
      ip_block;;
      wallet_block address_to;;
      tx_block address_to
  | None => mret None
  end.

Definition ask_for_assets (s : Server) : Response * Server :=
  let s := with_self (set_sent_tx None) s in
  let c := _get_context s in
  let c := set_error false c in
  if balance c <? 10000 then (Redirect "/", s)
  else
    match try_body (mkFrame s c true 0 None None None) with
    | (Returned (Some response), fr) => (response, srv fr)
    | (Returned None, fr) => (Render "index.html" (ctx fr), srv fr)
    | (Raised e, fr) =>
        let c := set_error true (ctx fr) in
        let c := set_message ("Could not process request: " +:+ e) c in
        (Render "index.html" c, srv fr)
    end.

End Ask.

(** *** [index], routes [/] and [/index] *)
Definition index (s : Server) : Response * Server :=
  let ctx := _get_context s in
  let ctx :=
    if balance ctx <? 10000 then
      set_come_back true
        (set_message "NO ASSETS AVAILABLE. Come back later." (set_error true ctx))
    else ctx in
  (Render "index.html" ctx, s).

(** *** [app_success], route [/success]

    The wallet rebuild that ends the handler acts on the wallet only and is
    left out. *)
Definition app_success (s : Server) : Response * Server :=
  let ctx := _get_context s in
  match sent_tx (self s) with
  | Some (InvocationTransaction Hash ToJson) =>
      let ctx := set_tx_json ToJson ctx in
      let ctx := set_message
        ("Your request has been relayed to the network. Transaction: " +:+ Hash) ctx in
      (Render "success.html" ctx, with_self (set_sent_tx None) s)
  | Some PyFalse | None => (Redirect "/", s)
  end.

End Handlers.

(** ** Names for the stages of a request *)

(** The identity of the IP scope: the stringified [x-real-ip] header. *)
Definition client_of (request : Request) : string :=
  str (getHeader request "x-real-ip").

(** The wallet address a request names, when the form field is there and
    its first value decodes. *)
Definition wallet_of (request : Request) : option string :=
  match args request !! "address_to" with
  | Some (v :: _) =>
      match decode_utf8 v with
      | Returned text => Some (strip text)
      | Raised _ => None
      end
  | _ => None
  end.

(** Lines 247-248 as an expression: nothing without the form field, and
    otherwise the value [address_to] gets or the exception raised on the
    way ([IndexError] or [UnicodeDecodeError]). *)
Definition address_field (request : Request) : option (result string) :=
  match args request !! "address_to" with
  | None => None
  | Some [] => Some (Raised "list index out of range")
  | Some (v :: _) =>
      Some match decode_utf8 v with
           | Returned text => Returned (strip text)
           | Raised e => Raised e
           end
  end.

Definition ip_item (w : World) (request : Request) : Item :=
  mkItem (client_of request) (now w) (expire_date w).

Definition wallet_item (w : World) (address_to : string) : Item :=
  mkItem address_to (now w) (expire_date w).

Definition ip_message : string :=
  "You have requested too many times for this time period. Try again next week.".

Definition wallet_message : string := "Already requested within the past week".

Definition welcome_message : string := "Welcome to NEP-5 Faucet".

Definition no_address_message : string := "You must input a wallet address to proceed".

(** The three assignments of a denial. *)
Definition deny (msg : string) (fr : Frame) : Frame :=
  with_ctx (set_error true) (with_ctx (set_message msg) (with_proceed false fr)).

Definition after_ip_query (w : World) (request : Request) (fr : Frame) : Frame :=
  with_srv (log_call (CallQuery IPRequestTable (client_of request) (past_week w) 10))
    (with_iprequest_item (ip_item w request)
       (with_client (Some (client_of request)) fr)).

Definition after_wallet_query (w : World) (address_to : string) (fr : Frame) : Frame :=
  with_srv (log_call (CallQuery FaucetRequestTable address_to (past_week w) 10))
    (with_faucetrequest_item (wallet_item w address_to) fr).

Definition attempted (t : TableName) (item : Item) (fr : Frame) : Frame :=
  with_srv (log_call (CallSave t item)) fr.

Definition saved (t : TableName) (item : Item) (fr : Frame) : Frame :=
  with_srv (put_row t item) (attempted t item fr).

(** The frame [ask_for_assets] enters its [try] with. *)
Definition entry_frame (w : World) (s : Server) : Frame :=
  let s := with_self (set_sent_tx None) s in
  mkFrame s (set_error false (_get_context w s)) true 0 None None None.

(** The calls one run of [ask_for_assets] adds to the log. *)
Definition new_calls (w : World) (request : Request) (s : Server) : list Call :=
  drop (length (calls s)) (calls (ask_for_assets w request s).2).

Definition is_save_to (t : TableName) (c : Call) : bool :=
  match c with CallSave t' _ => same_table t' t | _ => false end.

(** The record a run put into table [t], if it put one. *)
Definition written (t : TableName) (w : World) (request : Request)
    (s : Server) : option Item :=
  match List.filter (is_save_to t) (new_calls w request s), save_raises w t with
  | [CallSave _ item], None => Some item
  | _, _ => None
  end.

(** A claim is admitted when the run committed both of its records. *)
Definition admitted (w : World) (request : Request) (s : Server) : Prop :=
  is_Some (written IPRequestTable w request s)
  ∧ is_Some (written FaucetRequestTable w request s).

(** How [ask_for_assets] leaves its [try] statement. *)
Definition render (fr : Frame) : Response * Server :=
  (Render "index.html" (ctx fr), srv fr).

Definition render_exception (e : Exn) (fr : Frame) : Response * Server :=
  (Render "index.html"
     (set_message ("Could not process request: " +:+ e) (set_error true (ctx fr))),
   srv fr).

Definition finish (r : result (option Response) * Frame) : Response * Server :=
  match r with
  | (Returned (Some response), fr) => (response, srv fr)
  | (Returned None, fr) => render fr
  | (Raised e, fr) => render_exception e fr
  end.

(** The frame after lines 248-250, for the address [address_to]. *)
Definition parsed_frame (w : World) (s : Server) (address_to : string) : Frame :=
  with_client None (with_ctx (set_address_to address_to) (entry_frame w s)).

(** The frame after both saves. *)
Definition committed_frame (w : World) (request : Request) (s : Server)
    (address_to : string) : Frame :=
  with_step 2
    (saved FaucetRequestTable (wallet_item w address_to)
       (saved IPRequestTable (ip_item w request)
          (after_wallet_query w address_to
             (with_step 1 (after_ip_query w request (parsed_frame w s address_to)))))).

(** ** The count the rate limiter compares *)

(** The window of both policies. *)
Definition window : Z := timedelta 7.

(** Number of rows the loops of [ask_for_assets] count for [identity] when
    the request arrives at [now]. *)
Definition observed_count (tbl : Table) (identity : string) (now : datetime) : Z :=
  count_loop (query tbl identity (now - window) 10).

(** The rows of [identity] that the key condition selects. *)
Definition in_window (tbl : Table) (identity : string) (since : datetime) : Table :=
  filter (key_condition identity since) tbl.

(** Both rate-limit checks answer, and both say yes. *)
Definition checks_pass (w : World) (request : Request) (s : Server)
    (address_to : string) : Prop :=
  10000 ≤ default 0 (GetTokenBalance w)
  ∧ wallet_of request = Some address_to
  ∧ query_raises w IPRequestTable = None
  ∧ observed_count (IPRequest_rows s) (client_of request) (now w) < 3
  ∧ query_raises w FaucetRequestTable = None
  ∧ observed_count (FaucetRequest_rows s) address_to (now w) < 1.

(** The faucet is in service for a request: the wallet holds the drip
    amount, the form names the address [address_to], and the store answers
    every query and every put. *)
Definition in_service (w : World) (request : Request) (address_to : string) : Prop :=
  10000 ≤ default 0 (GetTokenBalance w)
  ∧ wallet_of request = Some address_to
  ∧ query_raises w IPRequestTable = None
  ∧ query_raises w FaucetRequestTable = None
  ∧ save_raises w IPRequestTable = None
  ∧ save_raises w FaucetRequestTable = None.

(** Appending a batch of records. *)
Definition save_all (items : list Item) (tbl : Table) : Table :=
  foldr save tbl items.

(** [countSince] as section 4.1 of the design words it: the rows of
    [identity] with [timestamp >= sinceInstant], up to the scan cap. *)
Definition countSince_spec (tbl : Table) (identity : string)
    (sinceInstant : datetime) : Z :=
  Z.of_nat (10 `min`
    size (filter (λ row : (string * Z) * Z,
                    row.1.1 = identity ∧ sinceInstant ≤ row.1.2) tbl)).

(** The decision of each check, read off the handler's own [proceed]
    flag ([None] when the ledger read or a put raised). *)
Definition ip_check (w : World) (request : Request) (fr : Frame) : option bool :=
  match ip_block w request fr with
  | (Returned _, fr') => Some (proceed fr')
  | (Raised _, _) => None
  end.

Definition wallet_check (w : World) (address_to : string) (fr : Frame) : option bool :=
  match wallet_block w address_to fr with
  | (Returned _, fr') => Some (proceed fr')
  | (Raised _, _) => None
  end.

(** The run stopped at the IP step: the IP-limit page, the IP query as its
    only call, and both tables as they were. *)
Definition denied_at_ip_check (w : World) (request : Request) (s : Server) : Prop :=
  (∃ c, (ask_for_assets w request s).1 = Render "index.html" c
        ∧ message c = Some ip_message ∧ error c = Some true)
  ∧ new_calls w request s
    = [CallQuery IPRequestTable (client_of request) (past_week w) 10]
  ∧ List.filter (is_query_of FaucetRequestTable) (new_calls w request s) = []
  ∧ (∀ t, rows t (ask_for_assets w request s).2 = rows t s).

(** ** Sample inputs *)

Definition demo_store : ItemStore :=
  mkItemStore "Token" "TKN" "0xabc" "AFaucet" [] [] None.

Definition demo_server : Server := mkServer demo_store ∅ ∅ [].

Definition demo_request (ip wallet : string) : Request :=
  mkRequest {[ "address_to" := [wallet] ]} {[ "x-real-ip" := ip ]}.

(** A request that carries a wallet address and no [x-real-ip] header. *)
Definition headerless_request (wallet : string) : Request :=
  mkRequest {[ "address_to" := [wallet] ]} ∅.

(** A request without the form field. *)
Definition empty_request : Request := mkRequest ∅ ∅.

(** A world with a reliable store, at instant [now], whose node answers
    [relay] to the submission. *)
Definition demo_world (bal : Z) (now : datetime) (relay : result TxValue) : World :=
  mkWorld (Some bal) 100 100 now (now `div` 1000000) (now `div` 1000000)
    (λ _, None) (λ _, None) (λ a, Returned a)
    (λ _ _, Returned (Some "tx")) (λ _, relay).

Definition relayed : result TxValue := Returned (InvocationTransaction "deadbeef" "{}").

(** One row stamped 0 for the identity 1.2.3.4. *)
Definition boundary_tbl : Table := save (mkItem "1.2.3.4" 0 604800) ∅.

(** A server on which the wallet AWallet claimed at instant 0. *)
Definition boundary_server : Server :=
  mkServer demo_store boundary_tbl (save (mkItem "AWallet" 0 604800) ∅) [].

(** Four claims of one address 1.2.3.4 for four wallets, one second apart. *)
Definition w1 : World := demo_world 50000 1000000 relayed.
Definition w2 : World := demo_world 50000 2000000 relayed.
Definition w3 : World := demo_world 50000 3000000 (Returned PyFalse).
Definition w4 : World := demo_world 50000 4000000 relayed.

Definition after_one (r : Request) : Server := (ask_for_assets w1 r demo_server).2.
Definition after_two (r1 r2 : Request) : Server :=
  (ask_for_assets w2 r2 (after_one r1)).2.
Definition after_three (r1 r2 r3 : Request) : Server :=
  (ask_for_assets w3 r3 (after_two r1 r2)).2.

(** ** The transfer the faucet asks the node for *)

(** The argument list [_make_tx] builds: the token's script hash, the
    operation, and sender, receiver and amount. *)
Definition transfer_params (me : ItemStore) (scripthash_from scripthash_to : string)
    : list Arg :=
  [ArgBytes (token_script_hash me); ArgStr OPERATION;
   ArgList [ArgBytes scripthash_from; ArgBytes scripthash_to;
            ArgInt (10000 * 100000000)]].

Definition is_node_call (c : Call) : bool :=
  match c with
  | CallTestInvoke _ _ | CallInvoke _ => true
  | _ => false
  end.

Definition is_invoke (c : Call) : bool :=
  match c with CallInvoke _ => true | _ => false end.

Definition is_test_invoke (c : Call) : bool :=
  match c with CallTestInvoke _ _ => true | _ => false end.

(** The calls the transfer step makes to the node for [address]. *)
Definition node_calls (w : World) (me : ItemStore) (address : string) : list Call :=
  match AddrStrToScriptHash w address with
  | Raised _ => []
  | Returned scripthash_to =>
      match AddrStrToScriptHash w (faucet_wallet_addr me) with
      | Raised _ => []
      | Returned scripthash_from =>
          match struct_pack_i (time_make_tx w) with
          | Raised _ => []
          | Returned nonce =>
              let p := transfer_params me scripthash_from scripthash_to in
              CallTestInvoke p nonce ::
              match TestInvokeContract w p nonce with
              | Raised _ => []
              | Returned tx => [CallInvoke tx]
              end
          end
      end
  end.

(** [struct.unpack('>i', bytes)[0]]: the reader of what [struct_pack_i]
    writes. *)
Definition struct_unpack_i (bytes : list Z) : option Z :=
  match bytes with
  | [b3; b2; b1; b0] =>
      let u := ((b3 * 256 + b2) * 256 + b1) * 256 + b0 in
      Some (if u <? 2147483648 then u else u - 4294967296)
  | _ => None
  end.

(** ** Start-up: configuration files, environment, tables *)

(** A parsed JSON document, as [json.load] returns it.  A file is known by
    the document it holds; files that do not hold JSON are outside the
    model. *)
Inductive Json :=
| JNull
| JBool (b : bool)
| JInt (n : Z)
| JFloat (repr : string)
| JStr (s : string)
| JArr (items : list Json)
| JObj (fields : gmap string Json).

(** [type(v).__name__] *)
Definition type_name (v : Json) : string :=
  match v with
  | JNull => "NoneType"
  | JBool _ => "bool"
  | JInt _ => "int"
  | JFloat _ => "float"
  | JStr _ => "str"
  | JArr _ => "list"
  | JObj _ => "dict"
  end.

(** [v[key]] for a string key (messages as of Python 3.6). *)
Definition getitem (v : Json) (key : string) : result Json :=
  match v with
  | JObj fields =>
      match fields !! key with
      | Some x => Returned x
      | None => Raised ("'" +:+ key +:+ "'")
      end
  | JArr _ => Raised "list indices must be integers or slices, not str"
  | JStr _ => Raised "string indices must be integers"
  | _ => Raised ("'" +:+ type_name v +:+ "' object is not subscriptable")
  end.

(** [v[key] = x] for a string key. *)
Definition setitem (v : Json) (key : string) (x : Json) : result Json :=
  match v with
  | JObj fields => Returned (JObj (<[key := x]> fields))
  | JArr _ => Raised "list indices must be integers or slices, not str"
  | _ => Raised ("'" +:+ type_name v +:+ "' object does not support item assignment")
  end.

Fixpoint has_nul (s : string) : bool :=
  match s with
  | String c s' => (Nat.eqb (nat_of_ascii c) 0) || has_nul s'
  | EmptyString => false
  end.

(** What the process sees outside the request handlers: the JSON files (by
    their parsed content), [os.environ], and the two tables, which may not
    exist yet. *)
Record Process := mkProcess {
  files : gmap string Json;
  environ : gmap string string;
  IPRequest_table : option Table;
  FaucetRequest_table : option Table
}.

Definition B (A : Type) : Type := Process → result A * Process.

#[global] Instance B_ret : MRet B := λ A a p, (Returned a, p).

#[global] Instance B_bind : MBind B := λ A C f m p,
  match m p with
  | (Returned a, p') => f a p'
  | (Raised e, p') => (Raised e, p')
  end.

Definition liftB {A} (r : result A) : B A := λ p, (r, p).

(** [with open(filename, 'r') as f: json.load(f)] *)
Definition load_json (filename : string) : B Json := λ p,
  match files p !! filename with
  | Some v => (Returned v, p)
  | None =>
      (Raised ("[Errno 2] No such file or directory: '" +:+ filename +:+ "'"), p)
  end.

(** [with open(filename, 'w') as f: json.dump(v, f)] *)
Definition dump_json (filename : string) (v : Json) : B unit := λ p,
  (Returned tt,
   mkProcess (<[filename := v]> (files p)) (environ p)
     (IPRequest_table p) (FaucetRequest_table p)).

(** [os.environ[key] = v] *)
Definition setenv (key : string) (v : Json) : B unit := λ p,
  match v with
  | JStr s =>
      if has_nul s then (Raised "embedded null byte", p)
      else (Returned tt,
            mkProcess (files p) (<[key := s]> (environ p))
              (IPRequest_table p) (FaucetRequest_table p))
  | _ => (Raised ("str expected, not " +:+ type_name v), p)
  end.

(** [os.environ[key] = data[key]] *)
Definition export (data : Json) (key : string) : B unit :=
  v ← liftB (getitem data key); setenv key v.

(** [init_environ]; [home] is [Path.home()]. *)
Definition init_environ (home : string)
    (filename_faucet filename_token filename_protocol : string) : B bool :=
  faucet_data ← load_json filename_faucet;
  export faucet_data "FAUCET_WALLET_PATH";;
  export faucet_data "FAUCET_WALLET_ADDRESS";;
  export faucet_data "FAUCET_WALLET_PASSWORD";;
  export faucet_data "FAUCET_PORT";;
  export faucet_data "FAUCET_HOST";;
  token_data ← load_json filename_token;
  export token_data "TOKEN_NAME";;
  export token_data "TOKEN_SYMBOL";;
  export token_data "TOKEN_SCRIPT_HASH";;
  proto_data ← load_json filename_protocol;
  app ← liftB (getitem proto_data "ApplicationConfiguration");
  app ← liftB (setitem app "DataDirectoryPath"
                 (JStr (home +:+ "/.neopython/Chains/SC234")));
  proto_data ← liftB (setitem proto_data "ApplicationConfiguration" app);
  app ← liftB (getitem proto_data "ApplicationConfiguration");
  app ← liftB (setitem app "NotificationDataPath"
                 (JStr (home +:+ "/.neopython/Chains/Test_Notif")));
  proto_data ← liftB (setitem proto_data "ApplicationConfiguration" app);
  dump_json filename_protocol proto_data;;
  mret true.

(** The store, the wallet library and the node, as start-up sees them. *)
Record Node := mkNode {
  exists_raises : TableName → option Exn;    (* a fault of Model.exists() *)
  create_table_fault : TableName → option (Exn * bool);
    (* a fault of Model.create_table(wait=True), and whether the table
       was created all the same *)
  to_aes_key : option string → result (option string);
  UserWallet_Open : string → option string → result unit;
  LoopingCall_start : result unit;           (* dbloop.start(.1) *)
  wallet_Rebuild : result unit;
  wallet_ToJson : result string;
  chains_exist : bool;                       (* os.path.isdir of the chain *)
  np_setup : result unit;                    (* the expect script *)
  node_start : result unit                   (* settings, blockchain, NodeLeader *)
}.

Definition table (t : TableName) (p : Process) : option Table :=
  match t with
  | IPRequestTable => IPRequest_table p
  | FaucetRequestTable => FaucetRequest_table p
  end.

Definition with_table (t : TableName) (v : option Table) (p : Process) : Process :=
  match t with
  | IPRequestTable => mkProcess (files p) (environ p) v (FaucetRequest_table p)
  | FaucetRequestTable => mkProcess (files p) (environ p) (IPRequest_table p) v
  end.

(** [Model.exists()] *)
Definition Model_exists (node : Node) (t : TableName) : B bool := λ p,
  match exists_raises node t with
  | Some e => (Raised e, p)
  | None => (Returned (match table t p with Some _ => true | None => false end), p)
  end.

(** [Model.create_table(wait=True)]: an empty table where there was none
    (an existing table is left alone). *)
Definition Model_create_table (node : Node) (t : TableName) : B unit := λ p,
  let created := with_table t (Some (default ∅ (table t p))) p in
  match create_table_fault node t with
  | Some (e, true) => (Raised e, created)
  | Some (e, false) => (Raised e, p)
  | None => (Returned tt, created)
  end.

(** [_create_tables]: each table is created only if it does not exist. *)
Definition _create_tables (node : Node) : B unit :=
  present ← Model_exists node FaucetRequestTable;
  (if present : bool then mret tt else Model_create_table node FaucetRequestTable);;
  present ← Model_exists node IPRequestTable;
  if present : bool then mret tt else Model_create_table node IPRequestTable.

Definition token_config_message : string :=
  "Please set TOKEN_NAME, TOKEN_SYMBOL, and TOKEN_SCRIPT_HASH in ./config/nep5-token.json".

Definition wallet_config_message : string :=
  "Please set FAUCET_WALLET_PATH, FAUCET_WALLET_PASSWORD, and FAUCET_WALLET_ADDRESS in ./config/environment.json".

(** [ItemStore.__init__].  The wallet object is outside the state: of
    lines 103-108 the model keeps what can raise, that is the start of the
    block loop, the rebuild and the JSON dump for the log line; the
    assignment of line 107 acts on the wallet only. *)
Definition __init__ (node : Node) : B ItemStore :=
  _create_tables node;;
  env ← (λ p, (Returned (environ p), p));
  match env !! "TOKEN_NAME", env !! "TOKEN_SYMBOL", env !! "TOKEN_SCRIPT_HASH" with
  | Some token_name, Some token_symbol, Some token_script_hash =>
      let wallet_path := env !! "FAUCET_WALLET_PATH" in
      wallet_pwd ← liftB (to_aes_key node (env !! "FAUCET_WALLET_PASSWORD"));
      let faucet_wallet_addr := env !! "FAUCET_WALLET_ADDRESS" in
      match wallet_pwd, wallet_path, faucet_wallet_addr with
      | Some _, Some path, Some addr =>
          liftB (UserWallet_Open node path wallet_pwd);;
          liftB (LoopingCall_start node);;
          liftB (wallet_Rebuild node);;
          liftB (wallet_ToJson node);;
          mret (mkItemStore token_name token_symbol token_script_hash addr [] [] None)
      | _, _, _ => liftB (Raised wallet_config_message)
      end
  | _, _, _ => liftB (Raised token_config_message)
  end.

(** What [main] hands to [store.app.run]. *)
Inductive Port := PortStr (s : string) | PortInt (n : Z).

Record Launch := mkLaunch {
  launch_host : string;
  launch_port : Port;
  launch_store : ItemStore
}.

(** [main], up to the call of [store.app.run(host, port)].  The expect
    script and the start of the node are taken not to touch the three
    configuration files. *)
Definition main (home : string) (node : Node) : B Launch :=
  (if chains_exist node then mret tt else liftB (np_setup node));;
  init_environ home "./config/environment.json" "./config/nep5-token.json"
    "./src/neo-python/neo/data/protocol.testnet.json";;
  liftB (node_start node);;
  env ← (λ p, (Returned (environ p), p));
  let host := default "localhost" (env !! "FAUCET_HOST") in
  let port := match env !! "FAUCET_PORT" with Some s => PortStr s | None => PortInt 80 end in
  store ← __init__ node;
  mret (mkLaunch host port store).

(** The state the routes start from once [main] has launched. *)
Definition launch_server (l : Launch) (p : Process) : Server :=
  mkServer (launch_store l) (default ∅ (IPRequest_table p))
    (default ∅ (FaucetRequest_table p)) [].

(** Sample configuration. *)
Definition demo_files : gmap string Json :=
  {[ "./config/environment.json" :=
       JObj {[ "FAUCET_WALLET_PATH" := JStr "faucet.wallet";
               "FAUCET_WALLET_ADDRESS" := JStr "AFaucet";
               "FAUCET_WALLET_PASSWORD" := JStr "secret";
               "FAUCET_PORT" := JStr "8080";
               "FAUCET_HOST" := JStr "0.0.0.0" ]};
     "./config/nep5-token.json" :=
       JObj {[ "TOKEN_NAME" := JStr "Token";
               "TOKEN_SYMBOL" := JStr "TKN";
               "TOKEN_SCRIPT_HASH" := JStr "0xabc" ]};
     "./src/neo-python/neo/data/protocol.testnet.json" :=
       JObj {[ "ProtocolConfiguration" := JObj {[ "Magic" := JInt 1953787457 ]};
               "ApplicationConfiguration" :=
                 JObj {[ "DataDirectoryPath" := JStr "Chains/SC234";
                         "NodePort" := JInt 20333 ]} ]} ]}.

Definition demo_process : Process := mkProcess demo_files ∅ None (Some boundary_tbl).

Definition demo_node : Node :=
  mkNode (λ _, None) (λ _, None)
    (λ pw, match pw with
           | Some s => Returned (Some ("key:" +:+ s))
           | None => Raised "'NoneType' object has no attribute 'encode'"
           end)
    (λ _ _, Returned tt) (Returned tt) (Returned tt) (Returned "{}")
    true (Returned tt) (Returned tt).

(** A node whose store creates the table of a failing [create_table] all
    the same. *)
Definition flaky_node : Node :=
  mkNode (λ _, None)
    (λ t, if same_table t IPRequestTable then Some ("table not active", true) else None)
    (to_aes_key demo_node) (UserWallet_Open demo_node)
    (Returned tt) (Returned tt) (Returned "{}") true (Returned tt) (Returned tt).

(** The variables [init_environ] exports, file by file. *)
Definition faucet_keys : list string :=
  ["FAUCET_WALLET_PATH"; "FAUCET_WALLET_ADDRESS"; "FAUCET_WALLET_PASSWORD";
   "FAUCET_PORT"; "FAUCET_HOST"].

Definition token_keys : list string :=
  ["TOKEN_NAME"; "TOKEN_SYMBOL"; "TOKEN_SCRIPT_HASH"].

(** A field that can be exported: a string without NUL. *)
Definition str_field (data : gmap string Json) (key : string) : option string :=
  match data !! key with
  | Some (JStr s) => if has_nul s then None else Some s
  | _ => None
  end.

(** [p'] differs from [p] at most in the environment variables [keys]. *)
Definition same_outside (keys : list string) (p p' : Process) : Prop :=
  files p' = files p
  ∧ IPRequest_table p' = IPRequest_table p
  ∧ FaucetRequest_table p' = FaucetRequest_table p
  ∧ ∀ k, k ∉ keys → environ p' !! k = environ p !! k.

(** The protocol document with the two chain paths set. *)
Definition with_chain_paths (home : string) (proto app : gmap string Json) : Json :=
  JObj (<["ApplicationConfiguration" :=
          JObj (<["NotificationDataPath" := JStr (home +:+ "/.neopython/Chains/Test_Notif")]>
                  (<["DataDirectoryPath" := JStr (home +:+ "/.neopython/Chains/SC234")]>
                     app))]> proto).

Definition set_env (key value : string) (p : Process) : Process :=
  mkProcess (files p) (<[key := value]> (environ p))
    (IPRequest_table p) (FaucetRequest_table p).

(** * Properties of text *)

Ltac zcmp :=
  repeat match goal with
  | |- context [?a <? ?b] => destruct (Z.ltb_spec a b); try lia
  | |- context [?a <=? ?b] => destruct (Z.leb_spec a b); try lia
  | |- context [?a =? ?b] => destruct (Z.eqb_spec a b); try lia
  end.

Ltac zcmp_in H :=
  repeat match type of H with
  | context [?a <? ?b] => destruct (Z.ltb_spec a b); try lia
  | context [?a <=? ?b] => destruct (Z.leb_spec a b); try lia
  | context [?a =? ?b] => destruct (Z.eqb_spec a b); try lia
  end.

Section TextFacts.

Lemma decode_utf8_Returned raw text : decode_utf8 raw = Returned text → text = raw.
Proof. unfold decode_utf8. destruct (utf8_error raw 0); by intros [= <-]. Qed.

(** The decoder steps over white space. *)
Lemma utf8_error_space c0 s1 pos :
  isspace c0 = true → utf8_error (String c0 s1) pos = utf8_error s1 (pos + 1).
Proof.
  unfold isspace. intros H. cbn [utf8_error].
  destruct (Z.ltb_spec (byte c0) 128); [done|]. zcmp_in H; done.
Qed.

Lemma utf8_error_space2 c0 c1 s2 pos :
  isspace2 c0 c1 = true →
  utf8_error (String c0 (String c1 s2)) pos = utf8_error s2 (pos + 2).
Proof.
  unfold isspace2. intros H. cbn [utf8_error]. unfold is_continuation.
  zcmp_in H; try done; zcmp; done.
Qed.

Lemma utf8_error_space3 c0 c1 c2 s3 pos :
  isspace3 c0 c1 c2 = true →
  utf8_error (String c0 (String c1 (String c2 s3))) pos = utf8_error s3 (pos + 3).
Proof.
  unfold isspace3. intros H. cbn [utf8_error]. unfold is_continuation.
  zcmp_in H; try done; zcmp; done.
Qed.

Lemma lstrip_cases s :
  s = ""
  ∨ (∃ c0 s1, s = String c0 s1 ∧ isspace c0 = true ∧ lstrip s = lstrip s1)
  ∨ (∃ c0 c1 s2, s = String c0 (String c1 s2) ∧ isspace2 c0 c1 = true
                 ∧ lstrip s = lstrip s2)
  ∨ (∃ c0 c1 c2 s3, s = String c0 (String c1 (String c2 s3))
                    ∧ isspace3 c0 c1 c2 = true ∧ lstrip s = lstrip s3)
  ∨ (s ≠ "" ∧ lstrip s = s).
Proof.
  destruct s as [|c0 s1]; [by left|]. right. cbn [lstrip].
  destruct (isspace c0) eqn:E0; [left; eauto|]. right.
  destruct s1 as [|c1 s2]; [by do 2 right|].
  destruct (isspace2 c0 c1) eqn:E1; [left; eauto 10|]. right.
  destruct s2 as [|c2 s3]; [by right|].
  destruct (isspace3 c0 c1 c2) eqn:E2; [left; eauto 10|]. by right.
Qed.

Lemma lstrip_idemp s : lstrip (lstrip s) = lstrip s.
Proof.
  remember (String.length s) as n eqn:Hn. revert s Hn.
  induction (lt_wf n) as [n _ IH]. intros s ->.
  destruct (lstrip_cases s)
    as [->|[(c0 & s1 & -> & _ & ->)|[(c0 & c1 & s2 & -> & _ & ->)
       |[(c0 & c1 & c2 & s3 & -> & _ & ->)|[_ E]]]]]; [done| | | |by rewrite !E].
  all: eapply IH; [|reflexivity]; cbn; lia.
Qed.

Lemma lstrip_nil_valid s pos : lstrip s = "" → utf8_error s pos = None.
Proof.
  remember (String.length s) as n eqn:Hn. revert s Hn pos.
  induction (lt_wf n) as [n _ IH]. intros s -> pos H.
  destruct (lstrip_cases s)
    as [->|[(c0 & s1 & -> & Hs & E)|[(c0 & c1 & s2 & -> & Hs & E)
       |[(c0 & c1 & c2 & s3 & -> & Hs & E)|[Hne E]]]]];
    [done|rewrite E in H..|congruence].
  - rewrite utf8_error_space by done. eapply IH; [|reflexivity|done]. cbn; lia.
  - rewrite utf8_error_space2 by done. eapply IH; [|reflexivity|done]. cbn; lia.
  - rewrite utf8_error_space3 by done. eapply IH; [|reflexivity|done]. cbn; lia.
Qed.

Lemma rstrip_nil s : rstrip s = "" → lstrip s = "".
Proof.
  destruct s as [|c s']; [done|]. cbn [rstrip]. unfold blank.
  by destruct (lstrip (String c s')).
Qed.

(** Text that strips to nothing is white space throughout, hence well
    formed. *)
Lemma blank_decodes raw : strip raw = "" → decode_utf8 raw = Returned raw.
Proof.
  unfold strip, decode_utf8. intros H%rstrip_nil. rewrite lstrip_idemp in H.
  by rewrite lstrip_nil_valid.
Qed.

End TextFacts.

(** * Properties of the ledger *)

Section LedgerFacts.

Implicit Types (tbl : Table) (item : Item) (hk : string).

Lemma count_loop_from (items : list Item) (acc : Z) :
  foldl (λ count _, count + 1) acc items = acc + Z.of_nat (length items).
Proof.
  revert acc. induction items as [|x items IH]; intros acc; simpl.
  - lia.
  - rewrite IH. lia.
Qed.

Lemma count_loop_length (items : list Item) :
  count_loop items = Z.of_nat (length items).
Proof. unfold count_loop. rewrite count_loop_from. lia. Qed.

Lemma query_length tbl hk bound (limit : nat) :
  length (query tbl hk bound limit)
  = (limit `min` size (in_window tbl hk bound))%nat.
Proof.
  unfold query, in_window. rewrite length_take.
  rewrite (Permutation_length (merge_sort_Permutation _ _)).
  by rewrite length_fmap, length_map_to_list.
Qed.

Lemma observed_count_size tbl hk now :
  observed_count tbl hk now
  = Z.of_nat (10 `min` size (in_window tbl hk (now - window))).
Proof.
  unfold observed_count. by rewrite count_loop_length, query_length.
Qed.

Lemma observed_count_bounds tbl hk now : 0 ≤ observed_count tbl hk now ≤ 10.
Proof. rewrite observed_count_size. lia. Qed.

(** Every item a query yields is a stored row of the identity, strictly
    newer than the bound. *)
Lemma elem_of_query tbl hk bound limit item :
  item ∈ query tbl hk bound limit →
  hash_key item = hk ∧ bound < last_visited item
  ∧ tbl !! primary_key item = Some (ttl item).
Proof.
  unfold query. intros Hin.
  apply subseteq_take in Hin.
  rewrite (merge_sort_Permutation _ _) in Hin.
  apply list_elem_of_fmap in Hin as ([[k t] v] & -> & Hrow).
  apply elem_of_map_to_list, map_lookup_filter_Some in Hrow as [Hrow [Hk Ht]].
  simpl in *. subst k. done.
Qed.

Lemma in_window_lookup tbl hk since k t v :
  in_window tbl hk since !! (k, t) = Some v
  ↔ tbl !! (k, t) = Some v ∧ k = hk ∧ since < t.
Proof. unfold in_window. rewrite map_lookup_filter_Some. done. Qed.

(** A put under a key outside the selection does not change it. *)
Lemma in_window_save_out tbl hk since item :
  ¬ (hash_key item = hk ∧ since < last_visited item) →
  in_window (save item tbl) hk since = in_window tbl hk since.
Proof.
  intros Hout. unfold in_window, save.
  apply map_filter_insert_not. intros y Hy. apply Hout, Hy.
Qed.

(** A put under a selected key adds the key to the selection. *)
Lemma in_window_save_in tbl hk since item :
  hash_key item = hk → since < last_visited item →
  in_window (save item tbl) hk since
  = <[primary_key item := ttl item]> (in_window tbl hk since).
Proof.
  intros Hk Ht. unfold in_window, save.
  by apply map_filter_insert_True.
Qed.

Lemma size_in_window_save_le tbl hk since item :
  (size (in_window tbl hk since) ≤ size (in_window (save item tbl) hk since))%nat.
Proof.
  destruct (decide (hash_key item = hk ∧ since < last_visited item)) as [[Hk Ht]|Hout].
  - rewrite in_window_save_in by done.
    destruct (in_window tbl hk since !! primary_key item) eqn:E.
    + by rewrite map_size_insert_Some.
    + rewrite map_size_insert_None by done. lia.
  - by rewrite in_window_save_out.
Qed.

Lemma size_in_window_save_fresh tbl hk since item :
  hash_key item = hk → since < last_visited item →
  tbl !! primary_key item = None →
  size (in_window (save item tbl) hk since) = S (size (in_window tbl hk since)).
Proof.
  intros Hk Ht Hfresh. rewrite in_window_save_in by done.
  apply map_size_insert_None.
  unfold in_window. apply map_lookup_filter_None. by left.
Qed.

Lemma observed_count_save_le tbl hk now item :
  observed_count tbl hk now ≤ observed_count (save item tbl) hk now.
Proof.
  rewrite !observed_count_size.
  pose proof (size_in_window_save_le tbl hk (now - window) item). lia.
Qed.

Lemma save_all_lookup_elem items tbl item :
  item ∈ items → is_Some (save_all items tbl !! primary_key item).
Proof.
  induction items as [|x items IH]; simpl.
  - by intros ?%not_elem_of_nil.
  - intros [->|Hin]%elem_of_cons; unfold save at 1.
    + rewrite lookup_insert_eq. eauto.
    + destruct (decide (primary_key x = primary_key item)) as [->|Hne].
      * rewrite lookup_insert_eq. eauto.
      * rewrite lookup_insert_ne by done. auto.
Qed.

(** [n] records of one identity with distinct timestamps, all selected,
    give at least [n] selected rows. *)
Lemma size_in_window_save_all tbl hk since items :
  Forall (λ item, hash_key item = hk ∧ since < last_visited item) items →
  NoDup (last_visited <$> items) →
  (length items ≤ size (in_window (save_all items tbl) hk since))%nat.
Proof.
  intros Hall Hnd.
  assert (Hnd' : NoDup (primary_key <$> items)).
  { apply (NoDup_fmap_1 snd). rewrite <- list_fmap_compose. exact Hnd. }
  rewrite <- (length_fmap primary_key), <- (size_list_to_set (C:=gset _)) by done.
  rewrite <- size_dom. apply subseteq_size.
  intros key [item [-> Hin]]%elem_of_list_to_set%list_elem_of_fmap.
  apply elem_of_dom.
  destruct (save_all_lookup_elem items tbl item Hin) as [v Hv].
  exists v. destruct item as [k t x]. apply in_window_lookup.
  rewrite Forall_forall in Hall. destruct (Hall _ Hin) as [Hk Ht].
  simpl in *. done.
Qed.

(** Records that the key condition rejects do not change the selection. *)
Lemma in_window_save_all_out tbl hk since items :
  Forall (λ item, ¬ (hash_key item = hk ∧ since < last_visited item)) items →
  in_window (save_all items tbl) hk since = in_window tbl hk since.
Proof.
  induction 1 as [|x items Hx _ IH]; simpl; [done|].
  by rewrite in_window_save_out.
Qed.

End LedgerFacts.

(** * The steps of [ask_for_assets] *)

Ltac mstep :=
  unfold mbind, M_bind, mret, M_ret, modify, gets, lift, raise; cbn.

Section Blocks.

Context (w : World) (request : Request).

Lemma ip_block_eq fr :
  proceed fr = true → step fr = 0 →
  ip_block w request fr =
    match query_raises w IPRequestTable with
    | Some e => (Raised e, after_ip_query w request fr)
    | None =>
        (Returned tt,
         if observed_count (IPRequest_rows (srv fr)) (client_of request) (now w) >=? 3
         then deny ip_message (after_ip_query w request fr)
         else with_step 1 (after_ip_query w request fr))
    end.
Proof.
  intros Hp Hs. unfold ip_block, Model_query. mstep. rewrite Hp, Hs. cbn.
  destruct (query_raises w IPRequestTable); [done|]. mstep.
  unfold observed_count, client_of, window, past_week.
  destruct (_ >=? 3); cbn; [done|]. by rewrite Hs.
Qed.

Lemma wallet_block_skip address_to fr :
  proceed fr = false → wallet_block w address_to fr = (Returned tt, fr).
Proof. intros Hp. unfold wallet_block. mstep. by rewrite Hp. Qed.

Lemma wallet_block_eq address_to item fr :
  proceed fr = true → step fr = 1 → iprequest_item fr = Some item →
  wallet_block w address_to fr =
    let fr1 := after_wallet_query w address_to fr in
    let mine := wallet_item w address_to in
    match query_raises w FaucetRequestTable with
    | Some e => (Raised e, fr1)
    | None =>
        if observed_count (FaucetRequest_rows (srv fr)) address_to (now w) >=? 1
        then (Returned tt, deny wallet_message fr1)
        else
          match save_raises w IPRequestTable with
          | Some e => (Raised e, attempted IPRequestTable item fr1)
          | None =>
              match save_raises w FaucetRequestTable with
              | Some e =>
                  (Raised e,
                   attempted FaucetRequestTable mine (saved IPRequestTable item fr1))
              | None =>
                  (Returned tt,
                   with_step 2
                     (saved FaucetRequestTable mine (saved IPRequestTable item fr1)))
              end
          end
    end.
Proof.
  intros Hp Hs Hitem. unfold wallet_block, Model_query, Model_save. mstep.
  rewrite Hp, Hs. cbn.
  destruct (query_raises w FaucetRequestTable); [done|]. mstep.
  unfold observed_count, window, past_week.
  destruct (_ >=? 1); cbn; [done|]. rewrite Hitem. mstep.
  destruct (save_raises w IPRequestTable); [done|]. mstep.
  destruct (save_raises w FaucetRequestTable); [done|]. mstep.
  by rewrite Hs.
Qed.

Lemma tx_block_skip address_to fr :
  proceed fr = false → is_Some (message (ctx fr)) →
  tx_block w address_to fr = (Returned None, fr).
Proof.
  intros Hp [m Hm]. unfold tx_block. mstep. rewrite Hp. cbn. by rewrite Hm.
Qed.

Lemma tx_block_eq address_to fr :
  proceed fr = true → step fr = 2 →
  tx_block w address_to fr =
    match AddrStrToScriptHash w address_to with
    | Raised e => (Raised e, fr)
    | Returned scripthash =>
        match _make_tx w scripthash fr with
        | (Raised e, fr') => (Raised e, fr')
        | (Returned tx, fr') =>
            if is_InvocationTransaction tx
            then (Returned (Some (Redirect "/success")),
                  with_srv (with_self (set_sent_tx (Some tx))) (with_step 0 fr'))
            else (Returned None,
                  with_ctx (set_error true)
                    (with_ctx (set_message ("Error constructing transaction: " +:+ str_tx tx)) fr'))
        end
    end.
Proof.
  intros Hp Hs. unfold tx_block. mstep. rewrite Hp, Hs. cbn.
  destruct (AddrStrToScriptHash w address_to); [|done].
  destruct (_make_tx w a fr) as [[tx|e] fr']; [|done].
  by destruct (is_InvocationTransaction tx).
Qed.

(** [_make_tx] talks to the node only: it leaves the tables and the
    context alone, and stores what [InvokeContract] returned. *)
Lemma _make_tx_frame scripthash fr :
  let '(r, fr') := _make_tx w scripthash fr in
  IPRequest_rows (srv fr') = IPRequest_rows (srv fr)
  ∧ FaucetRequest_rows (srv fr') = FaucetRequest_rows (srv fr)
  ∧ ctx fr' = ctx fr
  ∧ (∃ extra, calls (srv fr') = calls (srv fr) ++ extra
       ∧ Forall (λ c, is_ledger_read c = false ∧ is_ledger_write c = false) extra)
  ∧ match r with
    | Returned tx => sent_tx (self (srv fr')) = Some tx
    | Raised _ => sent_tx (self (srv fr')) = sent_tx (self (srv fr))
    end.
Proof.
  unfold _make_tx. mstep.
  destruct (AddrStrToScriptHash w _); cbn.
  2:{ repeat split; try done. exists []. by rewrite app_nil_r. }
  destruct (struct_pack_i _); cbn.
  2:{ repeat split; try done. exists []. by rewrite app_nil_r. }
  destruct (TestInvokeContract w _ _); cbn.
  2:{ repeat split; try done. eexists [_]. split; [done|]. by repeat constructor. }
  destruct (InvokeContract w _); cbn.
  all: repeat split; try done.
  all: eexists [_; _]; rewrite <- app_assoc; split; [done|]; by repeat constructor.
Qed.

End Blocks.

(** * [ask_for_assets], path by path *)

Section Paths.

Context (w : World) (request : Request) (s : Server).

Lemma ask_for_assets_try :
  ask_for_assets w request s =
    if default 0 (GetTokenBalance w) <? 10000
    then (Redirect "/", with_self (set_sent_tx None) s)
    else finish (try_body w request (entry_frame w s)).
Proof.
  unfold ask_for_assets, entry_frame. cbn.
  destruct (_ <? 10000); [done|].
  by destruct (try_body _ _ _) as [[[r|]|e] fr].
Qed.

(** The handler in direct style: one branch per way through the [try]. *)
Lemma ask_for_assets_paths :
  ask_for_assets w request s =
    if default 0 (GetTokenBalance w) <? 10000
    then (Redirect "/", with_self (set_sent_tx None) s)
    else
      match args request !! "address_to" with
      | None => render (entry_frame w s)
      | Some [] => render_exception "list index out of range" (entry_frame w s)
      | Some (raw :: _) =>
          match decode_utf8 raw with
          | Raised e => render_exception e (entry_frame w s)
          | Returned text =>
          let address_to := strip text in
          let fr := after_ip_query w request (parsed_frame w s address_to) in
          match query_raises w IPRequestTable with
          | Some e => render_exception e fr
          | None =>
              if observed_count (IPRequest_rows s) (client_of request) (now w) >=? 3
              then render (deny ip_message fr)
              else
                let fr1 := after_wallet_query w address_to (with_step 1 fr) in
                match query_raises w FaucetRequestTable with
                | Some e => render_exception e fr1
                | None =>
                    if observed_count (FaucetRequest_rows s) address_to (now w) >=? 1
                    then render (deny wallet_message fr1)
                    else
                      match save_raises w IPRequestTable with
                      | Some e =>
                          render_exception e
                            (attempted IPRequestTable (ip_item w request) fr1)
                      | None =>
                          match save_raises w FaucetRequestTable with
                          | Some e =>
                              render_exception e
                                (attempted FaucetRequestTable (wallet_item w address_to)
                                   (saved IPRequestTable (ip_item w request) fr1))
                          | None =>
                              finish (tx_block w address_to
                                        (committed_frame w request s address_to))
                          end
                      end
                end
          end
          end
      end.
Proof.
  rewrite ask_for_assets_try.
  destruct (_ <? 10000); [done|].
  unfold try_body.
  destruct (args request !! "address_to") as [[|raw rest]|]; [done| |done].
  mstep. destruct (decode_utf8 raw) as [text|e]; [|done].
  mstep. fold (parsed_frame w s (strip text)).
  rewrite ip_block_eq by done.
  destruct (query_raises w IPRequestTable); [done|]. cbn.
  destruct (_ >=? 3); cbn.
  { rewrite wallet_block_skip by done. by rewrite tx_block_skip by (cbn; eauto). }
  rewrite (wallet_block_eq _ _ (ip_item w request)) by done. cbn.
  destruct (query_raises w FaucetRequestTable); [done|].
  destruct (_ >=? 1); cbn.
  { by rewrite tx_block_skip by (cbn; eauto). }
  destruct (save_raises w IPRequestTable); [done|].
  destruct (save_raises w FaucetRequestTable); [done|].
  reflexivity.
Qed.

End Paths.

(** * What one run writes *)

Section Submit.

Context (w : World).

(** The transfer step touches neither table, consults no ledger, and ends
    either in the redirect to [/success] or in an error page. *)
Lemma finish_tx_block address_to fr :
  proceed fr = true → step fr = 2 →
  let out := finish (tx_block w address_to fr) in
  IPRequest_rows out.2 = IPRequest_rows (srv fr)
  ∧ FaucetRequest_rows out.2 = FaucetRequest_rows (srv fr)
  ∧ (∃ extra, calls out.2 = calls (srv fr) ++ extra
       ∧ Forall (λ c, is_ledger_read c = false ∧ is_ledger_write c = false) extra)
  ∧ ((out.1 = Redirect "/success" ∧ truthy (sent_tx (self out.2)) = true)
     ∨ ((∃ c, out.1 = Render "index.html" c ∧ error c = Some true
              ∧ ((∃ e, message c = Some ("Could not process request: " +:+ e))
                 ∨ message c = Some "Error constructing transaction: False"))
        ∧ (sent_tx (self out.2) = Some PyFalse
           ∨ sent_tx (self out.2) = sent_tx (self (srv fr))))).
Proof.
  intros Hp Hs. rewrite tx_block_eq by done.
  destruct (AddrStrToScriptHash w address_to) as [sh|e]; cbn.
  2:{ repeat split; try done.
      - exists []. by rewrite app_nil_r.
      - right. split; [eauto 10|by right]. }
  pose proof (_make_tx_frame w sh fr) as H.
  destruct (_make_tx w sh fr) as [[tx|e] fr'].
  - destruct H as (Hip & Hw & Hctx & Hcalls & Hsent).
    destruct tx as [h j|]; cbn.
    + repeat split; try done. by left.
    + repeat split; try done. right. split; [eauto 10|by left].
  - destruct H as (Hip & Hw & Hctx & Hcalls & Hsent). cbn.
    repeat split; try done. right. split; [eauto 10|by right].
Qed.

End Submit.

(** Case analysis along the branches of [ask_for_assets_paths]. *)
Ltac paths w request s :=
  rewrite ?ask_for_assets_paths; unfold wallet_of;
  destruct (Z.ltb_spec (default 0 (GetTokenBalance w)) 10000) as [Hbal|Hbal];
  [|destruct (args request !! "address_to") as [[|raw0 rest]|] eqn:Hargs;
    [|destruct (decode_utf8 raw0) as [raw|edec] eqn:Hdec;
      [pose proof (decode_utf8_Returned _ _ Hdec) as Hraw; subst raw0;
       destruct (query_raises w IPRequestTable) eqn:Hq1;
       [|destruct (Z.geb_spec (observed_count (IPRequest_rows s)
                                 (client_of request) (now w)) 3) as [Hc1|Hc1];
         [|destruct (query_raises w FaucetRequestTable) eqn:Hq2;
           [|destruct (Z.geb_spec (observed_count (FaucetRequest_rows s)
                                     (strip raw) (now w)) 1) as [Hc2|Hc2];
             [|destruct (save_raises w IPRequestTable) eqn:Hs1;
               [|destruct (save_raises w FaucetRequestTable) eqn:Hs2]]]]]
      |]
    |]].

Ltac normalise_calls :=
  cbn; rewrite <- ?app_assoc, ?drop_app_length, ?drop_all; cbn.

Section Writes.

Context (w : World) (request : Request) (s : Server).

Lemma filter_gateway_calls t (extra : list Call) :
  Forall (λ c, is_ledger_read c = false ∧ is_ledger_write c = false) extra →
  List.filter (is_save_to t) extra = [] ∧ List.filter is_ledger_read extra = []
  ∧ List.filter is_ledger_write extra = [].
Proof.
  induction 1 as [|c extra [Hr Hw] _ (IH1 & IH2 & IH3)]; [done|]. cbn.
  rewrite IH1, IH2, IH3, Hr, Hw. by destruct c.
Qed.

Lemma committed_new_calls address_to :
  let out := finish (tx_block w address_to (committed_frame w request s address_to)) in
  ∃ extra,
    drop (length (calls s)) (calls out.2)
    = [CallQuery IPRequestTable (client_of request) (past_week w) 10;
       CallQuery FaucetRequestTable address_to (past_week w) 10;
       CallSave IPRequestTable (ip_item w request);
       CallSave FaucetRequestTable (wallet_item w address_to)] ++ extra
    ∧ Forall (λ c, is_ledger_read c = false ∧ is_ledger_write c = false) extra.
Proof.
  intros out.
  destruct (finish_tx_block w address_to (committed_frame w request s address_to))
    as (_ & _ & (extra & Hcalls & Hextra) & _); [done..|].
  exists extra. split; [|done]. subst out. rewrite Hcalls. cbn.
  by rewrite <- !app_assoc, drop_app_length.
Qed.

(** The run stores its IP record exactly when both checks passed and the
    put went through. *)
Lemma written_ip_Some item :
  written IPRequestTable w request s = Some item ↔
  item = ip_item w request
  ∧ ∃ a, checks_pass w request s a ∧ save_raises w IPRequestTable = None.
Proof.
  unfold written, new_calls, checks_pass. paths w request s.
  9: destruct (committed_new_calls (strip raw)) as (extra & -> & Hextra);
     cbn; rewrite (proj1 (filter_gateway_calls _ _ Hextra)).
  all: normalise_calls; rewrite ?Hs1.
  all: try (split; [done | intros (-> & a & (?&?&?&?&?&?) & ?); simplify_eq; lia ]).
  all: split; [intros [= <-]; split; [done|]; by exists (strip raw) | by intros [-> _]].
Qed.

Lemma written_wallet_Some item :
  written FaucetRequestTable w request s = Some item ↔
  ∃ a, item = wallet_item w a ∧ checks_pass w request s a
       ∧ save_raises w IPRequestTable = None
       ∧ save_raises w FaucetRequestTable = None.
Proof.
  unfold written, new_calls, checks_pass. paths w request s.
  9: destruct (committed_new_calls (strip raw)) as (extra & -> & Hextra);
     cbn; rewrite (proj1 (filter_gateway_calls _ _ Hextra)).
  all: normalise_calls; rewrite ?Hs2.
  all: try (split; [done | intros (a & -> & (?&?&?&?&?&?) & ? & ?); simplify_eq; lia ]).
  split; [intros [= <-]; by exists (strip raw) |].
  by intros (a & -> & (?&?&?&?&?&?) & ? & ?); simplify_eq.
Qed.

(** Each table afterwards is the table before plus what the run wrote. *)
Lemma rows_after (t : TableName) :
  rows t (ask_for_assets w request s).2
  = match written t w request s with
    | Some item => save item (rows t s)
    | None => rows t s
    end.
Proof.
  unfold written, new_calls. paths w request s.
  9: destruct (committed_new_calls (strip raw)) as (extra & -> & Hextra);
     cbn; rewrite (proj1 (filter_gateway_calls _ _ Hextra));
     destruct (finish_tx_block w (strip raw) (committed_frame w request s (strip raw)))
       as (Hip & Hw & _); [done..|].
  all: normalise_calls.
  all: destruct t; cbn; rewrite ?Hs1, ?Hs2; try done.
Qed.

(** The ledger calls of a run, in order. *)
Lemma ledger_calls_after :
  List.filter (λ c, is_ledger_read c || is_ledger_write c) (new_calls w request s)
  `prefix_of`
    [CallQuery IPRequestTable (client_of request) (past_week w) 10;
     CallQuery FaucetRequestTable (default "" (wallet_of request)) (past_week w) 10;
     CallSave IPRequestTable (ip_item w request);
     CallSave FaucetRequestTable (wallet_item w (default "" (wallet_of request)))].
Proof.
  unfold new_calls. paths w request s.
  9: destruct (committed_new_calls (strip raw)) as (extra & -> & Hextra).
  all: normalise_calls.
  9: { assert (List.filter (λ c, is_ledger_read c || is_ledger_write c) extra = []) as ->.
       { clear -Hextra. induction Hextra as [|c extra [Hr Hw] _ IH]; [done|].
         cbn. by rewrite Hr, Hw. }
       done. }
  all: try apply prefix_nil.
  all: try by eexists.
Qed.

End Writes.

(** * Outcomes of single requests *)

Section Outcomes.

Context (w : World) (request : Request) (s : Server).

Lemma wallet_of_Some a :
  wallet_of request = Some a ↔
  ∃ raw rest, args request !! "address_to" = Some (raw :: rest)
              ∧ decode_utf8 raw = Returned raw ∧ a = strip raw.
Proof.
  unfold wallet_of.
  destruct (args request !! "address_to") as [[|raw rest]|]; split;
    try done; try by intros (? & ? & ? & ?).
  - destruct (decode_utf8 raw) as [text|e] eqn:Hd; [|done]. intros [= <-].
    apply decode_utf8_Returned in Hd as Ht. subst text. eauto.
  - intros (? & ? & [= <- _] & Hd & ->). by rewrite Hd.
Qed.

(** Denied at the IP step: one ledger read, the IP message, nothing else. *)
Lemma ask_ip_denied a :
  10000 ≤ default 0 (GetTokenBalance w) →
  wallet_of request = Some a →
  query_raises w IPRequestTable = None →
  3 ≤ observed_count (IPRequest_rows s) (client_of request) (now w) →
  ask_for_assets w request s
  = render (deny ip_message (after_ip_query w request (parsed_frame w s a))).
Proof.
  intros Hb (raw & rest & Ha & Hd & ->)%wallet_of_Some Hq Hc.
  rewrite ask_for_assets_paths, Ha, Hd, Hq. cbn zeta.
  destruct (Z.ltb_spec (default 0 (GetTokenBalance w)) 10000); [lia|].
  by destruct (Z.geb_spec (observed_count (IPRequest_rows s)
                             (client_of request) (now w)) 3); [|lia].
Qed.

(** Admitted by the IP step and denied at the wallet step. *)
Lemma ask_wallet_denied a :
  10000 ≤ default 0 (GetTokenBalance w) →
  wallet_of request = Some a →
  query_raises w IPRequestTable = None →
  observed_count (IPRequest_rows s) (client_of request) (now w) < 3 →
  query_raises w FaucetRequestTable = None →
  1 ≤ observed_count (FaucetRequest_rows s) a (now w) →
  ask_for_assets w request s
  = render (deny wallet_message
              (after_wallet_query w a
                 (with_step 1 (after_ip_query w request (parsed_frame w s a))))).
Proof.
  intros Hb (raw & rest & Ha & Hd & ->)%wallet_of_Some Hq1 Hc1 Hq2 Hc2.
  rewrite ask_for_assets_paths, Ha, Hd, Hq1, Hq2. cbn zeta.
  destruct (Z.ltb_spec (default 0 (GetTokenBalance w)) 10000); [lia|].
  destruct (Z.geb_spec (observed_count (IPRequest_rows s)
                          (client_of request) (now w)) 3); [lia|].
  by destruct (Z.geb_spec (observed_count (FaucetRequest_rows s)
                             (strip raw) (now w)) 1); [|lia].
Qed.

(** A run that got past both checks and both puts goes on to the transfer. *)
Lemma ask_committed a :
  checks_pass w request s a →
  save_raises w IPRequestTable = None →
  save_raises w FaucetRequestTable = None →
  ask_for_assets w request s
  = finish (tx_block w a (committed_frame w request s a)).
Proof.
  intros (Hb & (raw & rest & Ha & Hd & ->)%wallet_of_Some & Hq1 & Hc1 & Hq2 & Hc2) Hs1 Hs2.
  rewrite ask_for_assets_paths, Ha, Hd, Hq1, Hq2, Hs1, Hs2. cbn zeta.
  destruct (Z.ltb_spec (default 0 (GetTokenBalance w)) 10000); [lia|].
  destruct (Z.geb_spec (observed_count (IPRequest_rows s)
                          (client_of request) (now w)) 3); [lia|].
  by destruct (Z.geb_spec (observed_count (FaucetRequest_rows s)
                             (strip raw) (now w)) 1); [lia|].
Qed.

Lemma admitted_iff :
  admitted w request s ↔
  ∃ a, checks_pass w request s a
       ∧ save_raises w IPRequestTable = None
       ∧ save_raises w FaucetRequestTable = None.
Proof.
  unfold admitted. split.
  - intros [_ [item (a & -> & ? & ? & ?)%written_wallet_Some]]. eauto.
  - intros (a & Hp & Hs1 & Hs2). split.
    + exists (ip_item w request). apply written_ip_Some. eauto.
    + exists (wallet_item w a). apply written_wallet_Some. eauto 10.
Qed.

(** What an admitted run leaves in the two tables. *)
Lemma admitted_rows :
  admitted w request s →
  ∃ a, wallet_of request = Some a
       ∧ IPRequest_rows (ask_for_assets w request s).2
         = save (ip_item w request) (IPRequest_rows s)
       ∧ FaucetRequest_rows (ask_for_assets w request s).2
         = save (wallet_item w a) (FaucetRequest_rows s).
Proof.
  intros (a & Hp & Hs1 & Hs2)%admitted_iff. exists a.
  split; [apply Hp|].
  pose proof (rows_after w request s IPRequestTable) as H1.
  pose proof (rows_after w request s FaucetRequestTable) as H2.
  assert (written IPRequestTable w request s = Some (ip_item w request)) as E1
    by (apply written_ip_Some; eauto).
  assert (written FaucetRequestTable w request s = Some (wallet_item w a)) as E2
    by (apply written_wallet_Some; eauto 10).
  rewrite E1 in H1. rewrite E2 in H2. done.
Qed.

(** The fall-back text of line 322 is never what gets rendered. *)
Lemma no_address_message_unreachable template c :
  (ask_for_assets w request s).1 = Render template c →
  message c ≠ Some no_address_message.
Proof.
  paths w request s.
  9: destruct (finish_tx_block w (strip raw) (committed_frame w request s (strip raw)))
       as (_ & _ & _ & [[-> _]|[(c' & -> & _ & Hm) _]]); [done..| |].
  all: cbn; intros [= <- <-] || intros [=]; cbn; try done.
  destruct Hm as [[e ->]| ->]; done.
Qed.

(** The stored transaction is truthy afterwards exactly on success. *)
Lemma ask_sent_tx :
  truthy (sent_tx (self (ask_for_assets w request s).2)) = true
  ↔ (ask_for_assets w request s).1 = Redirect "/success".
Proof.
  paths w request s.
  9: destruct (finish_tx_block w (strip raw) (committed_frame w request s (strip raw)))
       as (_ & _ & _ & [[-> ->]|[(c' & -> & _) [->| ->]]]); [done..| | |].
  all: by cbn.
Qed.

End Outcomes.

(** * Scenarios over the ledger *)

Section Scenarios.

Implicit Types (tbl : Table) (item : Item).

Lemma window_pos : 0 < window.
Proof. by vm_compute. Qed.

Lemma in_window_empty_mono tbl hk since since' :
  in_window tbl hk since = ∅ → since ≤ since' → in_window tbl hk since' = ∅.
Proof.
  intros Hempty Hle. apply map_empty. intros [k t].
  destruct (in_window tbl hk since' !! (k, t)) as [v|] eqn:E; [|done].
  apply in_window_lookup in E as (Hrow & -> & Hlt).
  assert (in_window tbl hk since !! (hk, t) = Some v) as Hin
    by (apply in_window_lookup; repeat split; [done|lia]).
  by rewrite Hempty, lookup_empty in Hin.
Qed.

Lemma size_in_window_save_S tbl hk since item :
  (size (in_window (save item tbl) hk since) ≤ S (size (in_window tbl hk since)))%nat.
Proof.
  destruct (decide (hash_key item = hk ∧ since < last_visited item)) as [[Hk Ht]|Hout].
  - rewrite in_window_save_in by done.
    destruct (in_window tbl hk since !! primary_key item) eqn:E.
    + rewrite map_size_insert_Some by done. lia.
    + by rewrite map_size_insert_None.
  - rewrite in_window_save_out by done. lia.
Qed.

Lemma observed_count_fresh tbl hk now :
  in_window tbl hk (now - window) = ∅ → observed_count tbl hk now = 0.
Proof. intros H. by rewrite observed_count_size, H, map_size_empty. Qed.

Lemma observed_count_save_S tbl hk now item :
  observed_count (save item tbl) hk now ≤ observed_count tbl hk now + 1.
Proof.
  rewrite !observed_count_size.
  pose proof (size_in_window_save_S tbl hk (now - window) item). lia.
Qed.

(** A record inside the window is seen by the next check. *)
Lemma observed_count_save_pos tbl now item :
  now - window < last_visited item →
  1 ≤ observed_count (save item tbl) (hash_key item) now.
Proof.
  intros Hin. rewrite observed_count_size.
  assert (length [item] ≤ size (in_window (save_all [item] tbl) (hash_key item)
                                  (now - window)%Z))%nat as H.
  { apply size_in_window_save_all; [by repeat constructor|apply NoDup_singleton]. }
  change (save_all [item] tbl) with (save item tbl) in H. cbn [length] in H. lia.
Qed.

(** Three records of one identity at three instants, all inside the
    window, fill the IP quota. *)
Lemma observed_count_three tbl hk now i1 i2 i3 :
  hash_key i1 = hk → hash_key i2 = hk → hash_key i3 = hk →
  NoDup [last_visited i1; last_visited i2; last_visited i3] →
  now - window < last_visited i1 →
  now - window < last_visited i2 →
  now - window < last_visited i3 →
  3 ≤ observed_count (save i3 (save i2 (save i1 tbl))) hk now.
Proof.
  intros H1 H2 H3 Hnd Ht1 Ht2 Ht3. rewrite observed_count_size.
  assert (length [i3; i2; i1] ≤ size (in_window (save_all [i3; i2; i1] tbl) hk
                                        (now - window)%Z))%nat as H.
  { apply size_in_window_save_all; [by repeat constructor|].
    change (NoDup (reverse [last_visited i1; last_visited i2; last_visited i3])).
    by rewrite reverse_Permutation. }
  change (save_all [i3; i2; i1] tbl) with (save i3 (save i2 (save i1 tbl))) in H.
  cbn [length] in H. lia.
Qed.

End Scenarios.

Section Calls.

Context (w : World) (request : Request) (s : Server).

(** With an address in the form and funds in the wallet, the first call
    that leaves the process is the IP query. *)
Lemma new_calls_head a :
  10000 ≤ default 0 (GetTokenBalance w) →
  wallet_of request = Some a →
  ∃ l, new_calls w request s
       = CallQuery IPRequestTable (client_of request) (past_week w) 10 :: l.
Proof.
  intros Hb (raw1 & rest1 & Ha & Hd & ->)%wallet_of_Some.
  unfold new_calls. paths w request s; try lia; try done; try (simplify_eq; congruence).
  7: destruct (committed_new_calls w request s (strip raw)) as (extra & -> & Hextra).
  all: normalise_calls; eauto.
Qed.

(** The ledger writes of an admitted run are its two puts. *)
Lemma admitted_writes a :
  checks_pass w request s a →
  save_raises w IPRequestTable = None →
  save_raises w FaucetRequestTable = None →
  List.filter is_ledger_write (new_calls w request s)
  = [CallSave IPRequestTable (ip_item w request);
     CallSave FaucetRequestTable (wallet_item w a)].
Proof.
  intros Hp Hs1 Hs2. unfold new_calls. rewrite (ask_committed _ _ _ a) by done.
  destruct (committed_new_calls w request s a) as (extra & -> & Hextra).
  cbn. by rewrite (proj2 (proj2 (filter_gateway_calls IPRequestTable _ Hextra))).
Qed.

End Calls.

(** The outcome of a denial at the IP step. *)
Lemma ip_denial_outcome (w : World) (request : Request) (s : Server) (a : string) :
  10000 ≤ default 0 (GetTokenBalance w) →
  wallet_of request = Some a →
  query_raises w IPRequestTable = None →
  3 ≤ observed_count (IPRequest_rows s) (client_of request) (now w) →
  denied_at_ip_check w request s.
Proof.
  intros Hb Ha Hq Hc. unfold denied_at_ip_check.
  pose proof (ask_ip_denied w request s a Hb Ha Hq Hc) as E.
  assert (new_calls w request s
          = [CallQuery IPRequestTable (client_of request) (past_week w) 10]) as Hcalls.
  { unfold new_calls. rewrite E. by normalise_calls. }
  rewrite Hcalls, E.
  repeat split; try done; try (intros t; by destruct t).
  cbn. eauto.
Qed.

(** * Runs of the handler, one after another *)

Section Runs.

(** In service and with both counts below their maxima, a claim is
    admitted. *)
Lemma admitted_of_counts (w : World) (request : Request) (s : Server) (a : string) :
  in_service w request a →
  observed_count (IPRequest_rows s) (client_of request) (now w) < 3 →
  observed_count (FaucetRequest_rows s) a (now w) < 1 →
  admitted w request s.
Proof.
  intros (Hb & Ha & Hq1 & Hq2 & Hs1 & Hs2) Hc1 Hc2.
  apply admitted_iff. exists a. unfold checks_pass. eauto 10.
Qed.

(** After an admitted claim for a wallet, a claim for that wallet made
    within the window finds the record, is not admitted and writes
    nothing; unless the IP step stops it first, it gets the wallet
    message. *)
Lemma second_claim_of_wallet (wa wb : World) (ra rb : Request) (s : Server) (a : string) :
  admitted wa ra s → wallet_of ra = Some a → wallet_of rb = Some a →
  now wb - window < now wa →
  10000 ≤ default 0 (GetTokenBalance wb) →
  query_raises wb IPRequestTable = None →
  query_raises wb FaucetRequestTable = None →
  1 ≤ observed_count (FaucetRequest_rows (ask_for_assets wa ra s).2) a (now wb)
  ∧ ¬ admitted wb rb (ask_for_assets wa ra s).2
  ∧ (∀ t, rows t (ask_for_assets wb rb (ask_for_assets wa ra s).2).2
          = rows t (ask_for_assets wa ra s).2)
  ∧ (observed_count (IPRequest_rows (ask_for_assets wa ra s).2) (client_of rb) (now wb) < 3 →
     ∃ c, (ask_for_assets wb rb (ask_for_assets wa ra s).2).1 = Render "index.html" c
          ∧ message c = Some wallet_message ∧ error c = Some true).
Proof.
  intros Hadm Ha Hb Hin Hbal Hq1 Hq2.
  destruct (admitted_rows _ _ _ Hadm) as (a' & Ha' & _ & R).
  assert (a' = a) as -> by congruence.
  set (s1 := (ask_for_assets wa ra s).2) in *.
  assert (1 ≤ observed_count (FaucetRequest_rows s1) a (now wb)) as Hcount.
  { rewrite R. apply (observed_count_save_pos _ _ (wallet_item wa a)). exact Hin. }
  assert (¬ admitted wb rb s1) as Hna.
  { intros (a' & (_ & Ha'' & _ & _ & _ & Hc) & _)%admitted_iff.
    assert (a' = a) as -> by congruence. lia. }
  split; [done|]. split; [done|]. split.
  - intros t. rewrite rows_after.
    destruct (written t wb rb s1) as [item|] eqn:E; [|done].
    destruct Hna. apply admitted_iff. destruct t.
    + apply written_ip_Some in E as (_ & a' & Hp & _).
      destruct Hp as (_ & Ha'' & _ & _ & _ & Hc).
      assert (a' = a) as -> by congruence. lia.
    + apply written_wallet_Some in E as (a' & _ & Hp & _).
      destruct Hp as (_ & Ha'' & _ & _ & _ & Hc).
      assert (a' = a) as -> by congruence. lia.
  - intros Hip. rewrite (ask_wallet_denied _ _ _ a) by done. cbn. eauto.
Qed.

(** Three claims in service from one IP, at increasing instants and
    starting from a fresh window, each passing its wallet check, are all
    admitted; a fourth from that IP, while the first is still inside the
    window, stops at the IP step. *)
Lemma four_claims_of_ip (wa wb wc wd : World) (ra rb rc rd : Request) (s0 : Server)
    (a1 a2 a3 a4 : string) :
  client_of ra = client_of rd → client_of rb = client_of rd →
  client_of rc = client_of rd →
  in_window (IPRequest_rows s0) (client_of rd) (now wa - window) = ∅ →
  now wa < now wb → now wb < now wc → now wd - window < now wa →
  in_service wa ra a1 → in_service wb rb a2 → in_service wc rc a3 →
  observed_count (FaucetRequest_rows s0) a1 (now wa) < 1 →
  observed_count (FaucetRequest_rows (ask_for_assets wa ra s0).2) a2 (now wb) < 1 →
  observed_count
    (FaucetRequest_rows (ask_for_assets wb rb (ask_for_assets wa ra s0).2).2)
    a3 (now wc) < 1 →
  10000 ≤ default 0 (GetTokenBalance wd) → wallet_of rd = Some a4 →
  query_raises wd IPRequestTable = None →
  admitted wa ra s0
  ∧ admitted wb rb (ask_for_assets wa ra s0).2
  ∧ admitted wc rc (ask_for_assets wb rb (ask_for_assets wa ra s0).2).2
  ∧ denied_at_ip_check wd rd
      (ask_for_assets wc rc (ask_for_assets wb rb (ask_for_assets wa ra s0).2).2).2.
Proof.
  intros E1 E2 E3 Hfresh Hab Hbc Hda S1 S2 S3 W1 W2 W3 Hbal Ha4 Hq.
  pose proof window_pos as Hw.
  set (ip := client_of rd) in *.
  assert (observed_count (IPRequest_rows s0) ip (now wa) = 0) as C1
    by by apply observed_count_fresh.
  assert (observed_count (IPRequest_rows s0) ip (now wb) = 0) as C2.
  { apply observed_count_fresh, (in_window_empty_mono _ _ (now wa - window)); [done|lia]. }
  assert (observed_count (IPRequest_rows s0) ip (now wc) = 0) as C3.
  { apply observed_count_fresh, (in_window_empty_mono _ _ (now wa - window)); [done|lia]. }
  assert (admitted wa ra s0) as A1.
  { apply (admitted_of_counts _ _ _ a1); [done| |done]. rewrite E1. fold ip. lia. }
  destruct (admitted_rows _ _ _ A1) as (? & _ & R1 & _).
  set (s1 := (ask_for_assets wa ra s0).2) in *.
  assert (admitted wb rb s1) as A2.
  { apply (admitted_of_counts _ _ _ a2); [done| |done]. rewrite E2, R1. fold ip.
    pose proof (observed_count_save_S (IPRequest_rows s0) ip (now wb) (ip_item wa ra)).
    lia. }
  destruct (admitted_rows _ _ _ A2) as (? & _ & R2 & _).
  set (s2 := (ask_for_assets wb rb s1).2) in *.
  assert (admitted wc rc s2) as A3.
  { apply (admitted_of_counts _ _ _ a3); [done| |done]. rewrite E3, R2, R1. fold ip.
    pose proof (observed_count_save_S (IPRequest_rows s0) ip (now wc) (ip_item wa ra)).
    pose proof (observed_count_save_S (save (ip_item wa ra) (IPRequest_rows s0)) ip
                  (now wc) (ip_item wb rb)).
    lia. }
  destruct (admitted_rows _ _ _ A3) as (? & _ & R3 & _).
  split; [done|]. split; [done|]. split; [done|].
  apply (ip_denial_outcome _ _ _ a4); try done.
  rewrite R3, R2, R1. apply observed_count_three; try done; cbn; try lia.
  repeat apply NoDup_cons_2; try apply NoDup_nil_2;
    rewrite ?not_elem_of_cons; repeat split; try lia; apply not_elem_of_nil.
Qed.

End Runs.

(** * The claims *)

(** C1: each rate-limit check allows the claim exactly when the observed
    count is strictly below the scope's maximum (3 for the IP step, 1 for
    the wallet step); a run is admitted exactly when both counts are below;
    a wallet's first claim in a fresh window passes and its second within
    the window does not; an IP's first three claims pass and the fourth does
    not.  The last two parts say the same of runs of the handler: after an
    admitted first claim for a wallet, a second claim for it within the
    window is not admitted, writes nothing and is shown the wallet message;
    three claims from one IP at increasing instants are admitted and the
    fourth, made while the first is inside the window, stops at the IP step
    with the IP message. *)
Theorem C1_allowed_iff_count_below_max (w : World) (request : Request)
    (fr0 fr1 : Frame) (a : string) (item : Item) :
  proceed fr0 = true → step fr0 = 0 →
  proceed fr1 = true → step fr1 = 1 → iprequest_item fr1 = Some item →
  query_raises w IPRequestTable = None →
  query_raises w FaucetRequestTable = None →
  save_raises w IPRequestTable = None →
  save_raises w FaucetRequestTable = None →
  ip_check w request fr0
  = Some (observed_count (IPRequest_rows (srv fr0)) (client_of request) (now w) <? 3)
  ∧ wallet_check w a fr1
    = Some (observed_count (FaucetRequest_rows (srv fr1)) a (now w) <? 1)
  ∧ (∀ s, admitted w request s ↔
          ∃ a', 10000 ≤ default 0 (GetTokenBalance w)
                ∧ wallet_of request = Some a'
                ∧ observed_count (IPRequest_rows s) (client_of request) (now w) < 3
                ∧ observed_count (FaucetRequest_rows s) a' (now w) < 1)
  ∧ (∀ (tbl : Table) id t1 t2 x,
       in_window tbl id (t1 - window) = ∅ → t2 - window < t1 →
       (observed_count tbl id t1 <? 1) = true
       ∧ (observed_count (save (mkItem id t1 x) tbl) id t2 <? 1) = false)
  ∧ (∀ (tbl : Table) id t1 t2 t3 t4 x1 x2 x3,
       in_window tbl id (t1 - window) = ∅ →
       t1 < t2 → t2 < t3 → t4 - window < t1 →
       let tbl1 := save (mkItem id t1 x1) tbl in
       let tbl2 := save (mkItem id t2 x2) tbl1 in
       let tbl3 := save (mkItem id t3 x3) tbl2 in
       (observed_count tbl id t1 <? 3) = true
       ∧ (observed_count tbl1 id t2 <? 3) = true
       ∧ (observed_count tbl2 id t3 <? 3) = true
       ∧ (observed_count tbl3 id t4 <? 3) = false)
  ∧ (∀ wa wb ra rb s a',
       in_service wa ra a' →
       observed_count (IPRequest_rows s) (client_of ra) (now wa) < 3 →
       in_window (FaucetRequest_rows s) a' (now wa - window) = ∅ →
       10000 ≤ default 0 (GetTokenBalance wb) →
       wallet_of rb = Some a' →
       query_raises wb IPRequestTable = None →
       query_raises wb FaucetRequestTable = None →
       now wb - window < now wa →
       admitted wa ra s
       ∧ ¬ admitted wb rb (ask_for_assets wa ra s).2
       ∧ (∀ t, rows t (ask_for_assets wb rb (ask_for_assets wa ra s).2).2
               = rows t (ask_for_assets wa ra s).2)
       ∧ (observed_count (IPRequest_rows (ask_for_assets wa ra s).2)
            (client_of rb) (now wb) < 3 →
          ∃ c, (ask_for_assets wb rb (ask_for_assets wa ra s).2).1
               = Render "index.html" c
               ∧ message c = Some wallet_message ∧ error c = Some true))
  ∧ (∀ wa wb wc wd ra rb rc rd s0 a1 a2 a3 a4,
       client_of ra = client_of rd → client_of rb = client_of rd →
       client_of rc = client_of rd →
       in_window (IPRequest_rows s0) (client_of rd) (now wa - window) = ∅ →
       now wa < now wb → now wb < now wc → now wd - window < now wa →
       in_service wa ra a1 → in_service wb rb a2 → in_service wc rc a3 →
       observed_count (FaucetRequest_rows s0) a1 (now wa) < 1 →
       observed_count (FaucetRequest_rows (ask_for_assets wa ra s0).2) a2 (now wb) < 1 →
       observed_count
         (FaucetRequest_rows (ask_for_assets wb rb (ask_for_assets wa ra s0).2).2)
         a3 (now wc) < 1 →
       10000 ≤ default 0 (GetTokenBalance wd) → wallet_of rd = Some a4 →
       query_raises wd IPRequestTable = None →
       admitted wa ra s0
       ∧ admitted wb rb (ask_for_assets wa ra s0).2
       ∧ admitted wc rc (ask_for_assets wb rb (ask_for_assets wa ra s0).2).2
       ∧ denied_at_ip_check wd rd
           (ask_for_assets wc rc
              (ask_for_assets wb rb (ask_for_assets wa ra s0).2).2).2).
Proof.
  intros Hp0 Hs0 Hp1 Hs1 Hitem Hq1 Hq2 Hv1 Hv2.
  split; [|split; [|split; [|split; [|split; [|split]]]]].
  - unfold ip_check. rewrite ip_block_eq, Hq1 by done.
    destruct (Z.geb_spec (observed_count (IPRequest_rows (srv fr0))
                            (client_of request) (now w)) 3);
      destruct (Z.ltb_spec (observed_count (IPRequest_rows (srv fr0))
                              (client_of request) (now w)) 3); try lia; cbn; by rewrite ?Hp0.
  - unfold wallet_check. rewrite (wallet_block_eq w a item) by done.
    cbn zeta. rewrite Hq2, Hv1, Hv2.
    destruct (Z.geb_spec (observed_count (FaucetRequest_rows (srv fr1)) a (now w)) 1);
      destruct (Z.ltb_spec (observed_count (FaucetRequest_rows (srv fr1)) a (now w)) 1);
      try lia; cbn; by rewrite ?Hp1.
  - intros s. rewrite admitted_iff. unfold checks_pass. split.
    + intros (a' & (?&?&?&?&?&?) & ? & ?). eauto 10.
    + intros (a' & ? & ? & ? & ?). exists a'. eauto 10.
  - intros tbl id t1 t2 x Hfresh Hin.
    rewrite (observed_count_fresh _ _ _ Hfresh). split; [done|].
    pose proof (observed_count_save_pos tbl t2 (mkItem id t1 x) Hin) as H.
    cbn in H. apply Z.ltb_ge. exact H.
  - intros tbl id t1 t2 t3 t4 x1 x2 x3 Hfresh H12 H23 H41 tbl1 tbl2 tbl3.
    pose proof window_pos as Hw.
    assert (observed_count tbl id t1 = 0) as E1 by by apply observed_count_fresh.
    assert (observed_count tbl id t2 = 0) as E2.
    { apply observed_count_fresh, (in_window_empty_mono _ _ (t1 - window)); [done|lia]. }
    assert (observed_count tbl id t3 = 0) as E3.
    { apply observed_count_fresh, (in_window_empty_mono _ _ (t1 - window)); [done|lia]. }
    pose proof (observed_count_save_S tbl id t2 (mkItem id t1 x1)).
    pose proof (observed_count_save_S tbl id t3 (mkItem id t1 x1)).
    pose proof (observed_count_save_S (save (mkItem id t1 x1) tbl) id t3 (mkItem id t2 x2)).
    pose proof (observed_count_three tbl id t4 (mkItem id t1 x1) (mkItem id t2 x2)
                  (mkItem id t3 x3)) as H4.
    cbn in H4.
    assert (NoDup [t1; t2; t3]) as Hnd.
    { repeat apply NoDup_cons_2; try apply NoDup_nil_2;
        rewrite ?not_elem_of_cons; repeat split; try lia; apply not_elem_of_nil. }
    specialize (H4 eq_refl eq_refl eq_refl Hnd).
    subst tbl1 tbl2 tbl3.
    repeat split; try (apply Z.ltb_lt; lia).
    apply Z.ltb_ge. apply H4; lia.
  - intros wa wb ra rb s a' Hserv Hc Hfresh Hbal Hb Hqa Hqb Hin.
    assert (admitted wa ra s) as Hadm.
    { apply (admitted_of_counts _ _ _ a'); [done..|].
      rewrite observed_count_fresh by done. lia. }
    split; [done|].
    apply (second_claim_of_wallet wa wb ra rb s a'); try done. apply Hserv.
  - intros wa wb wc wd ra rb rc rd s0 a1 a2 a3 a4.
    apply four_claims_of_ip.
Qed.

Lemma C1_witness :
  ip_check (demo_world 50000 1000 relayed) (demo_request "1.2.3.4" "AWallet")
    (entry_frame (demo_world 50000 1000 relayed) demo_server) = Some true
  ∧ wallet_check (demo_world 50000 1000 relayed) "AWallet"
      (with_step 1
         (after_ip_query (demo_world 50000 1000 relayed) (demo_request "1.2.3.4" "AWallet")
            (entry_frame (demo_world 50000 1000 relayed) demo_server))) = Some true
  ∧ (admitted w1 (demo_request "1.2.3.4" "AWallet") demo_server
     ∧ ¬ admitted w2 (demo_request "5.6.7.8" "AWallet")
           (after_one (demo_request "1.2.3.4" "AWallet")))
  ∧ denied_at_ip_check w4 (demo_request "1.2.3.4" "AWalletD")
      (after_three (demo_request "1.2.3.4" "AWalletA") (demo_request "1.2.3.4" "AWalletB")
         (demo_request "1.2.3.4" "AWalletC")).
Proof.
  destruct (C1_allowed_iff_count_below_max
              (demo_world 50000 1000 relayed) (demo_request "1.2.3.4" "AWallet")
              (entry_frame (demo_world 50000 1000 relayed) demo_server)
              (with_step 1
                 (after_ip_query (demo_world 50000 1000 relayed)
                    (demo_request "1.2.3.4" "AWallet")
                    (entry_frame (demo_world 50000 1000 relayed) demo_server)))
              "AWallet"
              (ip_item (demo_world 50000 1000 relayed) (demo_request "1.2.3.4" "AWallet"))
              eq_refl eq_refl eq_refl eq_refl eq_refl eq_refl eq_refl eq_refl eq_refl)
    as (H1 & H2 & _ & _ & _ & H6 & H7).
  split; [rewrite H1; vm_compute; reflexivity|].
  split; [rewrite H2; vm_compute; reflexivity|].
  split.
  - destruct (H6 w1 w2 (demo_request "1.2.3.4" "AWallet")
                (demo_request "5.6.7.8" "AWallet") demo_server "AWallet")
      as (A & N & _).
    + repeat split; vm_compute; congruence.
    + vm_compute. reflexivity.
    + vm_compute. reflexivity.
    + vm_compute. discriminate.
    + vm_compute. reflexivity.
    + reflexivity.
    + reflexivity.
    + vm_compute. reflexivity.
    + split; [exact A|exact N].
  - destruct (H7 w1 w2 w3 w4 (demo_request "1.2.3.4" "AWalletA")
                (demo_request "1.2.3.4" "AWalletB") (demo_request "1.2.3.4" "AWalletC")
                (demo_request "1.2.3.4" "AWalletD") demo_server
                "AWalletA" "AWalletB" "AWalletC" "AWalletD")
      as (_ & _ & _ & D).
    + reflexivity.
    + reflexivity.
    + reflexivity.
    + vm_compute. reflexivity.
    + vm_compute. reflexivity.
    + vm_compute. reflexivity.
    + vm_compute. reflexivity.
    + repeat split; vm_compute; congruence.
    + repeat split; vm_compute; congruence.
    + repeat split; vm_compute; congruence.
    + vm_compute. reflexivity.
    + vm_compute. reflexivity.
    + vm_compute. reflexivity.
    + vm_compute. discriminate.
    + vm_compute. reflexivity.
    + reflexivity.
    + exact D.
Defined.

(** C2 (as amended): the count used by a rate-limit check made at [now] is
    the number of rows of the identity whose timestamp is strictly greater
    than [now - window], capped at 10; a row stamped exactly [now - window]
    is not counted.  The handler queries with that bound. *)
Theorem C2_count_is_strictly_after_since (tbl : Table) (identity : string) (instant : datetime) :
  observed_count tbl identity instant
  = Z.of_nat (10 `min` size (in_window tbl identity (instant - window)))
  ∧ (∀ k t v, in_window tbl identity (instant - window) !! (k, t) = Some v
              ↔ tbl !! (k, t) = Some v ∧ k = identity ∧ instant - window < t)
  ∧ (∀ item, item ∈ query tbl identity (instant - window) 10 →
             hash_key item = identity ∧ instant - window < last_visited item
             ∧ tbl !! primary_key item = Some (ttl item))
  ∧ (∀ x, observed_count (save (mkItem identity (instant - window) x) tbl) identity instant
          = observed_count tbl identity instant)
  ∧ (∀ w, past_week w = now w - window).
Proof.
  split; [apply observed_count_size|].
  split; [intros k t v; apply in_window_lookup|].
  split; [intros item; apply elem_of_query|].
  split; [|done].
  intros x. rewrite !observed_count_size.
  rewrite in_window_save_out; [done|]. cbn. lia.
Qed.

(** C2, as stated, fails at the boundary.  With one row stamped exactly
    [now - window] the count with [>=] is 1 and the code counts 0; and a
    wallet that claimed at instant 0 is served again at instant [window]. *)
Lemma C2_boundary_row_not_counted :
  countSince_spec boundary_tbl "1.2.3.4" (window - window) = 1
  ∧ observed_count boundary_tbl "1.2.3.4" window = 0
  ∧ (ask_for_assets (demo_world 50000 window relayed)
       (demo_request "1.2.3.4" "AWallet") boundary_server).1 = Redirect "/success".
Proof. repeat split; vm_compute; reflexivity. Qed.

(** C3: a request let through by the IP step and stopped by the wallet
    step writes no record in either table, so the requester's IP count is
    what it was; the IP record is only ever put after both checks passed,
    and (the store willing) together with the wallet record. *)
Theorem C3_wallet_denial_writes_nothing (w : World) (request : Request)
    (s : Server) (a : string) :
  10000 ≤ default 0 (GetTokenBalance w) →
  wallet_of request = Some a →
  query_raises w IPRequestTable = None →
  observed_count (IPRequest_rows s) (client_of request) (now w) < 3 →
  query_raises w FaucetRequestTable = None →
  1 ≤ observed_count (FaucetRequest_rows s) a (now w) →
  (∃ c, (ask_for_assets w request s).1 = Render "index.html" c
        ∧ message c = Some wallet_message ∧ error c = Some true)
  ∧ IPRequest_rows (ask_for_assets w request s).2 = IPRequest_rows s
  ∧ FaucetRequest_rows (ask_for_assets w request s).2 = FaucetRequest_rows s
  ∧ List.filter is_ledger_write (new_calls w request s) = []
  ∧ (∀ t, observed_count (IPRequest_rows (ask_for_assets w request s).2)
            (client_of request) t
          = observed_count (IPRequest_rows s) (client_of request) t)
  ∧ (∀ w' request' s' item,
       written IPRequestTable w' request' s' = Some item →
       ∃ a', checks_pass w' request' s' a')
  ∧ (∀ w' request' s',
       save_raises w' FaucetRequestTable = None →
       is_Some (written IPRequestTable w' request' s')
       ↔ is_Some (written FaucetRequestTable w' request' s')).
Proof.
  intros Hb Ha Hq1 Hc1 Hq2 Hc2.
  assert (new_calls w request s
          = [CallQuery IPRequestTable (client_of request) (past_week w) 10;
             CallQuery FaucetRequestTable a (past_week w) 10]) as Hcalls.
  { unfold new_calls. rewrite (ask_wallet_denied _ _ _ a) by done. by normalise_calls. }
  rewrite (ask_wallet_denied _ _ _ a) by done. cbn.
  repeat split; try done.
  - eauto.
  - by rewrite Hcalls.
  - intros w' request' s' item (_ & a' & Hp & _)%written_ip_Some. eauto.
  - intros [item (-> & a' & Hp & Hs1)%written_ip_Some].
    exists (wallet_item w' a'). apply written_wallet_Some. eauto 10.
  - intros [item (a' & -> & Hp & Hs1 & Hs2)%written_wallet_Some].
    exists (ip_item w' request'). apply written_ip_Some. eauto.
Qed.

Lemma C3_witness :
  IPRequest_rows
    (ask_for_assets (demo_world 50000 1000 relayed)
       (demo_request "5.6.7.8" "AWallet") boundary_server).2
  = IPRequest_rows boundary_server
  ∧ FaucetRequest_rows
      (ask_for_assets (demo_world 50000 1000 relayed)
         (demo_request "5.6.7.8" "AWallet") boundary_server).2
    = FaucetRequest_rows boundary_server.
Proof.
  destruct (C3_wallet_denial_writes_nothing (demo_world 50000 1000 relayed)
              (demo_request "5.6.7.8" "AWallet") boundary_server "AWallet")
    as (_ & H1 & H2 & _).
  - vm_compute. discriminate.
  - reflexivity.
  - reflexivity.
  - vm_compute. reflexivity.
  - reflexivity.
  - vm_compute. discriminate.
  - split; [exact H1|exact H2].
Defined.

(** C4 (what the code does): a request without the [address_to] field is
    answered with the index page carrying the welcome text and
    [error = False]; the text of line 322 is never rendered by any run; and
    a blank address goes on to the IP query like any other. *)
Theorem C4_missing_address_renders_welcome (w : World) (request : Request)
    (s : Server) :
  10000 ≤ default 0 (GetTokenBalance w) →
  args request !! "address_to" = None →
  (∃ c, ask_for_assets w request s
        = (Render "index.html" c, with_self (set_sent_tx None) s)
        ∧ message c = Some welcome_message ∧ error c = Some false)
  ∧ new_calls w request s = []
  ∧ (∀ w' request' s' template c,
       (ask_for_assets w' request' s').1 = Render template c →
       message c ≠ Some no_address_message)
  ∧ (∀ request' raw rest,
       args request' !! "address_to" = Some (raw :: rest) → strip raw = "" →
       ∃ l, new_calls w request' s
            = CallQuery IPRequestTable (client_of request') (past_week w) 10 :: l).
Proof.
  intros Hb Ha.
  assert (ask_for_assets w request s = render (entry_frame w s)) as E.
  { rewrite ask_for_assets_paths, Ha.
    by destruct (Z.ltb_spec (default 0 (GetTokenBalance w)) 10000); [lia|]. }
  repeat split.
  - rewrite E. eexists. split; [reflexivity|]. done.
  - unfold new_calls. rewrite E. by normalise_calls.
  - intros w' request' s' template c. apply no_address_message_unreachable.
  - intros request' raw rest Hargs Hblank.
    apply (new_calls_head w request' s ""); [done|].
    apply wallet_of_Some. exists raw, rest. by rewrite blank_decodes.
Qed.

Lemma C4_witness :
  (ask_for_assets (demo_world 50000 1000 relayed) empty_request demo_server).1
  = Render "index.html"
      (set_error false (_get_context (demo_world 50000 1000 relayed) demo_server)).
Proof.
  destruct (C4_missing_address_renders_welcome (demo_world 50000 1000 relayed)
              empty_request demo_server) as ((c & E & _) & _).
  - vm_compute. discriminate.
  - reflexivity.
  - reflexivity.
Defined.

(** C5: when the token balance is below 10000 the handler redirects to the
    index before its [try]: no call leaves the process (no ledger read, no
    put), both tables are as they were, and the index page shows the
    come-back-later message. *)
Theorem C5_low_balance_short_circuits (w : World) (request : Request) (s : Server) :
  default 0 (GetTokenBalance w) < 10000 →
  ask_for_assets w request s = (Redirect "/", with_self (set_sent_tx None) s)
  ∧ new_calls w request s = []
  ∧ (∀ t, rows t (ask_for_assets w request s).2 = rows t s)
  ∧ (∀ t identity instant,
       observed_count (rows t (ask_for_assets w request s).2) identity instant
       = observed_count (rows t s) identity instant)
  ∧ ∃ c, index w s = (Render "index.html" c, s)
         ∧ message c = Some "NO ASSETS AVAILABLE. Come back later."
         ∧ error c = Some true ∧ come_back c = Some true.
Proof.
  intros Hb.
  assert (ask_for_assets w request s = (Redirect "/", with_self (set_sent_tx None) s)) as E.
  { rewrite ask_for_assets_paths.
    by destruct (Z.ltb_spec (default 0 (GetTokenBalance w)) 10000); [|lia]. }
  repeat split.
  - exact E.
  - unfold new_calls. rewrite E. by normalise_calls.
  - intros t. rewrite E. by destruct t.
  - intros t identity instant. rewrite E. by destruct t.
  - unfold index. cbn.
    destruct (Z.ltb_spec (default 0 (GetTokenBalance w)) 10000); [|lia].
    eexists. split; [reflexivity|]. done.
Qed.

Lemma C5_witness :
  ask_for_assets (demo_world 9999 1000 relayed) (demo_request "1.2.3.4" "AWallet")
    demo_server
  = (Redirect "/", with_self (set_sent_tx None) demo_server)
  ∧ new_calls (demo_world 9999 1000 relayed) (demo_request "1.2.3.4" "AWallet")
      demo_server = [].
Proof.
  destruct (C5_low_balance_short_circuits (demo_world 9999 1000 relayed)
              (demo_request "1.2.3.4" "AWallet") demo_server) as (H1 & H2 & _).
  - vm_compute. reflexivity.
  - split; [exact H1|exact H2].
Defined.

(** C6: when an admitted claim (both checks passed, both records put) does
    not end in the redirect to [/success], the handler renders an error and
    undoes nothing: both records are in the tables, its only ledger writes
    are the two puts, and the next check of that wallet and that IP counts
    them. *)
Theorem C6_failed_transfer_keeps_records (w : World) (request : Request) (s : Server) :
  admitted w request s →
  (ask_for_assets w request s).1 ≠ Redirect "/success" →
  ∃ a, wallet_of request = Some a
    ∧ IPRequest_rows (ask_for_assets w request s).2
      = save (ip_item w request) (IPRequest_rows s)
    ∧ FaucetRequest_rows (ask_for_assets w request s).2
      = save (wallet_item w a) (FaucetRequest_rows s)
    ∧ IPRequest_rows (ask_for_assets w request s).2 !! (client_of request, now w)
      = Some (expire_date w)
    ∧ FaucetRequest_rows (ask_for_assets w request s).2 !! (a, now w)
      = Some (expire_date w)
    ∧ (∃ c, (ask_for_assets w request s).1 = Render "index.html" c
            ∧ error c = Some true)
    ∧ List.filter is_ledger_write (new_calls w request s)
      = [CallSave IPRequestTable (ip_item w request);
         CallSave FaucetRequestTable (wallet_item w a)]
    ∧ 1 ≤ observed_count (IPRequest_rows (ask_for_assets w request s).2)
            (client_of request) (now w)
    ∧ 1 ≤ observed_count (FaucetRequest_rows (ask_for_assets w request s).2)
            a (now w).
Proof.
  intros Hadm Hfail.
  destruct (admitted_rows _ _ _ Hadm) as (a & Ha & R1 & R2).
  apply admitted_iff in Hadm as (a' & Hp & Hs1 & Hs2).
  assert (a' = a) as -> by (destruct Hp as (_ & Ha' & _); congruence).
  pose proof window_pos as Hw.
  exists a. rewrite R1, R2. repeat split; try done.
  - unfold save. apply lookup_insert_eq.
  - unfold save. apply lookup_insert_eq.
  - rewrite (ask_committed _ _ _ a) in Hfail |- * by done.
    destruct (finish_tx_block w a (committed_frame w request s a))
      as (_ & _ & _ & [[E _]|[(c & E & Herr & _) _]]); [done..| |].
    + by destruct Hfail.
    + eauto.
  - by apply admitted_writes.
  - apply (observed_count_save_pos _ _ (ip_item w request)). cbn. lia.
  - apply (observed_count_save_pos _ _ (wallet_item w a)). cbn. lia.
Qed.

Lemma C6_witness :
  ∃ a, wallet_of (demo_request "1.2.3.4" "AWallet") = Some a
    ∧ FaucetRequest_rows
        (ask_for_assets (demo_world 50000 1000 (Returned PyFalse))
           (demo_request "1.2.3.4" "AWallet") demo_server).2
      = save (wallet_item (demo_world 50000 1000 (Returned PyFalse)) a)
          (FaucetRequest_rows demo_server).
Proof.
  destruct (C6_failed_transfer_keeps_records (demo_world 50000 1000 (Returned PyFalse))
              (demo_request "1.2.3.4" "AWallet") demo_server)
    as (a & Ha & _ & R2 & _).
  - split; vm_compute; eexists; reflexivity.
  - vm_compute. discriminate.
  - exists a. split; [exact Ha|exact R2].
Defined.

(** C7: a claim from an IP whose ledger already holds three records inside
    the window is answered with the IP-limit message; the IP query is the
    only call it makes, so the wallet table is not consulted, and nothing
    is written.  In particular this is the fate of the claim that follows
    three admitted claims of that IP made at three instants inside the
    window, whatever wallets the four claims name. *)
Theorem C7_fourth_claim_of_ip_denied (w4 : World) (r4 : Request) (a : string) :
  10000 ≤ default 0 (GetTokenBalance w4) →
  wallet_of r4 = Some a →
  query_raises w4 IPRequestTable = None →
  (∀ s, (3 ≤ size (in_window (IPRequest_rows s) (client_of r4) (now w4 - window)%Z))%nat →
        denied_at_ip_check w4 r4 s)
  ∧ (∀ w1 w2 w3 r1 r2 r3 s0,
       admitted w1 r1 s0 →
       admitted w2 r2 (ask_for_assets w1 r1 s0).2 →
       admitted w3 r3 (ask_for_assets w2 r2 (ask_for_assets w1 r1 s0).2).2 →
       client_of r1 = client_of r4 →
       client_of r2 = client_of r4 →
       client_of r3 = client_of r4 →
       NoDup [now w1; now w2; now w3] →
       now w4 - window < now w1 →
       now w4 - window < now w2 →
       now w4 - window < now w3 →
       denied_at_ip_check w4 r4
         (ask_for_assets w3 r3 (ask_for_assets w2 r2 (ask_for_assets w1 r1 s0).2).2).2).
Proof.
  intros Hb Ha Hq. split.
  - intros s Hsize. apply (ip_denial_outcome _ _ _ a); try done.
    rewrite observed_count_size. lia.
  - intros w1 w2 w3 r1 r2 r3 s0 A1 A2 A3 E1 E2 E3 Hnd T1 T2 T3.
    apply (ip_denial_outcome _ _ _ a); try done.
    destruct (admitted_rows _ _ _ A1) as (a1 & _ & R1 & _).
    destruct (admitted_rows _ _ _ A2) as (a2 & _ & R2 & _).
    destruct (admitted_rows _ _ _ A3) as (a3 & _ & R3 & _).
    rewrite R3, R2, R1. by apply observed_count_three.
Qed.

Lemma C7_witness :
  denied_at_ip_check w4 (demo_request "1.2.3.4" "AWallet4")
    (after_three (demo_request "1.2.3.4" "AWallet1") (demo_request "1.2.3.4" "AWallet2")
       (demo_request "1.2.3.4" "AWallet3")).
Proof.
  destruct (C7_fourth_claim_of_ip_denied w4 (demo_request "1.2.3.4" "AWallet4")
              "AWallet4") as [_ H].
  - vm_compute. discriminate.
  - reflexivity.
  - reflexivity.
  - apply (H w1 w2 w3 (demo_request "1.2.3.4" "AWallet1")
             (demo_request "1.2.3.4" "AWallet2") (demo_request "1.2.3.4" "AWallet3")
             demo_server).
    + split; vm_compute; eexists; reflexivity.
    + split; vm_compute; eexists; reflexivity.
    + split; vm_compute; eexists; reflexivity.
    + reflexivity.
    + reflexivity.
    + reflexivity.
    + apply (bool_decide_unpack _). vm_compute. exact I.
    + vm_compute. reflexivity.
    + vm_compute. reflexivity.
    + vm_compute. reflexivity.
Defined.

(** C8: after putting [n] records of an identity with distinct timestamps
    inside the window, the count is at least [min n 10] and never above 10;
    once the window has passed them, they no longer count. *)
Theorem C8_count_lower_bound_and_expiry (tbl : Table) (identity : string)
    (instant later : datetime) (items : list Item) :
  Forall (λ item, hash_key item = identity ∧ instant - window < last_visited item) items →
  NoDup (last_visited <$> items) →
  Forall (λ item, last_visited item ≤ later - window) items →
  Z.of_nat (length items `min` 10)
    ≤ observed_count (save_all items tbl) identity instant ≤ 10
  ∧ observed_count (save_all items ∅) identity later = 0
  ∧ observed_count (save_all items tbl) identity later
    = observed_count tbl identity later.
Proof.
  intros Hin Hnd Hout.
  assert (Hrej : Forall (λ item, ¬ (hash_key item = identity
                                    ∧ later - window < last_visited item)) items).
  { eapply Forall_impl; [exact Hout|]. cbn. intros item Hle [_ Hlt]. lia. }
  split; [|split].
  - pose proof (size_in_window_save_all tbl identity (instant - window) items Hin Hnd).
    rewrite observed_count_size. lia.
  - rewrite observed_count_size, in_window_save_all_out by done.
    unfold in_window. by rewrite map_filter_empty, map_size_empty.
  - by rewrite !observed_count_size, in_window_save_all_out.
Qed.

Lemma C8_witness :
  Z.of_nat (2 `min` 10)
    ≤ observed_count (save_all [mkItem "A" 5 0; mkItem "A" 6 0] ∅) "A" 7 ≤ 10
  ∧ observed_count (save_all [mkItem "A" 5 0; mkItem "A" 6 0] ∅) "A" (6 + window) = 0
  ∧ observed_count (save_all [mkItem "A" 5 0; mkItem "A" 6 0] ∅) "A" (6 + window)
    = observed_count ∅ "A" (6 + window).
Proof.
  apply (C8_count_lower_bound_and_expiry ∅ "A" 7 (6 + window)
           [mkItem "A" 5 0; mkItem "A" 6 0]).
  - repeat constructor; vm_compute; reflexivity.
  - apply (bool_decide_unpack _). vm_compute. exact I.
  - repeat constructor; vm_compute; discriminate.
Defined.

(** C9: without an [x-real-ip] header the IP-scope identity is the text
    "None": the IP query and the IP record use that key, so three admitted
    header-less claims inside the window, whoever sent them, make the next
    header-less claim stop at the IP step. *)
Theorem C9_missing_header_is_None_identity (w : World) (request : Request)
    (s : Server) (a : string) :
  getHeader request "x-real-ip" = None →
  10000 ≤ default 0 (GetTokenBalance w) →
  wallet_of request = Some a →
  query_raises w IPRequestTable = None →
  client_of request = "None"
  ∧ (∃ l, new_calls w request s
          = CallQuery IPRequestTable "None" (past_week w) 10 :: l)
  ∧ (∀ item, written IPRequestTable w request s = Some item →
             item = mkItem "None" (now w) (expire_date w))
  ∧ (3 ≤ observed_count (IPRequest_rows s) "None" (now w) →
     denied_at_ip_check w request s)
  ∧ (∀ w1 w2 w3 r1 r2 r3 s0,
       getHeader r1 "x-real-ip" = None →
       getHeader r2 "x-real-ip" = None →
       getHeader r3 "x-real-ip" = None →
       admitted w1 r1 s0 →
       admitted w2 r2 (ask_for_assets w1 r1 s0).2 →
       admitted w3 r3 (ask_for_assets w2 r2 (ask_for_assets w1 r1 s0).2).2 →
       NoDup [now w1; now w2; now w3] →
       now w - window < now w1 →
       now w - window < now w2 →
       now w - window < now w3 →
       s = (ask_for_assets w3 r3 (ask_for_assets w2 r2 (ask_for_assets w1 r1 s0).2).2).2 →
       denied_at_ip_check w request s).
Proof.
  intros Hh Hb Ha Hq.
  assert (∀ r, getHeader r "x-real-ip" = None → client_of r = "None") as Hnone.
  { intros r Hr. unfold client_of. by rewrite Hr. }
  pose proof (Hnone _ Hh) as Hc.
  split; [|split; [|split; [|split]]].
  - exact Hc.
  - rewrite <- Hc. by apply (new_calls_head w request s a).
  - intros item (-> & _)%written_ip_Some. unfold ip_item. by rewrite Hc.
  - intros H3. rewrite <- Hc in H3. by apply (ip_denial_outcome _ _ _ a).
  - intros w1 w2 w3 r1 r2 r3 s0 H1 H2 H3' A1 A2 A3 Hnd T1 T2 T3 ->.
    apply (ip_denial_outcome _ _ _ a); try done.
    destruct (admitted_rows _ _ _ A1) as (a1 & _ & R1 & _).
    destruct (admitted_rows _ _ _ A2) as (a2 & _ & R2 & _).
    destruct (admitted_rows _ _ _ A3) as (a3 & _ & R3 & _).
    rewrite R3, R2, R1. apply observed_count_three; rewrite ?Hc; cbn; auto.
Qed.

Lemma C9_witness :
  client_of (headerless_request "AWallet") = "None"
  ∧ ∃ l, new_calls w1 (headerless_request "AWallet") demo_server
         = CallQuery IPRequestTable "None" (past_week w1) 10 :: l.
Proof.
  destruct (C9_missing_header_is_None_identity w1 (headerless_request "AWallet")
              demo_server "AWallet") as (H1 & H2 & _).
  - reflexivity.
  - vm_compute. discriminate.
  - reflexivity.
  - reflexivity.
  - split; [exact H1|exact H2].
Defined.

(** C10: the stored transaction is shown once.  [ask_for_assets] starts
    from a cleared slot whatever was stored, and leaves a transaction there
    exactly when it redirects to [/success]; [app_success] redirects to the
    index when the slot holds no transaction, and otherwise renders it and
    clears the slot, so a second visit in a row is redirected. *)
Theorem C10_sent_tx_is_one_shot (w w' w'' : World) (request : Request) (s : Server) :
  ask_for_assets w request s
  = ask_for_assets w request (with_self (set_sent_tx None) s)
  ∧ (truthy (sent_tx (self (ask_for_assets w request s).2)) = true
     ↔ (ask_for_assets w request s).1 = Redirect "/success")
  ∧ (truthy (sent_tx (self s)) = false ↔ app_success w' s = (Redirect "/", s))
  ∧ (truthy (sent_tx (self s)) = true ↔
     ∃ Hash ToJson c,
       sent_tx (self s) = Some (InvocationTransaction Hash ToJson)
       ∧ app_success w' s = (Render "success.html" c, with_self (set_sent_tx None) s)
       ∧ tx_json c = Some ToJson)
  ∧ truthy (sent_tx (self (app_success w' s).2)) = false
  ∧ (app_success w'' (app_success w' s).2).1 = Redirect "/".
Proof.
  split; [by destruct s as [[] ? ? ?]|].
  split; [apply ask_sent_tx|].
  unfold app_success.
  destruct (sent_tx (self s)) as [[h j|]|] eqn:E; cbn; rewrite ?E;
    repeat split; try done; try (by intros (? & ? & ? & ? & _)); eauto 10.
Qed.

(** * Further properties of the handlers *)

Section MakeTx.

Context (w : World).

(** [_make_tx] in direct style. *)
Lemma _make_tx_eq scripthash_to fr :
  _make_tx w scripthash_to fr =
    let me := self (srv fr) in
    let cleared :=
      with_srv (with_self (set_params []))
        (with_srv (with_self (set_invoke_args [])) fr) in
    match AddrStrToScriptHash w (faucet_wallet_addr me) with
    | Raised e => (Raised e, cleared)
    | Returned scripthash_from =>
        let p := transfer_params me scripthash_from scripthash_to in
        let built :=
          with_srv (with_self (set_params p))
            (with_srv (with_self (set_invoke_args
               [ArgBytes scripthash_from; ArgBytes scripthash_to;
                ArgInt (10000 * 100000000)])) cleared) in
        match struct_pack_i (time_make_tx w) with
        | Raised e => (Raised e, built)
        | Returned nonce =>
            let tested := with_srv (log_call (CallTestInvoke p nonce)) built in
            match TestInvokeContract w p nonce with
            | Raised e => (Raised e, tested)
            | Returned tx =>
                let invoked := with_srv (log_call (CallInvoke tx)) tested in
                match InvokeContract w tx with
                | Raised e => (Raised e, invoked)
                | Returned sent =>
                    (Returned sent,
                     with_srv (with_self (set_sent_tx (Some sent))) invoked)
                end
            end
        end
    end.
Proof.
  unfold _make_tx, transfer_params. mstep.
  destruct (AddrStrToScriptHash w _); cbn; [|done].
  destruct (struct_pack_i _); cbn; [|done].
  destruct (TestInvokeContract w _ _); cbn; [|done].
  by destruct (InvokeContract w _).
Qed.

(** The node calls of the transfer step are those of [node_calls]. *)
Lemma finish_tx_block_calls address fr :
  proceed fr = true → step fr = 2 →
  calls (finish (tx_block w address fr)).2
  = calls (srv fr) ++ node_calls w (self (srv fr)) address.
Proof.
  intros Hp Hs. rewrite tx_block_eq by done. unfold node_calls.
  destruct (AddrStrToScriptHash w address) as [sh|e]; cbn; [|by rewrite app_nil_r].
  rewrite _make_tx_eq. cbn zeta.
  destruct (AddrStrToScriptHash w _); cbn; [|by rewrite app_nil_r].
  destruct (struct_pack_i _); cbn; [|by rewrite app_nil_r].
  unfold transfer_params. cbn.
  destruct (TestInvokeContract w _ _); cbn; [|done].
  destruct (InvokeContract w _) as [[]|]; cbn; by rewrite <- app_assoc.
Qed.

End MakeTx.

Section NodeCalls.

Context (w : World) (request : Request) (s : Server).

(** An admitted run makes its four ledger calls and then the node calls. *)
Lemma new_calls_admitted a :
  checks_pass w request s a →
  save_raises w IPRequestTable = None →
  save_raises w FaucetRequestTable = None →
  new_calls w request s
  = [CallQuery IPRequestTable (client_of request) (past_week w) 10;
     CallQuery FaucetRequestTable a (past_week w) 10;
     CallSave IPRequestTable (ip_item w request);
     CallSave FaucetRequestTable (wallet_item w a)]
    ++ node_calls w (self s) a.
Proof.
  intros Hp Hs1 Hs2. unfold new_calls.
  rewrite (ask_committed _ _ _ a), finish_tx_block_calls by done.
  cbn. by rewrite <- !app_assoc, drop_app_length.
Qed.

(** A run that is not admitted never reaches the node. *)
Lemma new_calls_not_admitted :
  ¬ admitted w request s →
  Forall (λ c, is_node_call c = false) (new_calls w request s).
Proof.
  intros Hna. unfold new_calls. paths w request s.
  9: { destruct Hna. apply admitted_iff. exists (strip raw).
       unfold checks_pass, wallet_of. rewrite Hargs, Hdec. done. }
  all: normalise_calls; by repeat constructor.
Qed.

Lemma node_calls_shape me a :
  Forall (λ c, is_node_call c = true) (node_calls w me a)
  ∧ (length (node_calls w me a) ≤ 2)%nat
  ∧ (length (List.filter is_invoke (node_calls w me a)) ≤ 1)%nat
  ∧ (length (List.filter is_test_invoke (node_calls w me a)) ≤ 1)%nat
  ∧ (node_calls w me a = []
     ∨ (∃ p nonce, node_calls w me a = [CallTestInvoke p nonce])
     ∨ (∃ p nonce tx, node_calls w me a = [CallTestInvoke p nonce; CallInvoke tx])).
Proof.
  unfold node_calls.
  destruct (AddrStrToScriptHash w a); [|by repeat constructor].
  destruct (AddrStrToScriptHash w _); [|by repeat constructor].
  destruct (struct_pack_i _); [|by repeat constructor].
  cbn zeta. destruct (TestInvokeContract w _ _); cbn.
  all: split; [by repeat constructor|]; split; [lia|]; split; [lia|]; split; [lia|].
  all: right; eauto 10.
Qed.

End NodeCalls.

Lemma classic_admitted (w : World) (request : Request) (s : Server) :
  admitted w request s ∨ ¬ admitted w request s.
Proof.
  unfold admitted.
  destruct (written IPRequestTable w request s), (written FaucetRequestTable w request s);
    [left; by eauto|right..]; by intros [[] []].
Qed.

(** X1: the node is contacted only by admitted runs, that is after both
    records were put; the ledger calls of a run all come before its node
    calls; a run test-invokes at most once and relays at most once, and it
    relays only what it has just test-invoked: its node calls are none, or
    one test invocation, or one test invocation followed by one relay. *)
Theorem X1_transfer_only_after_commit (w : World) (request : Request) (s : Server) :
  (∀ c, c ∈ new_calls w request s → is_node_call c = true → admitted w request s)
  ∧ (∃ ledger node,
       new_calls w request s = ledger ++ node
       ∧ Forall (λ c, is_node_call c = false) ledger
       ∧ Forall (λ c, is_node_call c = true) node
       ∧ (length node ≤ 2)%nat
       ∧ (length (List.filter is_invoke node) ≤ 1)%nat
       ∧ (length (List.filter is_test_invoke node) ≤ 1)%nat
       ∧ (node = []
          ∨ (∃ p nonce, node = [CallTestInvoke p nonce])
          ∨ (∃ p nonce tx, node = [CallTestInvoke p nonce; CallInvoke tx]))).
Proof.
  destruct (classic_admitted w request s) as [Hadm|Hna].
  - split; [done|].
    apply admitted_iff in Hadm as (a & Hp & Hs1 & Hs2).
    rewrite (new_calls_admitted _ _ _ a) by done.
    eexists _, _. split; [reflexivity|].
    split; [by repeat constructor|]. apply node_calls_shape.
  - pose proof (new_calls_not_admitted _ _ _ Hna) as Hall. split.
    + intros c Hin Hc. rewrite Forall_forall in Hall.
      specialize (Hall c Hin). congruence.
    + exists (new_calls w request s), []. rewrite app_nil_r.
      split; [done|]. split; [done|]. split; [done|].
      cbn. split; [lia|]. split; [lia|]. split; [lia|]. by left.
Qed.

(** X2: whenever a run test-invokes the contract, the arguments are the
    token's script hash, the operation transfer, and sender, receiver and
    amount, where the sender is the faucet's script hash, the receiver that
    of the stripped form address and the amount 10000 * 10^8; the nonce is
    the packed clock reading. *)
Theorem X2_transfer_parameters (w : World) (request : Request) (s : Server)
    (p : list Arg) (nonce : list Z) :
  CallTestInvoke p nonce ∈ new_calls w request s →
  ∃ a scripthash_from scripthash_to,
    wallet_of request = Some a
    ∧ AddrStrToScriptHash w a = Returned scripthash_to
    ∧ AddrStrToScriptHash w (faucet_wallet_addr (self s)) = Returned scripthash_from
    ∧ p = [ArgBytes (token_script_hash (self s)); ArgStr "transfer";
           ArgList [ArgBytes scripthash_from; ArgBytes scripthash_to;
                    ArgInt 1000000000000]]
    ∧ struct_pack_i (time_make_tx w) = Returned nonce.
Proof.
  intros Hin.
  destruct (classic_admitted w request s) as [Hadm|Hna].
  2:{ pose proof (new_calls_not_admitted _ _ _ Hna) as Hall.
      rewrite Forall_forall in Hall. by specialize (Hall _ Hin). }
  apply admitted_iff in Hadm as (a & Hp & Hs1 & Hs2).
  rewrite (new_calls_admitted _ _ _ a) in Hin by done.
  apply elem_of_app in Hin as [Hin|Hin].
  { repeat (apply elem_of_cons in Hin as [Hin|Hin]; [done|]).
    by apply elem_of_nil in Hin. }
  unfold node_calls in Hin.
  destruct (AddrStrToScriptHash w a) as [to|] eqn:Eto; [|by apply elem_of_nil in Hin].
  destruct (AddrStrToScriptHash w (faucet_wallet_addr (self s))) as [from|] eqn:Efrom;
    [|by apply elem_of_nil in Hin].
  destruct (struct_pack_i (time_make_tx w)) as [n|] eqn:En; [|by apply elem_of_nil in Hin].
  cbn zeta in Hin.
  assert (CallTestInvoke p nonce
          = CallTestInvoke (transfer_params (self s) from to) n) as [= -> ->].
  { apply elem_of_cons in Hin as [Hin|Hin]; [done|].
    destruct (TestInvokeContract w _ _); [|by apply elem_of_nil in Hin].
    apply elem_of_cons in Hin as [Hin|Hin]; [done|]. by apply elem_of_nil in Hin. }
  exists a, from, to. destruct Hp as (_ & Ha & _). done.
Qed.

Lemma X2_witness :
  ∃ a scripthash_from scripthash_to,
    wallet_of (demo_request "1.2.3.4" " AWallet ") = Some a
    ∧ AddrStrToScriptHash w1 a = Returned scripthash_to
    ∧ AddrStrToScriptHash w1 (faucet_wallet_addr (self demo_server))
      = Returned scripthash_from
    ∧ [ArgBytes "0xabc"; ArgStr "transfer";
       ArgList [ArgBytes "AFaucet"; ArgBytes "AWallet"; ArgInt 1000000000000]]
      = [ArgBytes (token_script_hash (self demo_server)); ArgStr "transfer";
         ArgList [ArgBytes scripthash_from; ArgBytes scripthash_to;
                  ArgInt 1000000000000]]
    ∧ struct_pack_i (time_make_tx w1) = Returned [0; 0; 0; 1].
Proof.
  apply (X2_transfer_parameters w1 (demo_request "1.2.3.4" " AWallet ") demo_server).
  vm_compute. do 4 apply list_elem_of_further. apply list_elem_of_here.
Defined.

(** X3: an address that the node's address decoder rejects is found out
    only after the commit: both records are put, the node is not called,
    and the page shows the decoder's exception. *)
Theorem X3_bad_address_found_after_commit (w : World) (request : Request)
    (s : Server) (a : string) (e : Exn) :
  checks_pass w request s a →
  save_raises w IPRequestTable = None →
  save_raises w FaucetRequestTable = None →
  AddrStrToScriptHash w a = Raised e →
  (∃ c, (ask_for_assets w request s).1 = Render "index.html" c
        ∧ message c = Some ("Could not process request: " +:+ e)
        ∧ error c = Some true)
  ∧ IPRequest_rows (ask_for_assets w request s).2
    = save (ip_item w request) (IPRequest_rows s)
  ∧ FaucetRequest_rows (ask_for_assets w request s).2
    = save (wallet_item w a) (FaucetRequest_rows s)
  ∧ List.filter is_node_call (new_calls w request s) = []
  ∧ sent_tx (self (ask_for_assets w request s).2) = None.
Proof.
  intros Hp Hs1 Hs2 Hbad.
  rewrite (new_calls_admitted _ _ _ a) by done.
  unfold node_calls. rewrite Hbad.
  rewrite (ask_committed _ _ _ a), tx_block_eq, Hbad by done. cbn.
  repeat split; try done. eauto.
Qed.

Lemma X3_witness :
  IPRequest_rows
    (ask_for_assets
       (mkWorld (Some 50000) 100 100 1000 0 0 (λ _, None) (λ _, None)
          (λ _, Raised "bad address") (λ _ _, Returned None) (λ _, Returned PyFalse))
       (demo_request "1.2.3.4" "not-an-address") demo_server).2
  = save (mkItem "1.2.3.4" 1000 604800) ∅.
Proof.
  destruct (X3_bad_address_found_after_commit
              (mkWorld (Some 50000) 100 100 1000 0 0 (λ _, None) (λ _, None)
                 (λ _, Raised "bad address") (λ _ _, Returned None)
                 (λ _, Returned PyFalse))
              (demo_request "1.2.3.4" "not-an-address") demo_server
              "not-an-address" "bad address") as (_ & H & _).
  - repeat split; vm_compute; congruence.
  - reflexivity.
  - reflexivity.
  - reflexivity.
  - exact H.
Defined.

(** X4: the nonce is a faithful encoding of the clock reading.  For a
    reading in the signed 32-bit range [struct_pack_i] yields four bytes
    from which the reading is recovered, so different seconds give
    different nonces; outside the range it raises. *)
Theorem X4_nonce_round_trip (n : Z) :
  (-2147483648 ≤ n ≤ 2147483647 →
   ∃ bytes, struct_pack_i n = Returned bytes
            ∧ length bytes = 4%nat
            ∧ Forall (λ b, 0 ≤ b < 256) bytes
            ∧ struct_unpack_i bytes = Some n)
  ∧ (¬ (-2147483648 ≤ n ≤ 2147483647) →
     struct_pack_i n
     = Raised "'i' format requires -2147483648 <= number <= 2147483647")
  ∧ (∀ m bytes, struct_pack_i n = Returned bytes →
                struct_pack_i m = Returned bytes → n = m).
Proof.
  assert (Hrt : ∀ k bytes, struct_pack_i k = Returned bytes →
                 length bytes = 4%nat ∧ Forall (λ b, 0 ≤ b < 256) bytes
                 ∧ struct_unpack_i bytes = Some k).
  { intros k bytes. unfold struct_pack_i. case_decide as Hr; [|done].
    intros [= <-]. rewrite !Z.shiftr_div_pow2 by lia.
    change (2 ^ 24) with 16777216. change (2 ^ 16) with 65536.
    change (2 ^ 8) with 256.
    split; [done|]. split.
    - repeat constructor; try apply Z.mod_pos_bound; try lia.
      + apply Z.div_pos; [|lia]. apply Z.mod_pos_bound. lia.
      + apply Z.div_lt_upper_bound; [lia|].
        pose proof (Z.mod_pos_bound k 4294967296). lia.
    - unfold struct_unpack_i. f_equal.
      set (u := k `mod` 4294967296).
      assert (0 ≤ u < 4294967296) as Hu by (apply Z.mod_pos_bound; lia).
      assert (((u `div` 16777216 * 256 + (u `div` 65536) `mod` 256) * 256
               + (u `div` 256) `mod` 256) * 256 + u `mod` 256 = u) as ->.
      { clearbody u. clear -Hu. Z.div_mod_to_equations. lia. }
      subst u. destruct (Z.ltb_spec (k `mod` 4294967296) 2147483648) as [Hlt|Hge].
      + destruct (decide (0 ≤ k)).
        * rewrite Z.mod_small in * by lia. done.
        * rewrite <- (Z.mod_add k 1) in Hlt by lia.
          rewrite Z.mod_small in Hlt by lia. lia.
      + destruct (decide (0 ≤ k)).
        * rewrite Z.mod_small in Hge by lia. lia.
        * rewrite <- (Z.mod_add k 1) by lia.
          rewrite Z.mod_small by lia. lia. }
  split; [|split].
  - intros Hr. unfold struct_pack_i at 1. rewrite decide_True by done.
    eexists. split; [reflexivity|]. apply Hrt.
    unfold struct_pack_i. by rewrite decide_True by done.
  - intros Hr. unfold struct_pack_i. by rewrite decide_False by done.
  - intros m bytes Hn Hm.
    apply Hrt in Hn as (_ & _ & Hn). apply Hrt in Hm as (_ & _ & Hm). congruence.
Qed.

(** X5: once the clock reading no longer fits 32 signed bits (from
    19 January 2038), packing the nonce raises inside the transfer step:
    an admitted claim keeps its two records, the node is never called, no
    transaction is stored and the page shows an error. *)
Theorem X5_clock_beyond_2038 (w : World) (request : Request) (s : Server) (a : string) :
  checks_pass w request s a →
  save_raises w IPRequestTable = None →
  save_raises w FaucetRequestTable = None →
  2147483647 < time_make_tx w →
  (∃ c, (ask_for_assets w request s).1 = Render "index.html" c
        ∧ error c = Some true
        ∧ ∃ e, message c = Some ("Could not process request: " +:+ e))
  ∧ IPRequest_rows (ask_for_assets w request s).2
    = save (ip_item w request) (IPRequest_rows s)
  ∧ FaucetRequest_rows (ask_for_assets w request s).2
    = save (wallet_item w a) (FaucetRequest_rows s)
  ∧ List.filter is_node_call (new_calls w request s) = []
  ∧ sent_tx (self (ask_for_assets w request s).2) = None.
Proof.
  intros Hp Hs1 Hs2 Hlate.
  assert (struct_pack_i (time_make_tx w)
          = Raised "'i' format requires -2147483648 <= number <= 2147483647") as Hpack.
  { unfold struct_pack_i. rewrite decide_False; [done|lia]. }
  rewrite (new_calls_admitted _ _ _ a) by done.
  unfold node_calls. rewrite Hpack.
  rewrite (ask_committed _ _ _ a), tx_block_eq by done.
  destruct (AddrStrToScriptHash w a) as [to|e1]; cbn.
  2:{ repeat split; try done. eauto 10. }
  rewrite _make_tx_eq. cbn zeta.
  destruct (AddrStrToScriptHash w _) as [from|e2]; cbn.
  2:{ repeat split; try done. eauto 10. }
  rewrite Hpack. cbn. repeat split; try done. eauto 10.
Qed.

Lemma X5_witness :
  List.filter is_node_call
    (new_calls (mkWorld (Some 50000) 100 100 1000 2147483648 2147483648
                  (λ _, None) (λ _, None) (λ a, Returned a)
                  (λ _ _, Returned (Some "tx")) (λ _, relayed))
       (demo_request "1.2.3.4" "AWallet") demo_server) = [].
Proof.
  destruct (X5_clock_beyond_2038
              (mkWorld (Some 50000) 100 100 1000 2147483648 2147483648
                 (λ _, None) (λ _, None) (λ a, Returned a)
                 (λ _ _, Returned (Some "tx")) (λ _, relayed))
              (demo_request "1.2.3.4" "AWallet") demo_server "AWallet")
    as (_ & _ & _ & H & _).
  - repeat split; vm_compute; congruence.
  - reflexivity.
  - reflexivity.
  - vm_compute. reflexivity.
  - exact H.
Defined.

(** X6: a ledger read that raises stops the run closed.  Whether the IP
    query raises, or the IP step admits and the wallet query raises, the
    page shows the exception, nothing is put, the node is not called and
    both tables are as they were. *)
Theorem X6_read_fault_fails_closed (w : World) (request : Request) (s : Server)
    (a : string) (e : Exn) :
  10000 ≤ default 0 (GetTokenBalance w) →
  wallet_of request = Some a →
  query_raises w IPRequestTable = Some e
  ∨ (query_raises w IPRequestTable = None
     ∧ observed_count (IPRequest_rows s) (client_of request) (now w) < 3
     ∧ query_raises w FaucetRequestTable = Some e) →
  (∃ c, (ask_for_assets w request s).1 = Render "index.html" c
        ∧ message c = Some ("Could not process request: " +:+ e)
        ∧ error c = Some true
        ∧ address_to c = Some a)
  ∧ (∀ t, rows t (ask_for_assets w request s).2 = rows t s)
  ∧ List.filter (λ c, is_ledger_write c || is_node_call c) (new_calls w request s) = []
  ∧ ¬ admitted w request s.
Proof.
  intros Hb (raw0 & rest0 & Ha & Hd & ->)%wallet_of_Some Hfault.
  assert (¬ admitted w request s) as Hna.
  { intros (a' & (_ & _ & Hq1 & _ & Hq2 & _) & _)%admitted_iff.
    destruct Hfault as [?|(_ & _ & ?)]; congruence. }
  split; [|split; [|split]]; [| | |done].
  - rewrite ask_for_assets_paths, Ha, Hd.
    destruct (Z.ltb_spec (default 0 (GetTokenBalance w)) 10000); [lia|]. cbn zeta.
    destruct Hfault as [->|(-> & Hc & ->)]; [cbn; eauto 10|].
    destruct (Z.geb_spec (observed_count (IPRequest_rows s)
                            (client_of request) (now w)) 3); [lia|].
    cbn. eauto 10.
  - intros t. rewrite rows_after.
    destruct (written t w request s) as [item|] eqn:E; [|done].
    destruct Hna. apply admitted_iff. destruct t.
    + apply written_ip_Some in E as (_ & a' & Hp & _).
      destruct Hp as (_ & _ & Hq1 & _ & Hq2 & _).
      destruct Hfault as [?|(_ & _ & ?)]; congruence.
    + apply written_wallet_Some in E as (a' & _ & Hp & _).
      destruct Hp as (_ & _ & Hq1 & _ & Hq2 & _).
      destruct Hfault as [?|(_ & _ & ?)]; congruence.
  - unfold new_calls. rewrite ask_for_assets_paths, Ha, Hd.
    destruct (Z.ltb_spec (default 0 (GetTokenBalance w)) 10000); [lia|]. cbn zeta.
    destruct Hfault as [->|(-> & Hc & ->)]; [by normalise_calls|].
    destruct (Z.geb_spec (observed_count (IPRequest_rows s)
                            (client_of request) (now w)) 3); [lia|].
    by normalise_calls.
Qed.

Lemma X6_witness :
  IPRequest_rows
    (ask_for_assets
       (mkWorld (Some 50000) 100 100 1000 0 0
          (λ _, Some "store unavailable") (λ _, None) (λ a, Returned a)
          (λ _ _, Returned (Some "tx")) (λ _, relayed))
       (demo_request "1.2.3.4" "AWallet") boundary_server).2
  = IPRequest_rows boundary_server.
Proof.
  destruct (X6_read_fault_fails_closed
              (mkWorld (Some 50000) 100 100 1000 0 0
                 (λ _, Some "store unavailable") (λ _, None) (λ a, Returned a)
                 (λ _ _, Returned (Some "tx")) (λ _, relayed))
              (demo_request "1.2.3.4" "AWallet") boundary_server
              "AWallet" "store unavailable") as (_ & H & _).
  - vm_compute. discriminate.
  - reflexivity.
  - left. reflexivity.
  - exact (H IPRequestTable).
Defined.

(** X7: the two puts are not atomic.  If the IP put raises, nothing is
    stored and the wallet put is not attempted; if the IP put succeeds and
    the wallet put raises, the IP record stays while the wallet table is
    unchanged, so the IP quota is used up by a claim that was not recorded
    for the wallet.  Either way the node is not called. *)
Theorem X7_puts_are_not_atomic (w : World) (request : Request) (s : Server)
    (a : string) (e : Exn) :
  checks_pass w request s a →
  (save_raises w IPRequestTable = Some e →
     (∀ t, rows t (ask_for_assets w request s).2 = rows t s)
     ∧ List.filter is_ledger_write (new_calls w request s)
       = [CallSave IPRequestTable (ip_item w request)])
  ∧ (save_raises w IPRequestTable = None →
     save_raises w FaucetRequestTable = Some e →
     IPRequest_rows (ask_for_assets w request s).2
     = save (ip_item w request) (IPRequest_rows s)
     ∧ FaucetRequest_rows (ask_for_assets w request s).2 = FaucetRequest_rows s
     ∧ 1 ≤ observed_count (IPRequest_rows (ask_for_assets w request s).2)
             (client_of request) (now w)
     ∧ observed_count (FaucetRequest_rows (ask_for_assets w request s).2) a (now w) < 1
     ∧ ¬ admitted w request s)
  ∧ (is_Some (save_raises w IPRequestTable) ∨ is_Some (save_raises w FaucetRequestTable) →
     (∃ c e', (ask_for_assets w request s).1 = Render "index.html" c
              ∧ message c = Some ("Could not process request: " +:+ e')
              ∧ error c = Some true)
     ∧ List.filter is_node_call (new_calls w request s) = []).
Proof.
  intros (Hb & (raw0 & rest0 & Ha & Hd & ->)%wallet_of_Some & Hq1 & Hc1 & Hq2 & Hc2).
  assert (E : ask_for_assets w request s =
    let fr1 := after_wallet_query w (strip raw0)
                 (with_step 1 (after_ip_query w request (parsed_frame w s (strip raw0)))) in
    match save_raises w IPRequestTable with
    | Some e => render_exception e (attempted IPRequestTable (ip_item w request) fr1)
    | None =>
        match save_raises w FaucetRequestTable with
        | Some e =>
            render_exception e
              (attempted FaucetRequestTable (wallet_item w (strip raw0))
                 (saved IPRequestTable (ip_item w request) fr1))
        | None => finish (tx_block w (strip raw0)
                            (committed_frame w request s (strip raw0)))
        end
    end).
  { rewrite ask_for_assets_paths, Ha, Hd, Hq1, Hq2. cbn zeta.
    destruct (Z.ltb_spec (default 0 (GetTokenBalance w)) 10000); [lia|].
    destruct (Z.geb_spec (observed_count (IPRequest_rows s)
                            (client_of request) (now w)) 3); [lia|].
    by destruct (Z.geb_spec (observed_count (FaucetRequest_rows s)
                               (strip raw0) (now w)) 1); [lia|]. }
  pose proof window_pos as Hw.
  split; [|split].
  - intros Hs1. unfold new_calls. rewrite E, Hs1. cbn zeta.
    split; [intros t; by destruct t|]. by normalise_calls.
  - intros Hs1 Hs2. rewrite E, Hs1, Hs2. cbn.
    repeat split; try done.
    + apply (observed_count_save_pos _ _ (ip_item w request)). cbn. lia.
    + intros (a' & _ & _ & ?)%admitted_iff. congruence.
  - intros Hsome. unfold new_calls. rewrite E. cbn zeta.
    destruct (save_raises w IPRequestTable) as [e1|].
    { split; [cbn; eauto 10|]. by normalise_calls. }
    destruct (save_raises w FaucetRequestTable) as [e2|].
    { split; [cbn; eauto 10|]. by normalise_calls. }
    destruct Hsome as [[? ?]|[? ?]]; done.
Qed.

Lemma X7_witness :
  IPRequest_rows
    (ask_for_assets
       (mkWorld (Some 50000) 100 100 1000 0 0 (λ _, None)
          (λ t, if same_table t FaucetRequestTable then Some "throttled" else None)
          (λ a, Returned a) (λ _ _, Returned (Some "tx")) (λ _, relayed))
       (demo_request "1.2.3.4" "AWallet") demo_server).2
  = save (mkItem "1.2.3.4" 1000 604800) ∅
  ∧ FaucetRequest_rows
      (ask_for_assets
         (mkWorld (Some 50000) 100 100 1000 0 0 (λ _, None)
            (λ t, if same_table t FaucetRequestTable then Some "throttled" else None)
            (λ a, Returned a) (λ _ _, Returned (Some "tx")) (λ _, relayed))
         (demo_request "1.2.3.4" "AWallet") demo_server).2
    = ∅.
Proof.
  destruct (X7_puts_are_not_atomic
              (mkWorld (Some 50000) 100 100 1000 0 0 (λ _, None)
                 (λ t, if same_table t FaucetRequestTable then Some "throttled" else None)
                 (λ a, Returned a) (λ _ _, Returned (Some "tx")) (λ _, relayed))
              (demo_request "1.2.3.4" "AWallet") demo_server "AWallet" "throttled")
    as (_ & H & _).
  - repeat split; vm_compute; congruence.
  - destruct (H eq_refl eq_refl) as (H1 & H2 & _). split; [exact H1|exact H2].
Defined.

(** X8: the handler looks at a request only through what lines 247-248
    make of the [address_to] field (absent; or its first value, decoded as
    UTF-8 and stripped of surrounding white space; or the exception that
    this raises), and through the [x-real-ip] header: two requests that
    agree on these get the same response and leave the same state. *)
Theorem X8_request_seen_through_address_and_header (w : World)
    (request request' : Request) (s : Server) :
  address_field request = address_field request' →
  getHeader request "x-real-ip" = getHeader request' "x-real-ip" →
  ask_for_assets w request s = ask_for_assets w request' s.
Proof.
  unfold address_field. intros Ha Hh. rewrite !ask_for_assets_paths.
  destruct (args request !! "address_to") as [[|raw rest]|],
    (args request' !! "address_to") as [[|raw' rest']|]; try done.
  all: try destruct (decode_utf8 raw) as [text|e];
    try destruct (decode_utf8 raw') as [text'|e']; try done.
  all: injection Ha as Ha; try rewrite Ha; try rewrite <- Ha; try done.
  cbn zeta. unfold committed_frame, after_ip_query, ip_item, client_of. by rewrite Hh.
Qed.

Lemma X8_witness :
  ask_for_assets w1
    (mkRequest {[ "address_to" := ["  AWallet   "; "ignored"] ]} {[ "x-real-ip" := "1.2.3.4" ]})
    demo_server
  = ask_for_assets w1 (demo_request "1.2.3.4" "AWallet") demo_server.
Proof.
  apply (X8_request_seen_through_address_and_header w1 _ _ demo_server);
    vm_compute; reflexivity.
Defined.

(** The page of a failed transfer step keeps the context of the frame. *)
Lemma finish_tx_block_ctx (w : World) address fr :
  proceed fr = true → step fr = 2 →
  ((finish (tx_block w address fr)).1 = Redirect "/success"
   ∧ truthy (sent_tx (self (finish (tx_block w address fr)).2)) = true)
  ∨ ∃ c, (finish (tx_block w address fr)).1 = Render "index.html" c
         ∧ error c = Some true
         ∧ balance c = balance (ctx fr)
         ∧ address_to c = address_to (ctx fr).
Proof.
  intros Hp Hs. rewrite tx_block_eq by done.
  destruct (AddrStrToScriptHash w address) as [sh|e]; cbn; [|right; eauto 10].
  rewrite _make_tx_eq. cbn zeta.
  destruct (AddrStrToScriptHash w _); cbn; [|right; eauto 10].
  destruct (struct_pack_i _); cbn; [|right; eauto 10].
  destruct (TestInvokeContract w _ _); cbn; [|right; eauto 10].
  destruct (InvokeContract w _) as [[]|]; cbn; [by left|right; eauto 10..].
Qed.

Section Gate.

Context (w : World) (request : Request) (s : Server).

(** [/ask] redirects to the index exactly when the balance is short. *)
Lemma ask_redirects_home_iff :
  (ask_for_assets w request s).1 = Redirect "/"
  ↔ default 0 (GetTokenBalance w) < 10000.
Proof.
  paths w request s.
  9: destruct (finish_tx_block w (strip raw) (committed_frame w request s (strip raw)))
       as (_ & _ & _ & [[-> _]|[(c' & -> & _) _]]); [done..| |].
  all: cbn; split; try done; try lia.
Qed.

(** What [/ask] renders is always the index template; the error flag is
    clear exactly when the form had no address field. *)
Lemma ask_render_shape template c :
  (ask_for_assets w request s).1 = Render template c →
  template = "index.html"
  ∧ 10000 ≤ balance c
  ∧ (error c = Some false ∨ error c = Some true)
  ∧ (error c = Some false ↔ args request !! "address_to" = None)
  ∧ address_to c = wallet_of request.
Proof.
  paths w request s.
  9: destruct (finish_tx_block_ctx w (strip raw) (committed_frame w request s (strip raw)))
       as [[-> _]|(c' & -> & Herr & Hbalance & Haddr)]; [done..| |].
  all: cbn; intros [= <- <-] || intros [=]; cbn in *; rewrite ?Hargs.
  all: repeat split; try done; try lia; auto.
  congruence.
Qed.

End Gate.

(** X9: for a store whose token symbol is not one of the context's own
    keys, the index page reads the balance and nothing else: it leaves the
    state as it was, shows the come-back-later error exactly when the
    balance is below 10000 (a token the wallet does not hold counts as 0),
    and that is exactly when [/ask] redirects to it. *)
Theorem X9_index_mirrors_the_balance_gate (w : World) (request : Request) (s : Server) :
  token_symbol (self s) ∉ context_keys →
  (index w s).2 = s
  ∧ ∃ c, (index w s).1 = Render "index.html" c
      ∧ balance c = default 0 (GetTokenBalance w)
      ∧ (come_back c = Some true ↔ default 0 (GetTokenBalance w) < 10000)
      ∧ (come_back c = Some true ↔ (ask_for_assets w request s).1 = Redirect "/")
      ∧ (come_back c = Some true →
         message c = Some "NO ASSETS AVAILABLE. Come back later."
         ∧ error c = Some true)
      ∧ (come_back c ≠ Some true →
         message c = Some welcome_message ∧ error c = None ∧ come_back c = None)
      ∧ (GetTokenBalance w = None → come_back c = Some true).
Proof.
  intros _. split; [done|]. unfold index. cbn.
  eexists. split; [reflexivity|]. rewrite ask_redirects_home_iff.
  destruct (Z.ltb_spec (default 0 (GetTokenBalance w)) 10000) as [Hlt|Hge]; cbn.
  - repeat split; try done.
  - repeat split; try done; try lia.
    intros E. rewrite E in Hge. cbn in Hge. lia.
Qed.

Lemma X9_witness :
  ∃ c, (index (demo_world 9999 1000 relayed) demo_server).1 = Render "index.html" c
       ∧ (come_back c = Some true
          ↔ (ask_for_assets (demo_world 9999 1000 relayed)
               (demo_request "1.2.3.4" "AWallet") demo_server).1 = Redirect "/")
       ∧ (come_back c = Some true →
          message c = Some "NO ASSETS AVAILABLE. Come back later."
          ∧ error c = Some true).
Proof.
  destruct (X9_index_mirrors_the_balance_gate (demo_world 9999 1000 relayed)
              (demo_request "1.2.3.4" "AWallet") demo_server)
    as (_ & c & Hc & _ & _ & Hask & Hmsg & _).
  - apply (bool_decide_unpack _). vm_compute. exact I.
  - exists c. split; [exact Hc|]. split; [exact Hask|exact Hmsg].
Defined.

(** X10: for a store whose token symbol is not one of the context's own
    keys, whatever [/ask] renders is the index template with the error flag
    set one way or the other; the flag is clear exactly when the form had
    no [address_to] field; the page carries the decoded and stripped
    address whenever line 249 was reached, and no address when line 248
    raised or the field was absent; and no page is rendered on a short
    balance. *)
Theorem X10_ask_page_shape (w : World) (request : Request) (s : Server)
    (template : string) (c : Ctx) :
  token_symbol (self s) ∉ context_keys →
  (ask_for_assets w request s).1 = Render template c →
  template = "index.html"
  ∧ 10000 ≤ balance c
  ∧ (error c = Some false ∨ error c = Some true)
  ∧ (error c = Some false ↔ args request !! "address_to" = None)
  ∧ address_to c = wallet_of request.
Proof. intros _. apply ask_render_shape. Qed.

Lemma X10_witness :
  "index.html" = "index.html"
  ∧ 10000 ≤ balance (set_error false (_get_context w1 demo_server))
  ∧ (error (set_error false (_get_context w1 demo_server)) = Some false
     ∨ error (set_error false (_get_context w1 demo_server)) = Some true)
  ∧ (error (set_error false (_get_context w1 demo_server)) = Some false
     ↔ args empty_request !! "address_to" = None)
  ∧ address_to (set_error false (_get_context w1 demo_server)) = wallet_of empty_request.
Proof.
  apply (X10_ask_page_shape w1 empty_request demo_server); [|reflexivity].
  apply (bool_decide_unpack _). vm_compute. exact I.
Defined.

(** X11: the whole happy path.  When both checks pass, both puts go
    through and the node relays the transfer, [/ask] redirects to
    [/success], both records are in the tables, and the next visit to
    [/success] renders the relayed transaction's hash and JSON once. *)
Theorem X11_relayed_claim_is_shown_once (w w' : World) (request : Request)
    (s : Server) (a scripthash_from scripthash_to : string) (nonce : list Z)
    (tx : option string) (Hash ToJson : string) :
  checks_pass w request s a →
  save_raises w IPRequestTable = None →
  save_raises w FaucetRequestTable = None →
  AddrStrToScriptHash w a = Returned scripthash_to →
  AddrStrToScriptHash w (faucet_wallet_addr (self s)) = Returned scripthash_from →
  struct_pack_i (time_make_tx w) = Returned nonce →
  TestInvokeContract w (transfer_params (self s) scripthash_from scripthash_to) nonce
  = Returned tx →
  InvokeContract w tx = Returned (InvocationTransaction Hash ToJson) →
  (ask_for_assets w request s).1 = Redirect "/success"
  ∧ sent_tx (self (ask_for_assets w request s).2)
    = Some (InvocationTransaction Hash ToJson)
  ∧ IPRequest_rows (ask_for_assets w request s).2
    = save (ip_item w request) (IPRequest_rows s)
  ∧ FaucetRequest_rows (ask_for_assets w request s).2
    = save (wallet_item w a) (FaucetRequest_rows s)
  ∧ (∃ c, (app_success w' (ask_for_assets w request s).2).1 = Render "success.html" c
          ∧ message c
            = Some ("Your request has been relayed to the network. Transaction: "
                    +:+ Hash)
          ∧ tx_json c = Some ToJson)
  ∧ sent_tx (self (app_success w' (ask_for_assets w request s).2).2) = None
  ∧ (∀ t, rows t (app_success w' (ask_for_assets w request s).2).2
          = rows t (ask_for_assets w request s).2).
Proof.
  intros Hp Hs1 Hs2 Hto Hfrom Hn Htest Hinv.
  rewrite (ask_committed _ _ _ a), tx_block_eq, Hto by done.
  rewrite _make_tx_eq. cbn zeta. cbn [srv self committed_frame]. cbn.
  rewrite Hfrom, Hn. cbn.
  change (transfer_params (set_sent_tx None (self s)) scripthash_from scripthash_to)
    with (transfer_params (self s) scripthash_from scripthash_to).
  rewrite Htest, Hinv. cbn.
  repeat split; try done. eauto.
Qed.

Lemma X11_witness :
  (ask_for_assets w1 (demo_request "1.2.3.4" "AWallet") demo_server).1
  = Redirect "/success"
  ∧ (app_success w2
       (app_success w2
          (ask_for_assets w1 (demo_request "1.2.3.4" "AWallet") demo_server).2).2).1
    = Redirect "/".
Proof.
  destruct (X11_relayed_claim_is_shown_once w1 w2 (demo_request "1.2.3.4" "AWallet")
              demo_server "AWallet" "AFaucet" "AWallet" [0; 0; 0; 1] (Some "tx")
              "deadbeef" "{}") as (H & _).
  - repeat split; vm_compute; congruence.
  - reflexivity.
  - reflexivity.
  - reflexivity.
  - reflexivity.
  - reflexivity.
  - reflexivity.
  - reflexivity.
  - split; [exact H|]. vm_compute. reflexivity.
Defined.

(** X12: the scan cap of 10 never changes a decision.  With the ledger
    answering, a claim is stopped at the IP step exactly when the IP has at
    least three rows inside the window, counted without any cap, and it is
    stopped at the wallet step exactly when the IP has fewer and the wallet
    has at least one. *)
Theorem X12_cap_never_changes_a_decision (w : World) (request : Request)
    (s : Server) (a : string) :
  10000 ≤ default 0 (GetTokenBalance w) →
  wallet_of request = Some a →
  query_raises w IPRequestTable = None →
  query_raises w FaucetRequestTable = None →
  ((∃ c, (ask_for_assets w request s).1 = Render "index.html" c
         ∧ message c = Some ip_message)
   ↔ (3 ≤ size (in_window (IPRequest_rows s) (client_of request) (now w - window)%Z))%nat)
  ∧ ((∃ c, (ask_for_assets w request s).1 = Render "index.html" c
           ∧ message c = Some wallet_message)
     ↔ (size (in_window (IPRequest_rows s) (client_of request) (now w - window)%Z) < 3)%nat
       ∧ (1 ≤ size (in_window (FaucetRequest_rows s) a (now w - window)%Z))%nat).
Proof.
  intros Hb Ha Hq1 Hq2.
  pose proof (observed_count_size (IPRequest_rows s) (client_of request) (now w)) as E1.
  pose proof (observed_count_size (FaucetRequest_rows s) a (now w)) as E2.
  destruct (Z.lt_ge_cases (observed_count (IPRequest_rows s) (client_of request) (now w)) 3)
    as [Hc1|Hc1].
  2:{ rewrite (ask_ip_denied _ _ _ a) by done. cbn. split; split.
      - intros _. lia.
      - intros _. eauto.
      - by intros (c & [= <-] & [=]).
      - intros [? _]. lia. }
  destruct (Z.lt_ge_cases (observed_count (FaucetRequest_rows s) a (now w)) 1)
    as [Hc2|Hc2].
  2:{ rewrite (ask_wallet_denied _ _ _ a) by done. cbn. split; split.
      - by intros (c & [= <-] & [=]).
      - intros ?. lia.
      - intros _. lia.
      - intros _. eauto. }
  assert (Hother : ∀ c, (ask_for_assets w request s).1 = Render "index.html" c →
                        message c ≠ Some ip_message ∧ message c ≠ Some wallet_message).
  { apply wallet_of_Some in Ha as (raw & rest & Hargs & Hd & ->).
    rewrite ask_for_assets_paths, Hargs, Hd, Hq1, Hq2. cbn zeta.
    destruct (Z.ltb_spec (default 0 (GetTokenBalance w)) 10000); [lia|].
    destruct (Z.geb_spec (observed_count (IPRequest_rows s)
                            (client_of request) (now w)) 3); [lia|].
    destruct (Z.geb_spec (observed_count (FaucetRequest_rows s)
                            (strip raw) (now w)) 1); [lia|].
    destruct (save_raises w IPRequestTable); [by intros c [= <-]|].
    destruct (save_raises w FaucetRequestTable); [by intros c [= <-]|].
    destruct (finish_tx_block w (strip raw) (committed_frame w request s (strip raw)))
      as (_ & _ & _ & [[-> _]|[(c' & -> & _ & Hm) _]]); [done..| |]; [done|].
    intros c [= <-]. by destruct Hm as [[e ->]| ->]. }
  split; split.
  - intros (c & Hr & Hm). by destruct (Hother c Hr).
  - intros ?. lia.
  - intros (c & Hr & Hm). by destruct (Hother c Hr).
  - intros [_ ?]. lia.
Qed.

Lemma X12_witness :
  (∃ c, (ask_for_assets w1 (demo_request "1.2.3.4" "AWallet") boundary_server).1
        = Render "index.html" c ∧ message c = Some wallet_message)
  ↔ (size (in_window (IPRequest_rows boundary_server) "1.2.3.4" (now w1 - window)%Z) < 3)%nat
    ∧ (1 ≤ size (in_window (FaucetRequest_rows boundary_server) "AWallet"
                   (now w1 - window)%Z))%nat.
Proof.
  destruct (X12_cap_never_changes_a_decision w1 (demo_request "1.2.3.4" "AWallet")
              boundary_server "AWallet") as [_ H].
  - vm_compute. discriminate.
  - reflexivity.
  - reflexivity.
  - reflexivity.
  - exact H.
Defined.

(** X13: the ledger calls of any run are, in this order, an initial part
    of: the IP query, the wallet query, the IP put, the wallet put.  So a
    run never puts before it has read both tables, never puts the wallet
    record before the IP record, queries with limit 10 and the bound one
    window back, and stamps its records with the request instant and a
    [ttl] one week after the clock reading. *)
Theorem X13_ledger_calls_in_order (w : World) (request : Request) (s : Server) :
  ∃ a,
    List.filter (λ c, is_ledger_read c || is_ledger_write c) (new_calls w request s)
    `prefix_of`
      [CallQuery IPRequestTable (str (getHeader request "x-real-ip"))
         (datetime_now w - 604800000000) 10;
       CallQuery FaucetRequestTable a (datetime_now w - 604800000000) 10;
       CallSave IPRequestTable
         (mkItem (str (getHeader request "x-real-ip")) (datetime_now w)
            (time_ask w + 604800));
       CallSave FaucetRequestTable
         (mkItem a (datetime_now w) (time_ask w + 604800))]
    ∧ (List.filter (λ c, is_ledger_read c || is_ledger_write c) (new_calls w request s) ≠ []
       → wallet_of request = Some a).
Proof.
  exists (default "" (wallet_of request)). split.
  - apply (ledger_calls_after w request s).
  - unfold new_calls. paths w request s; normalise_calls; done.
Qed.

(** * Start-up *)
Example demo_main_runs :
  (main "/root" demo_node demo_process).1
  = Returned (mkLaunch "0.0.0.0" (PortStr "8080")
                (mkItemStore "Token" "TKN" "0xabc" "AFaucet" [] [] None)).
Proof. vm_compute. reflexivity. Qed.

Section Boot.

Implicit Types (p : Process) (data : Json).

Lemma bindB_Returned {A C} (m : B A) (f : A → B C) p c p' :
  (m ≫= f) p = (Returned c, p') →
  ∃ a p1, m p = (Returned a, p1) ∧ f a p1 = (Returned c, p').
Proof.
  unfold mbind, B_bind. destruct (m p) as [[a|e] p1]; [eauto|done].
Qed.

Lemma bindB_Raised {A C} (m : B A) (f : A → B C) p e p' :
  (m ≫= f) p = (Raised e, p') →
  m p = (Raised e, p') ∨ ∃ a p1, m p = (Returned a, p1) ∧ f a p1 = (Raised e, p').
Proof.
  unfold mbind, B_bind. destruct (m p) as [[a|e'] p1]; [eauto|].
  intros [= -> ->]. by left.
Qed.

Lemma load_json_inv filename p r p1 :
  load_json filename p = (r, p1) →
  p1 = p ∧ ∀ v, r = Returned v → files p !! filename = Some v.
Proof.
  unfold load_json. destruct (files p !! filename); intros [= <- <-];
    split; try done. by intros v [= ->].
Qed.

Lemma liftB_inv {A} (x : result A) p r p1 : liftB x p = (r, p1) → p1 = p ∧ x = r.
Proof. by intros [= <- <-]. Qed.

Lemma export_Returned data key p u p1 :
  export data key p = (Returned u, p1) →
  ∃ fields v, data = JObj fields ∧ str_field fields key = Some v
              ∧ p1 = set_env key v p.
Proof.
  unfold export. intros (x & p0 & [-> Hx]%liftB_inv & Hset)%bindB_Returned.
  unfold setenv in Hset. destruct x; try done.
  destruct (has_nul s) eqn:Hnul; [done|]. injection Hset as <-.
  destruct data; try done. cbn in Hx.
  destruct (fields !! key) as [y|] eqn:Ey; [|done]. injection Hx as ->.
  exists fields, s. unfold str_field. by rewrite Ey, Hnul.
Qed.

Lemma export_same data key keys p r p1 :
  export data key p = (r, p1) → key ∈ keys → same_outside keys p p1.
Proof.
  unfold export, mbind, B_bind, liftB, setenv. intros H Hin.
  destruct (getitem data key) as [x|e]; [|by injection H as <- <-].
  destruct x; try (by injection H as <- <-).
  destruct (has_nul s); injection H as <- <-; [done|].
  repeat split. cbn. intros k Hk. apply lookup_insert_ne. by intros ->.
Qed.

Lemma same_outside_trans keys p1 p2 p3 :
  same_outside keys p1 p2 → same_outside keys p2 p3 → same_outside keys p1 p3.
Proof.
  intros (F1 & I1 & W1 & E1) (F2 & I2 & W2 & E2).
  repeat split; try congruence. intros k Hk. by rewrite E2, E1.
Qed.

Lemma same_outside_refl keys p : same_outside keys p p.
Proof. done. Qed.

Lemma getitem_Returned data key x :
  getitem data key = Returned x → ∃ fields, data = JObj fields ∧ fields !! key = Some x.
Proof.
  destruct data; try done. cbn.
  destruct (fields !! key) eqn:E; [|done]. intros [= ->]. eauto.
Qed.

Lemma setitem_Returned data key x y :
  setitem data key x = Returned y →
  ∃ fields, data = JObj fields ∧ y = JObj (<[key := x]> fields).
Proof. destruct data; try done. cbn. intros [= <-]. eauto. Qed.

Lemma init_environ_Returned home f1 f2 f3 p b p' :
  init_environ home f1 f2 f3 p = (Returned b, p') →
  b = true
  ∧ ∃ faucet token proto app,
      files p !! f1 = Some (JObj faucet)
      ∧ files p !! f2 = Some (JObj token)
      ∧ files p !! f3 = Some (JObj proto)
      ∧ proto !! "ApplicationConfiguration" = Some (JObj app)
      ∧ (∀ k, k ∈ faucet_keys → ∃ v, str_field faucet k = Some v ∧ environ p' !! k = Some v)
      ∧ (∀ k, k ∈ token_keys → ∃ v, str_field token k = Some v ∧ environ p' !! k = Some v)
      ∧ (∀ k, k ∉ faucet_keys ++ token_keys → environ p' !! k = environ p !! k)
      ∧ files p' = <[f3 := with_chain_paths home proto app]> (files p)
      ∧ IPRequest_table p' = IPRequest_table p
      ∧ FaucetRequest_table p' = FaucetRequest_table p.
Proof.
  unfold init_environ. intros H.
  apply bindB_Returned in H as (fd & p0 & [-> Hf1]%load_json_inv & H).
  specialize (Hf1 _ eq_refl).
  apply bindB_Returned in H as (? & p1 & (faucet & v1 & -> & E1 & ->)%export_Returned & H).
  apply bindB_Returned in H as (? & p2 & (? & v2 & [= <-] & E2 & ->)%export_Returned & H).
  apply bindB_Returned in H as (? & p3 & (? & v3 & [= <-] & E3 & ->)%export_Returned & H).
  apply bindB_Returned in H as (? & p4 & (? & v4 & [= <-] & E4 & ->)%export_Returned & H).
  apply bindB_Returned in H as (? & p5 & (? & v5 & [= <-] & E5 & ->)%export_Returned & H).
  apply bindB_Returned in H as (td & p6 & [-> Hf2]%load_json_inv & H).
  specialize (Hf2 _ eq_refl).
  apply bindB_Returned in H as (? & p7 & (token & t1 & -> & T1 & ->)%export_Returned & H).
  apply bindB_Returned in H as (? & p8 & (? & t2 & [= <-] & T2 & ->)%export_Returned & H).
  apply bindB_Returned in H as (? & p9 & (? & t3 & [= <-] & T3 & ->)%export_Returned & H).
  apply bindB_Returned in H as (pd & p10 & [-> Hf3]%load_json_inv & H).
  specialize (Hf3 _ eq_refl).
  apply bindB_Returned in H as (a1 & ? & [-> (proto & -> & Hac)%getitem_Returned]%liftB_inv & H).
  apply bindB_Returned in H as (a2 & ? & [-> (app & -> & ->)%setitem_Returned]%liftB_inv & H).
  apply bindB_Returned in H as (d2 & ? & [-> Hd2]%liftB_inv & H).
  cbn in Hd2. injection Hd2 as <-.
  apply bindB_Returned in H as (a3 & ? & [-> Ha3]%liftB_inv & H).
  cbn in Ha3. rewrite lookup_insert_eq in Ha3. injection Ha3 as <-.
  apply bindB_Returned in H as (a4 & ? & [-> Ha4]%liftB_inv & H).
  cbn in Ha4. injection Ha4 as <-.
  apply bindB_Returned in H as (d3 & ? & [-> Hd3]%liftB_inv & H).
  cbn in Hd3. injection Hd3 as <-.
  apply bindB_Returned in H as (? & ? & Hdump & H).
  injection Hdump as _ <-. injection H as <- <-.
  cbn in Hf2, Hf3 |- *.
  split; [done|]. exists faucet, token, proto, app.
  split; [done|]. split; [done|]. split; [done|]. split; [done|].
  split; [|split; [|split; [|split; [|done]]]].
  - intros k Hk. unfold faucet_keys in Hk.
    repeat (apply elem_of_cons in Hk as [->|Hk]; [eexists; split; [eassumption|by simplify_map_eq]|]).
    by apply elem_of_nil in Hk.
  - intros k Hk. unfold token_keys in Hk.
    repeat (apply elem_of_cons in Hk as [->|Hk]; [eexists; split; [eassumption|by simplify_map_eq]|]).
    by apply elem_of_nil in Hk.
  - intros k Hk. unfold faucet_keys, token_keys in Hk. cbn in Hk.
    rewrite !not_elem_of_cons in Hk.
    destruct Hk as (? & ? & ? & ? & ? & ? & ? & ? & _).
    by rewrite !lookup_insert_ne by done.
  - unfold with_chain_paths. by rewrite insert_insert_eq.
Qed.

Lemma load_json_same keys filename p r p1 :
  load_json filename p = (r, p1) → same_outside keys p p1.
Proof. by intros [-> _]%load_json_inv. Qed.

Lemma liftB_same {A} keys (x : result A) p r p1 :
  liftB x p = (r, p1) → same_outside keys p p1.
Proof. by intros [-> _]%liftB_inv. Qed.

(** One step of a run that ends in an exception: either the step raised, or
    it returned and the run went on. *)
Ltac act keys H :=
  first [ apply (load_json_same keys) in H
        | apply (export_same _ _ keys) in H;
          [|unfold faucet_keys, token_keys; cbn;
            repeat first [apply list_elem_of_here | apply list_elem_of_further]]
        | apply (liftB_same keys) in H ].

Ltac walk H Hinv :=
  let H1 := fresh "H1" in
  apply bindB_Raised in H as [H|(? & ? & H1 & H)];
  [ act (faucet_keys ++ token_keys) H; exact (same_outside_trans _ _ _ _ Hinv H)
  | act (faucet_keys ++ token_keys) H1;
    apply (same_outside_trans _ _ _ _ Hinv) in H1; clear Hinv; rename H1 into Hinv ].

Lemma init_environ_Raised home f1 f2 f3 p e p' :
  init_environ home f1 f2 f3 p = (Raised e, p') →
  same_outside (faucet_keys ++ token_keys) p p'.
Proof.
  unfold init_environ. intros H.
  pose proof (same_outside_refl (faucet_keys ++ token_keys) p) as Hinv.
  do 17 walk H Hinv.
  apply bindB_Raised in H as [H|(? & ? & _ & H)]; discriminate H.
Qed.

Lemma bindB_ok {A C} (m : B A) (f : A → B C) p a p1 :
  m p = (Returned a, p1) → (m ≫= f) p = f a p1.
Proof. unfold mbind, B_bind. by intros ->. Qed.

Lemma export_ok fields key v p :
  str_field fields key = Some v →
  export (JObj fields) key p = (Returned tt, set_env key v p).
Proof.
  unfold str_field, export, mbind, B_bind, liftB, setenv, getitem. intros H.
  destruct (fields !! key) as [[]|]; try done.
  by destruct (has_nul s); simplify_eq.
Qed.

Lemma load_json_ok filename p v :
  files p !! filename = Some v → load_json filename p = (Returned v, p).
Proof. unfold load_json. by intros ->. Qed.

Lemma init_environ_ok home f1 f2 f3 p faucet token proto app v1 v2 v3 v4 v5 t1 t2 t3 :
  files p !! f1 = Some (JObj faucet) →
  files p !! f2 = Some (JObj token) →
  files p !! f3 = Some (JObj proto) →
  proto !! "ApplicationConfiguration" = Some (JObj app) →
  str_field faucet "FAUCET_WALLET_PATH" = Some v1 →
  str_field faucet "FAUCET_WALLET_ADDRESS" = Some v2 →
  str_field faucet "FAUCET_WALLET_PASSWORD" = Some v3 →
  str_field faucet "FAUCET_PORT" = Some v4 →
  str_field faucet "FAUCET_HOST" = Some v5 →
  str_field token "TOKEN_NAME" = Some t1 →
  str_field token "TOKEN_SYMBOL" = Some t2 →
  str_field token "TOKEN_SCRIPT_HASH" = Some t3 →
  init_environ home f1 f2 f3 p
  = (Returned true,
     mkProcess (<[f3 := with_chain_paths home proto app]> (files p))
       (<["TOKEN_SCRIPT_HASH" := t3]> (<["TOKEN_SYMBOL" := t2]> (<["TOKEN_NAME" := t1]>
          (<["FAUCET_HOST" := v5]> (<["FAUCET_PORT" := v4]>
             (<["FAUCET_WALLET_PASSWORD" := v3]> (<["FAUCET_WALLET_ADDRESS" := v2]>
                (<["FAUCET_WALLET_PATH" := v1]> (environ p)))))))))
       (IPRequest_table p) (FaucetRequest_table p)).
Proof.
  intros Hf1 Hf2 Hf3 Hac E1 E2 E3 E4 E5 T1 T2 T3. unfold init_environ.
  rewrite (bindB_ok _ _ _ _ _ (load_json_ok _ _ _ Hf1)).
  rewrite (bindB_ok _ _ _ _ _ (export_ok _ _ _ _ E1)).
  rewrite (bindB_ok _ _ _ _ _ (export_ok _ _ _ _ E2)).
  rewrite (bindB_ok _ _ _ _ _ (export_ok _ _ _ _ E3)).
  rewrite (bindB_ok _ _ _ _ _ (export_ok _ _ _ _ E4)).
  rewrite (bindB_ok _ _ _ _ _ (export_ok _ _ _ _ E5)).
  erewrite bindB_ok by (apply load_json_ok; exact Hf2).
  rewrite (bindB_ok _ _ _ _ _ (export_ok _ _ _ _ T1)).
  rewrite (bindB_ok _ _ _ _ _ (export_ok _ _ _ _ T2)).
  rewrite (bindB_ok _ _ _ _ _ (export_ok _ _ _ _ T3)).
  erewrite bindB_ok by (apply load_json_ok; exact Hf3).
  unfold mbind, B_bind, liftB, getitem. rewrite Hac. cbn.
  rewrite lookup_insert_eq. cbn.
  unfold with_chain_paths. by rewrite insert_insert_eq.
Qed.

End Boot.

Ltac solve_key :=
  unfold faucet_keys, token_keys;
  repeat first [apply list_elem_of_here | apply list_elem_of_further].

(** X14: when [init_environ] returns, it returns [True]; the three files
    held JSON objects; each of the eight variables is in the environment
    with the string the file gives it; no other variable changed; and the
    protocol file differs from before only in the two chain paths under
    [ApplicationConfiguration]. *)
Theorem X14_init_environ_exports (home f1 f2 f3 : string) (p : Process)
    (b : bool) (p' : Process) :
  init_environ home f1 f2 f3 p = (Returned b, p') →
  b = true
  ∧ ∃ faucet token proto app,
      files p !! f1 = Some (JObj faucet)
      ∧ files p !! f2 = Some (JObj token)
      ∧ files p !! f3 = Some (JObj proto)
      ∧ proto !! "ApplicationConfiguration" = Some (JObj app)
      ∧ (∀ k, k ∈ faucet_keys →
              ∃ v, faucet !! k = Some (JStr v) ∧ environ p' !! k = Some v)
      ∧ (∀ k, k ∈ token_keys →
              ∃ v, token !! k = Some (JStr v) ∧ environ p' !! k = Some v)
      ∧ (∀ k, k ∉ faucet_keys ++ token_keys → environ p' !! k = environ p !! k)
      ∧ files p'
        = <[f3 := JObj (<["ApplicationConfiguration" :=
                    JObj (<["NotificationDataPath" :=
                              JStr (home +:+ "/.neopython/Chains/Test_Notif")]>
                            (<["DataDirectoryPath" :=
                                 JStr (home +:+ "/.neopython/Chains/SC234")]> app))]>
                   proto)]> (files p)
      ∧ IPRequest_table p' = IPRequest_table p
      ∧ FaucetRequest_table p' = FaucetRequest_table p.
Proof.
  intros H. apply init_environ_Returned in H
    as (-> & faucet & token & proto & app & ? & ? & ? & ? & Hf & Ht & ? & ? & ? & ?).
  assert (Hstr : ∀ (data : gmap string Json) k v,
             str_field data k = Some v → data !! k = Some (JStr v)).
  { intros data k v. unfold str_field.
    destruct (data !! k) as [[]|]; try done. by destruct (has_nul s); intros [= ->]. }
  split; [done|]. exists faucet, token, proto, app.
  repeat split; try done.
  - intros k Hk. destruct (Hf k Hk) as (v & Hv & ?). eauto.
  - intros k Hk. destruct (Ht k Hk) as (v & Hv & ?). eauto.
Qed.

Lemma X14_witness :
  ∃ v, environ (init_environ "/root" "./config/environment.json"
                  "./config/nep5-token.json"
                  "./src/neo-python/neo/data/protocol.testnet.json"
                  demo_process).2 !! "FAUCET_HOST" = Some v.
Proof.
  destruct (X14_init_environ_exports "/root" "./config/environment.json"
              "./config/nep5-token.json"
              "./src/neo-python/neo/data/protocol.testnet.json" demo_process true
              (init_environ "/root" "./config/environment.json"
                 "./config/nep5-token.json"
                 "./src/neo-python/neo/data/protocol.testnet.json" demo_process).2)
    as (_ & faucet & token & proto & app & _ & _ & _ & _ & Hf & _).
  - vm_compute. reflexivity.
  - destruct (Hf "FAUCET_HOST") as (v & _ & Hv); [solve_key|]. exists v. exact Hv.
Defined.

(** X15: when [init_environ] raises, no file has been written and the
    tables are untouched; the only trace it leaves is in the eight
    variables it exports. *)
Theorem X15_init_environ_failure_writes_no_file (home f1 f2 f3 : string)
    (p : Process) (e : Exn) (p' : Process) :
  init_environ home f1 f2 f3 p = (Raised e, p') →
  files p' = files p
  ∧ IPRequest_table p' = IPRequest_table p
  ∧ FaucetRequest_table p' = FaucetRequest_table p
  ∧ ∀ k, k ∉ faucet_keys ++ token_keys → environ p' !! k = environ p !! k.
Proof. apply init_environ_Raised. Qed.

Lemma X15_witness :
  files (init_environ "/root" "./config/environment.json" "missing.json"
           "./src/neo-python/neo/data/protocol.testnet.json" demo_process).2
  = files demo_process.
Proof.
  destruct (X15_init_environ_failure_writes_no_file "/root" "./config/environment.json"
              "missing.json" "./src/neo-python/neo/data/protocol.testnet.json"
              demo_process "[Errno 2] No such file or directory: 'missing.json'"
              (init_environ "/root" "./config/environment.json" "missing.json"
                 "./src/neo-python/neo/data/protocol.testnet.json" demo_process).2)
    as (H & _).
  - vm_compute. reflexivity.
  - exact H.
Defined.

Section Restart.

Lemma chain_paths_fixed home (proto app : gmap string Json) :
  let app' := <["NotificationDataPath" := JStr (home +:+ "/.neopython/Chains/Test_Notif")]>
                (<["DataDirectoryPath" := JStr (home +:+ "/.neopython/Chains/SC234")]> app) in
  let proto' := <["ApplicationConfiguration" := JObj app']> proto in
  with_chain_paths home proto' app' = JObj proto'.
Proof.
  intros app' proto'. unfold with_chain_paths. f_equal.
  assert (<["DataDirectoryPath" := JStr (home +:+ "/.neopython/Chains/SC234")]> app' = app')
    as ->.
  { apply insert_id. subst app'. by rewrite lookup_insert_ne, lookup_insert_eq. }
  assert (<["NotificationDataPath" := JStr (home +:+ "/.neopython/Chains/Test_Notif")]> app'
          = app') as ->.
  { apply insert_id. subst app'. by rewrite lookup_insert_eq. }
  subst proto'. by rewrite insert_insert_eq.
Qed.

Lemma str_field_other (proto : gmap string Json) key x k :
  k ≠ key → str_field (<[key := x]> proto) k = str_field proto k.
Proof. intros Hne. unfold str_field. by rewrite lookup_insert_ne. Qed.

End Restart.

(** X16: [init_environ] can be run again.  After a run that returned, a
    second run on what the first left behind returns [True] and changes
    nothing: neither the environment nor any file. *)
Theorem X16_init_environ_is_idempotent (home f1 f2 f3 : string) (p : Process)
    (b : bool) (p' : Process) :
  init_environ home f1 f2 f3 p = (Returned b, p') →
  init_environ home f1 f2 f3 p' = (Returned true, p').
Proof.
  intros H. apply init_environ_Returned in H
    as (-> & faucet & token & proto & app & Hf1 & Hf2 & Hf3 & Hac & Hf & Ht & _ & Hfiles & _).
  set (app' := <["NotificationDataPath" := JStr (home +:+ "/.neopython/Chains/Test_Notif")]>
                 (<["DataDirectoryPath" := JStr (home +:+ "/.neopython/Chains/SC234")]> app)).
  set (proto' := <["ApplicationConfiguration" := JObj app']> proto).
  assert (Hfiles' : files p' = <[f3 := JObj proto']> (files p)) by exact Hfiles.
  assert (Hagain : ∀ f data, files p !! f = Some (JObj data) →
            ∃ data', files p' !! f = Some (JObj data')
                     ∧ ∀ k, k ≠ "ApplicationConfiguration" →
                            str_field data' k = str_field data k).
  { intros f data Hd. rewrite Hfiles'. destruct (decide (f3 = f)) as [->|Hne].
    - rewrite lookup_insert_eq. exists proto'. split; [done|].
      intros k Hk. rewrite Hf3 in Hd. injection Hd as <-.
      by apply str_field_other.
    - rewrite lookup_insert_ne by done. eauto. }
  destruct (Hagain _ _ Hf1) as (faucet' & Hf1' & Hsf).
  destruct (Hagain _ _ Hf2) as (token' & Hf2' & Hst).
  assert (Hf3' : files p' !! f3 = Some (JObj proto'))
    by (rewrite Hfiles'; apply lookup_insert_eq).
  assert (Hac' : proto' !! "ApplicationConfiguration" = Some (JObj app'))
    by apply lookup_insert_eq.
  destruct (Hf "FAUCET_WALLET_PATH") as (v1 & E1 & L1); [solve_key|].
  destruct (Hf "FAUCET_WALLET_ADDRESS") as (v2 & E2 & L2); [solve_key|].
  destruct (Hf "FAUCET_WALLET_PASSWORD") as (v3 & E3 & L3); [solve_key|].
  destruct (Hf "FAUCET_PORT") as (v4 & E4 & L4); [solve_key|].
  destruct (Hf "FAUCET_HOST") as (v5 & E5 & L5); [solve_key|].
  destruct (Ht "TOKEN_NAME") as (t1 & T1 & M1); [solve_key|].
  destruct (Ht "TOKEN_SYMBOL") as (t2 & T2 & M2); [solve_key|].
  destruct (Ht "TOKEN_SCRIPT_HASH") as (t3 & T3 & M3); [solve_key|].
  rewrite (init_environ_ok home f1 f2 f3 p' faucet' token' proto' app'
             v1 v2 v3 v4 v5 t1 t2 t3); try done;
    try (rewrite ?Hsf, ?Hst by done; done).
  f_equal. subst app' proto'. rewrite chain_paths_fixed.
  rewrite (insert_id (files p')) by done.
  rewrite (insert_id _ _ _ L1), (insert_id _ _ _ L2), (insert_id _ _ _ L3),
    (insert_id _ _ _ L4), (insert_id _ _ _ L5), (insert_id _ _ _ M1),
    (insert_id _ _ _ M2), (insert_id _ _ _ M3).
  by destruct p'.
Qed.

Lemma X16_witness :
  init_environ "/root" "./config/environment.json" "./config/nep5-token.json"
    "./src/neo-python/neo/data/protocol.testnet.json"
    (init_environ "/root" "./config/environment.json" "./config/nep5-token.json"
       "./src/neo-python/neo/data/protocol.testnet.json" demo_process).2
  = (Returned true,
     (init_environ "/root" "./config/environment.json" "./config/nep5-token.json"
        "./src/neo-python/neo/data/protocol.testnet.json" demo_process).2).
Proof.
  apply (X16_init_environ_is_idempotent "/root" "./config/environment.json"
           "./config/nep5-token.json"
           "./src/neo-python/neo/data/protocol.testnet.json" demo_process true).
  vm_compute. reflexivity.
Defined.

(** What [_create_tables] does to the process. *)
Lemma _create_tables_inv (node : Node) (p : Process) (r : result unit) (p' : Process) :
  _create_tables node p = (r, p') →
  files p' = files p
  ∧ environ p' = environ p
  ∧ (∀ t, table t p' = table t p ∨ (table t p = None ∧ table t p' = Some ∅))
  ∧ (r = Returned tt → ∀ t, table t p' = Some (default ∅ (table t p)))
  ∧ ((∀ t, exists_raises node t = None) → (∀ t, create_table_fault node t = None) →
     r = Returned tt)
  ∧ (∀ e, exists_raises node FaucetRequestTable = Some e → r = Raised e ∧ p' = p).
Proof.
  unfold _create_tables, Model_exists, Model_create_table, mbind, B_bind, mret, B_ret.
  cbn.
  destruct (exists_raises node FaucetRequestTable) as [e1|] eqn:X1.
  { intros [= <- <-]. repeat split; try done; try (by intros [|]; left);
      try congruence. }
  destruct (exists_raises node IPRequestTable) as [e2|] eqn:X2;
    destruct (create_table_fault node FaucetRequestTable) as [[e3 []]|] eqn:C1;
    destruct (create_table_fault node IPRequestTable) as [[e4 []]|] eqn:C2;
    destruct p as [fs env [ip|] [fa|]]; cbn; rewrite ?X2, ?C2; cbn.
  all: intros [= <- <-]; cbn.
  all: split; [done|]; split; [done|].
  all: split; [intros [|]; cbn; auto|].
  all: split; [try done; by intros _ [|]|].
  all: split; [|done].
  all: try done.
  all: intros Hx Hc; try (by rewrite Hx in X2); try (by rewrite Hc in C1);
    try (by rewrite Hc in C2).
Qed.

Ltac fin Hnofirst :=
  intros [= <- <-];
  split; [done|]; split; [done|]; split; [done|];
  split;
  [first [by intros ? [=]
         |intros ? [= <-]; repeat split; try done; by eexists]|];
  split;
  [intros _ _; split; [done|]; first [done|by intros [|[|]]]
  |by intros ? ?%Hnofirst].

(** What [__init__] does to the process and what it returns. *)
Lemma ItemStore_init_inv (node : Node) (p : Process) (r : result ItemStore)
    (p' : Process) :
  __init__ node p = (r, p') →
  files p' = files p
  ∧ environ p' = environ p
  ∧ (∀ t, table t p' = table t p ∨ (table t p = None ∧ table t p' = Some ∅))
  ∧ (∀ store, r = Returned store →
       (∀ t, table t p' = Some (default ∅ (table t p)))
       ∧ environ p !! "TOKEN_NAME" = Some (token_name store)
       ∧ environ p !! "TOKEN_SYMBOL" = Some (token_symbol store)
       ∧ environ p !! "TOKEN_SCRIPT_HASH" = Some (token_script_hash store)
       ∧ environ p !! "FAUCET_WALLET_ADDRESS" = Some (faucet_wallet_addr store)
       ∧ is_Some (environ p !! "FAUCET_WALLET_PATH")
       ∧ params store = [] ∧ invoke_args store = [] ∧ sent_tx store = None)
  ∧ ((∀ t, exists_raises node t = None) → (∀ t, create_table_fault node t = None) →
     (∀ t, table t p' = Some (default ∅ (table t p)))
     ∧ (environ p !! "TOKEN_NAME" = None ∨ environ p !! "TOKEN_SYMBOL" = None
        ∨ environ p !! "TOKEN_SCRIPT_HASH" = None →
        r = Raised token_config_message))
  ∧ (∀ e, exists_raises node FaucetRequestTable = Some e → r = Raised e ∧ p' = p).
Proof.
  unfold __init__. unfold mbind at 1. unfold B_bind at 1.
  destruct (_create_tables node p) as [[[]|e0] p1] eqn:Hc;
    apply _create_tables_inv in Hc as (Hfi & Hen & Hkeep & Hboth & Hok & Hfirst).
  2:{ intros [= <- <-].
      split; [done|]. split; [done|]. split; [done|]. split; [by intros ? [=]|].
      split; [intros Hx Hy; by specialize (Hok Hx Hy)|].
      intros e He. destruct (Hfirst e He) as [[= ->] ->]. done. }
  specialize (Hboth eq_refl).
  assert (Hnofirst : ∀ e, exists_raises node FaucetRequestTable = Some e → False).
  { intros e He. by destruct (Hfirst e He). }
  clear Hok Hfirst.
  unfold mbind, B_bind, mret, B_ret, liftB. rewrite Hen.
  destruct (environ p !! "TOKEN_NAME") as [n|] eqn:En; [|fin Hnofirst].
  destruct (environ p !! "TOKEN_SYMBOL") as [sy|] eqn:Es; [|fin Hnofirst].
  destruct (environ p !! "TOKEN_SCRIPT_HASH") as [h|] eqn:Eh; [|fin Hnofirst].
  destruct (to_aes_key node _) as [[key|]|e]; [|fin Hnofirst..].
  destruct (environ p !! "FAUCET_WALLET_PATH") as [path|] eqn:Ep; [|fin Hnofirst].
  destruct (environ p !! "FAUCET_WALLET_ADDRESS") as [addr|] eqn:Ea; [|fin Hnofirst].
  destruct (UserWallet_Open node path _) as [[]|e]; [|fin Hnofirst].
  destruct (LoopingCall_start node) as [[]|e]; [|fin Hnofirst].
  destruct (wallet_Rebuild node) as [[]|e]; [|fin Hnofirst].
  destruct (wallet_ToJson node) as [json|e]; fin Hnofirst.
Qed.

(** X17: constructing the [ItemStore] writes no file and no variable, and
    never alters or drops a table that exists: each table afterwards is as
    it was, or was missing and is now there, empty.  When the constructor
    returns, both tables exist and the store carries the four configured
    strings, empty argument lists and no sent transaction.  When the store
    answers [exists] and [create_table] without fault, both tables exist
    afterwards whatever happens next, and without one of the three token
    variables the constructor raises the token message.  When [exists]
    faults for the first table, the constructor raises that fault and has
    changed nothing. *)
Theorem X17_ItemStore_init (node : Node) (p : Process) (r : result ItemStore)
    (p' : Process) :
  __init__ node p = (r, p') →
  files p' = files p
  ∧ environ p' = environ p
  ∧ (∀ t, table t p' = table t p ∨ (table t p = None ∧ table t p' = Some ∅))
  ∧ (∀ store, r = Returned store →
       (∀ t, table t p' = Some (default ∅ (table t p)))
       ∧ environ p !! "TOKEN_NAME" = Some (token_name store)
       ∧ environ p !! "TOKEN_SYMBOL" = Some (token_symbol store)
       ∧ environ p !! "TOKEN_SCRIPT_HASH" = Some (token_script_hash store)
       ∧ environ p !! "FAUCET_WALLET_ADDRESS" = Some (faucet_wallet_addr store)
       ∧ is_Some (environ p !! "FAUCET_WALLET_PATH")
       ∧ params store = [] ∧ invoke_args store = [] ∧ sent_tx store = None)
  ∧ ((∀ t, exists_raises node t = None) → (∀ t, create_table_fault node t = None) →
     (∀ t, table t p' = Some (default ∅ (table t p)))
     ∧ (environ p !! "TOKEN_NAME" = None ∨ environ p !! "TOKEN_SYMBOL" = None
        ∨ environ p !! "TOKEN_SCRIPT_HASH" = None →
        r = Raised token_config_message))
  ∧ (∀ e, exists_raises node FaucetRequestTable = Some e → r = Raised e ∧ p' = p).
Proof. apply ItemStore_init_inv. Qed.

Lemma X17_witness :
  (IPRequest_table (__init__ demo_node demo_process).2 = Some ∅
   ∧ FaucetRequest_table (__init__ demo_node demo_process).2 = Some boundary_tbl
   ∧ (__init__ demo_node demo_process).1 = Raised token_config_message)
  ∧ (table FaucetRequestTable (__init__ flaky_node demo_process).2
     = table FaucetRequestTable demo_process
     ∨ (table FaucetRequestTable demo_process = None
        ∧ table FaucetRequestTable (__init__ flaky_node demo_process).2 = Some ∅)).
Proof.
  split.
  - destruct (X17_ItemStore_init demo_node demo_process
                (__init__ demo_node demo_process).1 (__init__ demo_node demo_process).2)
      as (_ & _ & _ & _ & H & _).
    + by destruct (__init__ demo_node demo_process).
    + destruct H as [Htab Hmsg]; [reflexivity..|].
      split; [exact (Htab IPRequestTable)|].
      split; [exact (Htab FaucetRequestTable)|]. apply Hmsg. left. reflexivity.
  - destruct (X17_ItemStore_init flaky_node demo_process
                (__init__ flaky_node demo_process).1 (__init__ flaky_node demo_process).2)
      as (_ & _ & H & _).
    + by destruct (__init__ flaky_node demo_process).
    + exact (H FaucetRequestTable).
Defined.

(** The exported variables, read back from the files. *)
Lemma init_environ_fields home f1 f2 f3 p b p' :
  init_environ home f1 f2 f3 p = (Returned b, p') →
  ∃ faucet token,
    files p !! f1 = Some (JObj faucet)
    ∧ files p !! f2 = Some (JObj token)
    ∧ (∀ k, k ∈ faucet_keys →
            ∃ v, faucet !! k = Some (JStr v) ∧ environ p' !! k = Some v)
    ∧ (∀ k, k ∈ token_keys →
            ∃ v, token !! k = Some (JStr v) ∧ environ p' !! k = Some v).
Proof.
  intros H. apply init_environ_Returned in H
    as (-> & faucet & token & proto & app & ? & ? & ? & ? & Hf & Ht & _).
  assert (Hstr : ∀ (data : gmap string Json) k v,
             str_field data k = Some v → data !! k = Some (JStr v)).
  { intros data k v. unfold str_field.
    destruct (data !! k) as [[]|]; try done. by destruct (has_nul s); intros [= ->]. }
  exists faucet, token. repeat split; try done.
  - intros k Hk. destruct (Hf k Hk) as (v & Hv & ?). eauto.
  - intros k Hk. destruct (Ht k Hk) as (v & Hv & ?). eauto.
Qed.

(** X18: once [init_environ] has returned, the construction of the
    [ItemStore] cannot fail for a missing variable.  With the password and
    the path the environment file gave, it fails only as one of these
    fails, in this order: the creation of the tables, the derivation of the
    key (also when no key comes back), the opening of the wallet, the start
    of the block loop, the rebuild of the wallet, and the JSON dump for the
    log line; otherwise it returns the store configured from the two
    files. *)
Theorem X18_init_after_init_environ (home f1 f2 f3 : string) (node : Node)
    (p : Process) (b : bool) (p1 : Process) :
  init_environ home f1 f2 f3 p = (Returned b, p1) →
  ∃ faucet token path addr pw name symbol hash,
    files p !! f1 = Some (JObj faucet)
    ∧ files p !! f2 = Some (JObj token)
    ∧ faucet !! "FAUCET_WALLET_PATH" = Some (JStr path)
    ∧ faucet !! "FAUCET_WALLET_ADDRESS" = Some (JStr addr)
    ∧ faucet !! "FAUCET_WALLET_PASSWORD" = Some (JStr pw)
    ∧ token !! "TOKEN_NAME" = Some (JStr name)
    ∧ token !! "TOKEN_SYMBOL" = Some (JStr symbol)
    ∧ token !! "TOKEN_SCRIPT_HASH" = Some (JStr hash)
    ∧ (__init__ node p1).1
      = match (_create_tables node p1).1 with
        | Raised e => Raised e
        | Returned _ =>
        match to_aes_key node (Some pw) with
        | Raised e => Raised e
        | Returned None => Raised wallet_config_message
        | Returned (Some key) =>
        match UserWallet_Open node path (Some key) with
        | Raised e => Raised e
        | Returned _ =>
        match LoopingCall_start node with
        | Raised e => Raised e
        | Returned _ =>
        match wallet_Rebuild node with
        | Raised e => Raised e
        | Returned _ =>
        match wallet_ToJson node with
        | Raised e => Raised e
        | Returned _ => Returned (mkItemStore name symbol hash addr [] [] None)
        end end end end end end.
Proof.
  intros H. apply init_environ_fields in H
    as (faucet & token & Hf1 & Hf2 & Hf & Ht).
  destruct (Hf "FAUCET_WALLET_PATH") as (path & ? & Lp); [solve_key|].
  destruct (Hf "FAUCET_WALLET_ADDRESS") as (addr & ? & La); [solve_key|].
  destruct (Hf "FAUCET_WALLET_PASSWORD") as (pw & ? & Lw); [solve_key|].
  destruct (Ht "TOKEN_NAME") as (name & ? & Ln); [solve_key|].
  destruct (Ht "TOKEN_SYMBOL") as (symbol & ? & Ls); [solve_key|].
  destruct (Ht "TOKEN_SCRIPT_HASH") as (hash & ? & Lh); [solve_key|].
  exists faucet, token, path, addr, pw, name, symbol, hash.
  repeat split; try done.
  unfold __init__. unfold mbind at 1. unfold B_bind at 1.
  destruct (_create_tables node p1) as [[[]|e0] p2] eqn:Hc; [|done].
  apply _create_tables_inv in Hc as (_ & Hen & _).
  unfold mbind, B_bind, mret, B_ret, liftB. cbn.
  rewrite Hen, Ln, Ls, Lh, Lw, Lp, La.
  destruct (to_aes_key node (Some pw)) as [[key|]|e]; try done.
  destruct (UserWallet_Open node path (Some key)); [|done].
  destruct (LoopingCall_start node); [|done].
  destruct (wallet_Rebuild node); [|done].
  by destruct (wallet_ToJson node).
Qed.

Lemma X18_witness :
  ∃ name symbol hash addr,
    (__init__ demo_node
       (init_environ "/root" "./config/environment.json" "./config/nep5-token.json"
          "./src/neo-python/neo/data/protocol.testnet.json" demo_process).2).1
    = Returned (mkItemStore name symbol hash addr [] [] None).
Proof.
  destruct (X18_init_after_init_environ "/root" "./config/environment.json"
              "./config/nep5-token.json"
              "./src/neo-python/neo/data/protocol.testnet.json" demo_node demo_process
              true
              (init_environ "/root" "./config/environment.json"
                 "./config/nep5-token.json"
                 "./src/neo-python/neo/data/protocol.testnet.json" demo_process).2)
    as (faucet & token & path & addr & pw & name & symbol & hash & _ & _ & _ & _ & _
        & _ & _ & _ & H).
  - vm_compute. reflexivity.
  - exists name, symbol, hash, addr. exact H.
Defined.

(** X19: when [main] gets as far as launching the web application, host
    and port are the strings of the environment file (the fall-backs
    localhost and 80 are never used), the store is configured from the two
    files with no sent transaction, the expect script ran successfully if
    the chain was missing, and the tables the routes start from hold
    exactly the rows that were there before. *)
Theorem X19_main_launch (home : string) (node : Node) (p : Process)
    (l : Launch) (p' : Process) :
  main home node p = (Returned l, p') →
  ∃ faucet token port,
    files p !! "./config/environment.json" = Some (JObj faucet)
    ∧ files p !! "./config/nep5-token.json" = Some (JObj token)
    ∧ faucet !! "FAUCET_HOST" = Some (JStr (launch_host l))
    ∧ launch_port l = PortStr port
    ∧ faucet !! "FAUCET_PORT" = Some (JStr port)
    ∧ faucet !! "FAUCET_WALLET_ADDRESS"
      = Some (JStr (faucet_wallet_addr (launch_store l)))
    ∧ token !! "TOKEN_NAME" = Some (JStr (token_name (launch_store l)))
    ∧ token !! "TOKEN_SYMBOL" = Some (JStr (token_symbol (launch_store l)))
    ∧ token !! "TOKEN_SCRIPT_HASH" = Some (JStr (token_script_hash (launch_store l)))
    ∧ sent_tx (launch_store l) = None
    ∧ IPRequest_rows (launch_server l p') = default ∅ (IPRequest_table p)
    ∧ FaucetRequest_rows (launch_server l p') = default ∅ (FaucetRequest_table p)
    ∧ (chains_exist node = false → np_setup node = Returned tt)
    ∧ node_start node = Returned tt.
Proof.
  unfold main. intros H.
  apply bindB_Returned in H as ([] & p0 & Hsetup & H).
  assert (p0 = p ∧ (chains_exist node = false → np_setup node = Returned tt)) as [-> Hnp].
  { destruct (chains_exist node); [by injection Hsetup as <-|].
    apply liftB_inv in Hsetup as [-> ->]. done. }
  apply bindB_Returned in H as (b & p1 & Hinit & H).
  apply bindB_Returned in H as ([] & ? & [-> Hstart]%liftB_inv & H).
  apply bindB_Returned in H as (env & ? & [= <- <-] & H).
  apply bindB_Returned in H as (store & p2 & Hstore & H).
  injection H as <- <-.
  pose proof (init_environ_Returned _ _ _ _ _ _ _ Hinit)
    as (_ & ? & ? & ? & ? & _ & _ & _ & _ & _ & _ & _ & _ & Hti & Htf).
  apply init_environ_fields in Hinit as (faucet & token & Hf1 & Hf2 & Hf & Ht).
  apply ItemStore_init_inv in Hstore as (_ & _ & _ & Hfields & _).
  destruct (Hfields _ eq_refl) as (Htab & Ln & Ls & Lh & La & _ & _ & _ & Hsent).
  pose proof (Htab IPRequestTable) as Hip. pose proof (Htab FaucetRequestTable) as Hfa.
  cbn in Hip, Hfa.
  destruct (Hf "FAUCET_HOST") as (host & ? & Lhost); [solve_key|].
  destruct (Hf "FAUCET_PORT") as (port & ? & Lport); [solve_key|].
  destruct (Hf "FAUCET_WALLET_ADDRESS") as (addr & ? & La'); [solve_key|].
  destruct (Ht "TOKEN_NAME") as (name & ? & Ln'); [solve_key|].
  destruct (Ht "TOKEN_SYMBOL") as (symbol & ? & Ls'); [solve_key|].
  destruct (Ht "TOKEN_SCRIPT_HASH") as (hash & ? & Lh'); [solve_key|].
  exists faucet, token, port. cbn. rewrite Lhost, Lport. cbn.
  unfold launch_server. cbn. rewrite Hip, Hfa. cbn.
  repeat split; try done; congruence.
Qed.

Lemma X19_witness :
  ∃ faucet port,
    files demo_process !! "./config/environment.json" = Some (JObj faucet)
    ∧ faucet !! "FAUCET_HOST" = Some (JStr "0.0.0.0")
    ∧ faucet !! "FAUCET_PORT" = Some (JStr port).
Proof.
  destruct (X19_main_launch "/root" demo_node demo_process
              (mkLaunch "0.0.0.0" (PortStr "8080")
                 (mkItemStore "Token" "TKN" "0xabc" "AFaucet" [] [] None))
              (main "/root" demo_node demo_process).2)
    as (faucet & token & port & H1 & _ & H2 & _ & H3 & _).
  - vm_compute. reflexivity.
  - exists faucet, port. split; [exact H1|]. split; [exact H2|exact H3].
Defined.
